(** * LibreLink client: session and credential lifecycle

    A shallow embedding of [src/librelink-client.ts] (class [LibreLinkClient])
    and of the [clear_session] handler of [src/index.ts].

    The class mutates its own fields, talks to a token store through its
    [ConfigManager] and to the LibreLinkUp servers through axios, and throws
    JavaScript exceptions.  All of this is threaded through a small
    state-and-exception monad [M]: the state is the client object together
    with the outside world (token file, servers, clock, and the history of
    every interaction so far).  Methods that call themselves ([login] on a
    region redirect, [getConnections] and [getGraphData] on a 401) are defined
    by recursion on a fuel argument; running out of fuel is [None]. *)

From Stdlib Require Import String Ascii ZArith List Bool Lia PeanoNat.
From Stdlib Require Import Permutation Sorted.
Import ListNotations.

Open Scope string_scope.
Open Scope Z_scope.

(* ================================================================= *)
(** ** JavaScript values *)

(** Truthiness of a [string | null | undefined]: the empty string is falsy. *)
Definition truthy (v : option string) : bool :=
  match v with
  | Some s => negb (s =? "")%string
  | None => false
  end.

(** [a || b] on such values. *)
Definition js_or (a b : option string) : option string :=
  if truthy a then a else b.

Definition is_some {A} (o : option A) : bool :=
  match o with Some _ => true | None => false end.

Definition opt_Z_eqb (a : option Z) (b : Z) : bool :=
  match a with Some x => x =? b | None => false end.

Definition opt_string_eqb (a : option string) (b : string) : bool :=
  match a with Some x => (x =? b)%string | None => false end.

(* ================================================================= *)
(** ** Data model *)

Record LibreLinkConfig := mkConfig {
  email : string;
  password : string;
  region : string;
  clientVersion : string;
  targetLow : Z;
  targetHigh : Z
}.

(** [Partial<LibreLinkConfig>]: every key may be missing. *)
Record PartialConfig := mkPartial {
  p_email : option string;
  p_password : option string;
  p_region : option string;
  p_clientVersion : option string;
  p_targetLow : option Z;
  p_targetHigh : option Z
}.

Module Stored.
(** [StoredTokenData] of secure-storage.ts. *)
Record TokenData := mk {
  token : string;
  expires : Z;
  userId : string;
  accountId : string;
  region : string
}.
End Stored.

(** The [user] member of a login response.  [id] is read by [login] without
    a test: [None] stands for an id that is missing or null (an id of another
    JSON type is not modelled). *)
Record User := mkUser {
  id : option string;
  firstName : string;
  lastName : string;
  userEmail : string;
  country : string
}.

Record AuthTicket := mkTicket {
  ticketToken : string;
  ticketExpires : Z;
  ticketDuration : Z
}.

(** [LoginResponse]: [status] and the members of [data].  [authTicket] is
    tested for presence by [login], [redirect] and [region] are optional;
    [user] is read without a test, and a body may come without it. *)
Record LoginResponse := mkLoginResponse {
  lr_status : Z;
  lr_user : option User;
  lr_authTicket : option AuthTicket;
  lr_redirect : option bool;
  lr_region : option string
}.

Record Connection := mkConnection {
  connPatientId : string;
  connFirstName : string;
  connLastName : string
}.

Record RawGlucoseItem := mkRaw {
  ValueInMgPerDl : Z;
  Timestamp : string;
  TrendArrow : option Z;
  isHigh : bool;
  isLow : bool
}.

Record GraphResponse := mkGraph {
  glucoseMeasurement : RawGlucoseItem;
  graphData : list RawGlucoseItem
}.

(** What the catch blocks look at in an axios error:
    [error.response?.status], [error.response.data?.data?.minimumVersion],
    [error.response.data?.message] and [error.message]. *)
Record AxiosErr := mkAxiosErr {
  errStatus : option Z;
  errMinimumVersion : option string;
  errResponseMessage : option string;
  errMessage : string
}.

(** Thrown values. *)
Inductive Error :=
| JsError (message : string)       (* new Error(message) *)
| AxiosError (e : AxiosErr)        (* axios.isAxiosError(error) *)
| CorruptedStoreError              (* raised by the token store *)
| StoreWriteError
| OtherError (message : string).   (* anything else: a TypeError, a network fault *)

Inductive HttpResult (A : Type) :=
| HttpOk (body : A)
| HttpAxiosError (e : AxiosErr)
| HttpOtherError (message : string).
Arguments HttpOk {A} body.
Arguments HttpAxiosError {A} e.
Arguments HttpOtherError {A} message.

Inductive Method := GET | POST.

Record Request := mkRequest {
  reqMethod : Method;
  reqBaseURL : option string;
  reqPath : string;
  reqHeaders : list (string * string);
  reqBody : option (string * string)      (* { email, password } *)
}.

Record AxiosInstance := mkAxios {
  baseURL : option string;
  headers : list (string * string);
  timeout : Z
}.

Fixpoint header (name : string) (hs : list (string * string)) : option string :=
  match hs with
  | [] => None
  | (k, v) :: tl => if (k =? name)%string then Some v else header name tl
  end.

Inductive ConfigManager := TheConfigManager.

Record LibreLinkClient := mkClient {
  config : LibreLinkConfig;
  configManager : option ConfigManager;
  baseUrl : option string;
  jwtToken : option string;
  userId : option string;
  accountId : option string;
  patientId : option string;
  tokenExpires : Z
}.

(* ================================================================= *)
(** ** The world outside the client *)

Inductive Event :=
| EvGetToken
| EvClearToken
| EvSaveToken (td : Stored.TokenData)
| EvRequest (r : Request)
| EvConsole (msg : string) (err : option Error).

(** Modelled from the spec: the Token Store behind [ConfigManager.getToken],
    [saveToken] and [clearToken] (config.ts and secure-storage.ts).  The
    encrypted token file is absent, holds a bundle, or is unreadable (malformed
    envelope or failed tag check). *)
Inductive TokenFile :=
| NoFile
| Sealed (td : Stored.TokenData)
| Damaged.

(** The servers answer a request knowing everything that happened before it;
    the clock gives the value of [Date.now()] after a given number of
    interactions; [trace] is the history, most recent event first. *)
Record World := mkWorld {
  tokenFile : TokenFile;
  tokenWritable : bool;
  onLogin : list Event -> Request -> HttpResult LoginResponse;
  onConnections : list Event -> Request -> HttpResult (option (list Connection));
  onGraph : list Event -> Request -> HttpResult GraphResponse;
  clock : nat -> Z;
  trace : list Event
}.

Definition record (e : Event) (w : World) : World :=
  mkWorld (tokenFile w) (tokenWritable w) (onLogin w) (onConnections w)
          (onGraph w) (clock w) (e :: trace w).

Definition with_tokenFile (f : TokenFile) (w : World) : World :=
  mkWorld f (tokenWritable w) (onLogin w) (onConnections w)
          (onGraph w) (clock w) (trace w).

(* ================================================================= *)
(** ** The monad *)

Definition St : Type := LibreLinkClient * World.

Inductive Outcome (A : Type) :=
| Ret (a : A)
| Throw (e : Error).
Arguments Ret {A} a.
Arguments Throw {A} e.

(** [None]: the fuel ran out before the call settled. *)
Definition M (A : Type) : Type := St -> option (Outcome A * St).

Definition ret {A} (a : A) : M A := fun s => Some (Ret a, s).

Definition throw {A} (e : Error) : M A := fun s => Some (Throw e, s).

Definition out_of_fuel {A} : M A := fun _ => None.

Definition bind {A B} (m : M A) (f : A -> M B) : M B :=
  fun s =>
    match m s with
    | None => None
    | Some (Ret a, s') => f a s'
    | Some (Throw e, s') => Some (Throw e, s')
    end.

Definition try_catch {A} (m : M A) (h : Error -> M A) : M A :=
  fun s =>
    match m s with
    | Some (Throw e, s') => h e s'
    | r => r
    end.

Declare Scope js_scope.
Delimit Scope js_scope with js.
Notation "x <- m ;; k" := (bind m (fun x => k))
  (at level 61, m at next level, right associativity) : js_scope.
Notation "m ;; k" := (bind m (fun _ => k))
  (at level 61, right associativity) : js_scope.
Open Scope js_scope.

Definition this : M LibreLinkClient := fun s => Some (Ret (fst s), s).

Definition assign (f : LibreLinkClient -> LibreLinkClient) : M unit :=
  fun s => Some (Ret tt, (f (fst s), snd s)).

Definition emit (e : Event) : M unit :=
  fun s => Some (Ret tt, (fst s, record e (snd s))).

(** [Date.now()] *)
Definition Date_now : M Z :=
  fun s => Some (Ret (clock (snd s) (length (trace (snd s)))), s).

Definition console_error (msg : string) (err : option Error) : M unit :=
  emit (EvConsole msg err).

(** Field assignments [this.f = v]. *)
Definition set_config (v : LibreLinkConfig) (c : LibreLinkClient) :=
  mkClient v (configManager c) (baseUrl c) (jwtToken c) (userId c)
           (accountId c) (patientId c) (tokenExpires c).
Definition set_baseUrl (v : option string) (c : LibreLinkClient) :=
  mkClient (config c) (configManager c) v (jwtToken c) (userId c)
           (accountId c) (patientId c) (tokenExpires c).
Definition set_jwtToken (v : option string) (c : LibreLinkClient) :=
  mkClient (config c) (configManager c) (baseUrl c) v (userId c)
           (accountId c) (patientId c) (tokenExpires c).
Definition set_userId (v : option string) (c : LibreLinkClient) :=
  mkClient (config c) (configManager c) (baseUrl c) (jwtToken c) v
           (accountId c) (patientId c) (tokenExpires c).
Definition set_accountId (v : option string) (c : LibreLinkClient) :=
  mkClient (config c) (configManager c) (baseUrl c) (jwtToken c) (userId c)
           v (patientId c) (tokenExpires c).
Definition set_patientId (v : option string) (c : LibreLinkClient) :=
  mkClient (config c) (configManager c) (baseUrl c) (jwtToken c) (userId c)
           (accountId c) v (tokenExpires c).
Definition set_tokenExpires (v : Z) (c : LibreLinkClient) :=
  mkClient (config c) (configManager c) (baseUrl c) (jwtToken c) (userId c)
           (accountId c) (patientId c) v.

Definition set_region (r : string) (cfg : LibreLinkConfig) :=
  mkConfig (email cfg) (password cfg) r (clientVersion cfg)
           (targetLow cfg) (targetHigh cfg).

(* ----------------------------------------------------------------- *)
(** *** Token store operations *)

(** Modelled from the spec: [ConfigManager.getToken].  "load reads the
    envelope, opens it with the master key, and fails with CorruptedStoreError
    if the envelope is malformed or the tag check fails"; an absent file is
    "absent". *)
Definition getToken : M (option Stored.TokenData) :=
  fun s =>
    let w := record EvGetToken (snd s) in
    match tokenFile (snd s) with
    | NoFile => Some (Ret None, (fst s, w))
    | Sealed td => Some (Ret (Some td), (fst s, w))
    | Damaged => Some (Throw CorruptedStoreError, (fst s, w))
    end.

(** Modelled from the spec: what [ConfigManager.clearToken] does to the
    world.  "clear() deletes the token envelope unconditionally (idempotent if
    absent)". *)
Definition delete_token_file (w : World) : World :=
  with_tokenFile NoFile (record EvClearToken w).

(** Modelled from the spec: [ConfigManager.clearToken], see
    [delete_token_file]. *)
Definition clearToken : M unit :=
  fun s => Some (Ret tt, (fst s, delete_token_file (snd s))).

(** Modelled from the spec: [ConfigManager.saveToken].  "save seals the
    serialized form with the current master key and writes the envelope";
    a write that the file system refuses raises. *)
Definition saveToken (td : Stored.TokenData) : M unit :=
  fun s =>
    let w := record (EvSaveToken td) (snd s) in
    if tokenWritable (snd s)
    then Some (Ret tt, (fst s, with_tokenFile (Sealed td) w))
    else Some (Throw StoreWriteError, (fst s, w)).

(* ----------------------------------------------------------------- *)
(** *** HTTP *)

Definition settle {A} (r : HttpResult A) : Outcome A :=
  match r with
  | HttpOk body => Ret body
  | HttpAxiosError e => Throw (AxiosError e)
  | HttpOtherError m => Throw (OtherError m)
  end.

(** One awaited axios call: the server answers from the history so far, and
    the request joins the history. *)
Definition http {A} (server : World -> list Event -> Request -> HttpResult A)
           (req : Request) : M A :=
  fun s =>
    let w := snd s in
    Some (settle (server w (trace w) req), (fst s, record (EvRequest req) w)).

Definition request_of (inst : AxiosInstance) (m : Method) (path : string)
           (body : option (string * string)) : Request :=
  mkRequest m (baseURL inst) path (headers inst) body.

(* ================================================================= *)
(** ** The client *)

Definition DEFAULT_CLIENT_VERSION : string := "4.16.0".

Module ENDPOINTS.
Definition login : string := "/llu/auth/login".
Definition connections : string := "/llu/connections".
Definition graph (patientId : string) : string :=
  "/llu/connections/" ++ patientId ++ "/graph".
Definition logbook (patientId : string) : string :=
  "/llu/connections/" ++ patientId ++ "/logbook".
End ENDPOINTS.

(** What the client takes from its runtime and from types.ts. *)
Class Runtime := {
  (** [createHash('sha256').update(s).digest('hex')] of Node's crypto module *)
  sha256_hex : string -> string;
  (** [String.prototype.toUpperCase] *)
  toUpperCase : string -> string;
  (** the table [LIBRE_LINK_SERVERS] of types.ts, as a lookup by key *)
  LIBRE_LINK_SERVERS : string -> option string
}.

Section Client.

Context {rt : Runtime}.

Definition generateAccountId (userId : string) : string :=
  sha256_hex userId.

(** [LIBRE_LINK_SERVERS[r] || LIBRE_LINK_SERVERS['GLOBAL']] *)
Definition server_for (r : string) : option string :=
  js_or (LIBRE_LINK_SERVERS r) (LIBRE_LINK_SERVERS "GLOBAL").

Definition new_LibreLinkClient (cfg : LibreLinkConfig)
           (cm : option ConfigManager) : LibreLinkClient :=
  mkClient
    (mkConfig (email cfg) (password cfg) (region cfg)
              (if (clientVersion cfg =? "")%string
               then DEFAULT_CLIENT_VERSION else clientVersion cfg)
              (targetLow cfg) (targetHigh cfg))
    cm (server_for (region cfg)) None None None None 0.

Definition base_headers (c : LibreLinkClient) : list (string * string) :=
  [ ("Accept", "application/json");
    ("Content-Type", "application/json");
    ("Accept-Encoding", "gzip");
    ("Cache-Control", "no-cache");
    ("Connection", "Keep-Alive");
    ("product", "llu.android");
    ("version", clientVersion (config c)) ].

Definition createClient : M AxiosInstance :=
  c <- this ;;
  ret (mkAxios (baseUrl c) (base_headers c) 30000).

Definition createAuthenticatedClient : M AxiosInstance :=
  c <- this ;;
  if negb (truthy (jwtToken c)) || negb (truthy (accountId c))
  then throw (JsError "Not authenticated. Call login() first.")
  else
    match jwtToken c, accountId c with
    | Some tok, Some acc =>
        ret (mkAxios (baseUrl c)
                     (base_headers c ++
                      [ ("Authorization", "Bearer " ++ tok);
                        ("Account-Id", acc) ])
                     30000)
    | _, _ => throw (JsError "Not authenticated. Call login() first.")
    end.

Definition isTokenValid : M bool :=
  c <- this ;;
  if negb (truthy (jwtToken c)) || negb (truthy (accountId c))
  then ret false
  else
    now <- Date_now ;;
    ret (now <? tokenExpires c - 300000).

Definition tryRestoreSession : M bool :=
  c <- this ;;
  match configManager c with
  | None => ret false
  | Some _ =>
      try_catch
        (storedToken <- getToken ;;
         match storedToken with
         | None => ret false
         | Some st =>
             c <- this ;;
             if negb (Stored.region st =? region (config c))%string
             then clearToken ;; ret false
             else
               assign (set_jwtToken (Some (Stored.token st))) ;;
               assign (set_tokenExpires (Stored.expires st)) ;;
               assign (set_userId (Some (Stored.userId st))) ;;
               assign (set_accountId (Some (Stored.accountId st))) ;;
               assign (set_baseUrl (server_for (Stored.region st))) ;;
               console_error "LibreLink: Restored session from secure storage" None ;;
               ret true
         end)
        (fun error =>
           console_error "Error restoring session:" (Some error) ;;
           ret false)
  end.

Definition saveSession : M unit :=
  c <- this ;;
  if negb (is_some (configManager c)) || negb (truthy (jwtToken c))
     || negb (truthy (userId c)) || negb (truthy (accountId c))
  then ret tt
  else
    match jwtToken c, userId c, accountId c with
    | Some tok, Some uid, Some acc =>
        try_catch
          (saveToken (Stored.mk tok (tokenExpires c) uid acc (region (config c))) ;;
           console_error "LibreLink: Session saved to secure storage" None)
          (fun error => console_error "Error saving session:" (Some error))
    | _, _, _ => ret tt
    end.

(** The catch block of [login]. *)
Definition login_catch {A} (error : Error) : M A :=
  match error with
  | AxiosError axiosError =>
      c <- this ;;
      if opt_Z_eqb (errStatus axiosError) 403
         && truthy (errMinimumVersion axiosError)
      then
        throw (JsError
          ("API requires minimum version "
             ++ match errMinimumVersion axiosError with Some v => v | None => "" end
             ++ ". " ++ "Current version: " ++ clientVersion (config c) ++ ". "
             ++ "Please update to the latest version of librelink-mcp-server."))
      else if opt_Z_eqb (errStatus axiosError) 403
              && opt_string_eqb (errResponseMessage axiosError) "RequiredHeaderMissing"
      then
        throw (JsError
          ("Required header missing. This usually means the Account-Id header is not being sent. "
             ++ "Please ensure you are using the fixed version of the library."))
      else if opt_Z_eqb (errStatus axiosError) 401
      then throw (JsError "Authentication failed. Please check your email and password.")
      else throw (JsError ("Login failed: " ++ errMessage axiosError))
  | _ => throw error
  end.

(** How the try block of [login] ends without throwing: with
    [return this.login()] or by falling off its end. *)
Inductive LoginStep := RetryLogin | LoginDone.

(** [data.data.redirect && data.data.region]: the region to go to, if any. *)
Definition redirect_target (data : LoginResponse) : option string :=
  match lr_redirect data, lr_region data with
  | Some true, Some r => if (r =? "")%string then None else Some r
  | _, _ => None
  end.

(** The TypeErrors of the runtime that the try block of [login] can raise
    after its test of the response: reading [id] of a user that is not there,
    and [update] of the hash, in [generateAccountId], on a value that is not
    a string.  The messages are the runtime's, here in short. *)
Definition NO_USER : string :=
  "TypeError: Cannot read properties of undefined (reading 'id')".

Definition NOT_A_STRING : string :=
  "TypeError [ERR_INVALID_ARG_TYPE]: The data argument must be of type string".

(** The try block of [login] up to, and excluding, the retry itself.  The
    test [data.status !== 0 || !data.data.authTicket] is the pair of branches
    that throw the invalid-response error.  The four assignments that follow
    it are made one by one: the third reads [data.data.user.id] and the
    fourth hashes it, and either can throw after the first two were made. *)
Definition login_try : M LoginStep :=
  client <- createClient ;;
  c <- this ;;
  data <- http onLogin
            (request_of client POST ENDPOINTS.login
                        (Some (email (config c), password (config c)))) ;;
  match redirect_target data with
  | Some r =>
      let newRegion := toUpperCase r in
      (if truthy (LIBRE_LINK_SERVERS newRegion)
       then assign (set_baseUrl (LIBRE_LINK_SERVERS newRegion))
       else assign (set_baseUrl (Some ("https://api-" ++ r ++ ".libreview.io")))) ;;
      c <- this ;;
      assign (set_config (set_region newRegion (config c))) ;;
      ret RetryLogin
  | None =>
      match lr_authTicket data with
      | Some ticket =>
          if negb (lr_status data =? 0)
          then throw (JsError "Login failed: Invalid response from LibreLink API")
          else
            assign (set_jwtToken (Some (ticketToken ticket))) ;;
            assign (set_tokenExpires (ticketExpires ticket * 1000)) ;;
            match lr_user data with
            | None => throw (OtherError NO_USER)     (* data.data.user.id *)
            | Some user =>
                assign (set_userId (id user)) ;;
                c <- this ;;
                match userId c with
                | None => throw (OtherError NOT_A_STRING) (* generateAccountId *)
                | Some uid =>
                    assign (set_accountId (Some (generateAccountId uid))) ;;
                    console_error ("LibreLink: Logged in as " ++ firstName user
                                     ++ " " ++ lastName user) None ;;
                    saveSession ;;
                    ret LoginDone
                end
            end
      | None => throw (JsError "Login failed: Invalid response from LibreLink API")
      end
  end.

(** [login]: the promise of the retry is returned, not awaited, so the retry
    runs outside this call's catch block. *)
Fixpoint login (fuel : nat) : M unit :=
  match fuel with
  | O => out_of_fuel
  | S fuel' =>
      step <- try_catch login_try login_catch ;;
      match step with
      | RetryLogin => login fuel'
      | LoginDone => ret tt
      end
  end.

Definition ensureAuthenticated (fuel : nat) : M unit :=
  valid <- isTokenValid ;;
  returned <-
    (if negb valid
     then
       restored <- tryRestoreSession ;;
       (* restored && this.isTokenValid() *)
       if restored then isTokenValid else ret false
     else ret false) ;;
  if returned then ret tt
  else
    valid <- isTokenValid ;;
    if negb valid then login fuel else ret tt.

Fixpoint getConnections (fuel : nat) : M (list Connection) :=
  match fuel with
  | O => out_of_fuel
  | S fuel' =>
      ensureAuthenticated fuel' ;;
      client <- createAuthenticatedClient ;;
      try_catch
        (data <- http onConnections
                   (request_of client GET ENDPOINTS.connections None) ;;
         (* response.data.data || [] *)
         ret (match data with Some l => l | None => [] end))
        (fun error =>
           match error with
           | AxiosError e =>
               if opt_Z_eqb (errStatus e) 401
               then
                 c <- this ;;
                 (if is_some (configManager c) then clearToken else ret tt) ;;
                 assign (set_jwtToken None) ;;
                 ensureAuthenticated fuel' ;;
                 getConnections fuel'
               else throw error
           | _ => throw error
           end)
  end.

Definition NO_CONNECTIONS : string :=
  "No connections found. Please ensure:
1. You are using LibreLinkUp credentials (not LibreLink)
2. Someone is sharing their data with you via LibreLinkUp
3. You have accepted the latest Terms and Conditions in the LibreLinkUp app".

Definition getPatientId (fuel : nat) : M string :=
  c <- this ;;
  if truthy (patientId c)
  then ret (match patientId c with Some p => p | None => "" end)
  else
    connections <- getConnections fuel ;;
    match connections with
    | [] => throw (JsError NO_CONNECTIONS)
    | first :: _ =>
        assign (set_patientId (Some (connPatientId first))) ;;
        ret (connPatientId first)
    end.

Fixpoint getGraphData (fuel : nat) : M GraphResponse :=
  match fuel with
  | O => out_of_fuel
  | S fuel' =>
      ensureAuthenticated fuel' ;;
      patientId <- getPatientId fuel' ;;
      client <- createAuthenticatedClient ;;
      try_catch
        (http onGraph (request_of client GET (ENDPOINTS.graph patientId) None))
        (fun error =>
           match error with
           | AxiosError e =>
               if opt_Z_eqb (errStatus e) 401
               then
                 c <- this ;;
                 (if is_some (configManager c) then clearToken else ret tt) ;;
                 assign (set_jwtToken None) ;;
                 ensureAuthenticated fuel' ;;
                 getGraphData fuel'
               else throw error
           | _ => throw error
           end)
  end.

(** [{ ...this.config, ...newConfig }] *)
Definition spread (cfg : LibreLinkConfig) (n : PartialConfig) : LibreLinkConfig :=
  mkConfig
    (match p_email n with Some v => v | None => email cfg end)
    (match p_password n with Some v => v | None => password cfg end)
    (match p_region n with Some v => v | None => region cfg end)
    (match p_clientVersion n with Some v => v | None => clientVersion cfg end)
    (match p_targetLow n with Some v => v | None => targetLow cfg end)
    (match p_targetHigh n with Some v => v | None => targetHigh cfg end).

Definition updateConfig (newConfig : PartialConfig) : M unit :=
  c <- this ;;
  assign (set_config (spread (config c) newConfig)) ;;
  if truthy (p_email newConfig) || truthy (p_password newConfig)
     || truthy (p_region newConfig)
  then
    assign (set_jwtToken None) ;;
    assign (set_accountId None) ;;
    assign (set_patientId None) ;;
    if truthy (p_region newConfig)
    then
      match p_region newConfig with
      | Some r => assign (set_baseUrl (server_for r))
      | None => ret tt
      end
    else ret tt
  else ret tt.

Definition clearSession : M unit :=
  assign (set_jwtToken None) ;;
  assign (set_accountId None) ;;
  assign (set_userId None) ;;
  assign (set_patientId None) ;;
  assign (set_tokenExpires 0) ;;
  c <- this ;;
  if is_some (configManager c) then clearToken else ret tt.

(** The result of [getSessionStatus]; [expiresAt] is the time value of the
    [Date], or [None] for [null]. *)
Record SessionStatus := mkStatus {
  authenticated : bool;
  tokenValid : bool;
  expiresAt : option Z
}.

Definition getSessionStatus : M SessionStatus :=
  c <- this ;;
  valid <- isTokenValid ;;
  ret (mkStatus (truthy (jwtToken c))
                valid
                (if 0 <? tokenExpires c then Some (tokenExpires c) else None)).

(** The [clear_session] case of the tool handler in index.ts, on the module's
    [client] variable and the token store of its [configManager]. *)
Definition clear_session_handler (client : option LibreLinkClient) (w : World)
  : option (Outcome string * (option LibreLinkClient * World)) :=
  let text := "Session cleared. You will need to re-authenticate on the next request." in
  match client with
  | Some c =>
      match (clearSession ;; clearToken) (c, w) with
      | Some (Ret _, (c', w')) => Some (Ret text, (Some c', w'))
      | Some (Throw e, (c', w')) => Some (Throw e, (Some c', w'))
      | None => None
      end
  | None => Some (Ret text, (None, delete_token_file w))
  end.

(* ----------------------------------------------------------------- *)
(** *** Names for what the methods compute

    The statements below speak of the client and the world a method leaves
    behind; these are the terms the method bodies build, given a name. *)

(** The value of [Date.now()] in a world. *)
Definition now_of (w : World) : Z := clock w (length (trace w)).

(** The test of [isTokenValid], at time [t]. *)
Definition valid_at (c : LibreLinkClient) (t : Z) : bool :=
  truthy (jwtToken c) && truthy (accountId c) && (t <? tokenExpires c - 300000).

(** The guard of [updateConfig]:
    [newConfig.email || newConfig.password || newConfig.region]. *)
Definition changes_credentials (n : PartialConfig) : bool :=
  truthy (p_email n) || truthy (p_password n) || truthy (p_region n).

(** The five assignments of [tryRestoreSession]. *)
Definition restore_from (td : Stored.TokenData) (c : LibreLinkClient)
  : LibreLinkClient :=
  set_baseUrl (server_for (Stored.region td))
    (set_accountId (Some (Stored.accountId td))
       (set_userId (Some (Stored.userId td))
          (set_tokenExpires (Stored.expires td)
             (set_jwtToken (Some (Stored.token td)) c)))).

(** The request [login] posts. *)
Definition login_request (c : LibreLinkClient) : Request :=
  request_of (mkAxios (baseUrl c) (base_headers c) 30000) POST ENDPOINTS.login
             (Some (email (config c), password (config c))).

(** The base URL [login] moves to on a redirect to region [r]. *)
Definition redirect_base (r : string) : option string :=
  if truthy (LIBRE_LINK_SERVERS (toUpperCase r))
  then LIBRE_LINK_SERVERS (toUpperCase r)
  else Some ("https://api-" ++ r ++ ".libreview.io").

(** The two assignments of [login] on a redirect to region [r]. *)
Definition redirected (r : string) (c : LibreLinkClient) : LibreLinkClient :=
  set_config (set_region (toUpperCase r) (config c))
             (set_baseUrl (redirect_base r) c).

(** The id of the user of a login response, when it has both. *)
Definition user_id (data : LoginResponse) : option string :=
  match lr_user data with
  | Some u => id u
  | None => None
  end.

(** The four assignments of [login] on success, for a user with id [uid]. *)
Definition logged_in (uid : string) (ticket : AuthTicket) (c : LibreLinkClient)
  : LibreLinkClient :=
  set_accountId (Some (generateAccountId uid))
    (set_userId (Some uid)
       (set_tokenExpires (ticketExpires ticket * 1000)
          (set_jwtToken (Some (ticketToken ticket)) c))).

(** The assignments [login] has made when the response passed its test and
    the user, or the id, is not there: the token and the expiry of the
    ticket, and with a user the id it has. *)
Definition interrupted (data : LoginResponse) (ticket : AuthTicket)
           (c : LibreLinkClient) : LibreLinkClient :=
  let c1 := set_tokenExpires (ticketExpires ticket * 1000)
              (set_jwtToken (Some (ticketToken ticket)) c) in
  match lr_user data with
  | Some u => set_userId (id u) c1
  | None => c1
  end.

(** The TypeError thrown then. *)
Definition interruption (data : LoginResponse) : Error :=
  match lr_user data with
  | Some _ => OtherError NOT_A_STRING
  | None => OtherError NO_USER
  end.

(** The instance [createAuthenticatedClient] builds from a token and an
    account id. *)
Definition authenticated_client (c : LibreLinkClient) : AxiosInstance :=
  mkAxios (baseUrl c)
          (base_headers c ++
           [ ("Authorization",
              "Bearer " ++ match jwtToken c with Some t => t | None => "" end);
             ("Account-Id", match accountId c with Some a => a | None => "" end) ])
          30000.

(** The requests of [getConnections] and [getGraphData]. *)
Definition connections_request (c : LibreLinkClient) : Request :=
  request_of (authenticated_client c) GET ENDPOINTS.connections None.

Definition graph_request (c : LibreLinkClient) (patientId : string) : Request :=
  request_of (authenticated_client c) GET (ENDPOINTS.graph patientId) None.

(** What the catch blocks of [getConnections] and [getGraphData] do to client
    and world before they authenticate again. *)
Definition drop_token (s : St) : St :=
  (set_jwtToken None (fst s),
   if is_some (configManager (fst s)) then delete_token_file (snd s) else snd s).

(** The bundle [saveSession] writes, when it writes one. *)
Definition bundle_of (c : LibreLinkClient) : option Stored.TokenData :=
  match configManager c, jwtToken c, userId c, accountId c with
  | Some _, Some tok, Some uid, Some acc =>
      if negb (tok =? "")%string && negb (uid =? "")%string
         && negb (acc =? "")%string
      then Some (Stored.mk tok (tokenExpires c) uid acc (region (config c)))
      else None
  | _, _, _, _ => None
  end.

(** The world [saveSession] leaves. *)
Definition after_save (c : LibreLinkClient) (w : World) : World :=
  match bundle_of c with
  | Some td =>
      if tokenWritable w
      then record (EvConsole "LibreLink: Session saved to secure storage" None)
                  (with_tokenFile (Sealed td) (record (EvSaveToken td) w))
      else record (EvConsole "Error saving session:" (Some StoreWriteError))
                  (record (EvSaveToken td) w)
  | None => w
  end.

(** The world [tryRestoreSession] leaves when its client has a manager. *)
Definition after_restore (c : LibreLinkClient) (w : World) : World :=
  match tokenFile w with
  | NoFile => record EvGetToken w
  | Sealed td =>
      if (Stored.region td =? region (config c))%string
      then record (EvConsole "LibreLink: Restored session from secure storage" None)
                  (record EvGetToken w)
      else delete_token_file (record EvGetToken w)
  | Damaged =>
      record (EvConsole "Error restoring session:" (Some CorruptedStoreError))
             (record EvGetToken w)
  end.

End Client.

(* ================================================================= *)
(** ** Reading the history *)

Definition is_login_post (e : Event) : bool :=
  match e with
  | EvRequest r =>
      match reqMethod r with
      | POST => (reqPath r =? ENDPOINTS.login)%string
      | GET => false
      end
  | _ => false
  end.

Definition is_connections_get (e : Event) : bool :=
  match e with
  | EvRequest r =>
      match reqMethod r with
      | GET => (reqPath r =? ENDPOINTS.connections)%string
      | POST => false
      end
  | _ => false
  end.

Definition is_token_clear (e : Event) : bool :=
  match e with EvClearToken => true | _ => false end.

Definition count (p : Event -> bool) (h : list Event) : nat :=
  length (filter p h).

(** Number of login requests, connection requests and token deletions in a
    history. *)
Definition logins : list Event -> nat := count is_login_post.
Definition connection_gets : list Event -> nat := count is_connections_get.
Definition token_clears : list Event -> nat := count is_token_clear.

(** Running a method: outcome, client and world afterwards. *)
Definition outcome_of {A} (r : option (Outcome A * St)) : option (Outcome A) :=
  match r with Some (o, _) => Some o | None => None end.

Definition client_of {A} (r : option (Outcome A * St)) : option LibreLinkClient :=
  match r with Some (_, (c, _)) => Some c | None => None end.

Definition world_of {A} (r : option (Outcome A * St)) : option World :=
  match r with Some (_, (_, w)) => Some w | None => None end.

Definition history_of {A} (r : option (Outcome A * St)) : list Event :=
  match r with Some (_, (_, w)) => trace w | None => [] end.

(** The world [w'] is [w] some interactions later: same servers, clock and
    file system, and a history that extends that of [w]. *)
Definition same_env (w w' : World) : Prop :=
  onLogin w' = onLogin w /\ onConnections w' = onConnections w
  /\ onGraph w' = onGraph w /\ clock w' = clock w
  /\ tokenWritable w' = tokenWritable w.

Definition later (w w' : World) : Prop :=
  same_env w w' /\ exists evs, trace w' = (evs ++ trace w)%list.

(** The session fields of two clients agree. *)
Definition same_session (c c' : LibreLinkClient) : Prop :=
  jwtToken c' = jwtToken c /\ tokenExpires c' = tokenExpires c
  /\ userId c' = userId c /\ accountId c' = accountId c
  /\ patientId c' = patientId c /\ configManager c' = configManager c.

(** The login server lets the user in at every request, with a user that
    has an id and a token that is not empty and stays valid whatever the
    clock shows. *)
Definition lets_in (w : World) : Prop :=
  forall h req, exists resp ticket,
    onLogin w h req = HttpOk resp
    /\ redirect_target resp = None
    /\ lr_authTicket resp = Some ticket
    /\ lr_status resp = 0
    /\ user_id resp <> None
    /\ ticketToken ticket <> ""
    /\ forall n, clock w n < ticketExpires ticket * 1000 - 300000.

(** The client holds a session that stays valid whatever the clock shows. *)
Definition good_session (c : LibreLinkClient) (w : World) : Prop :=
  truthy (jwtToken c) = true /\ truthy (accountId c) = true
  /\ forall n, clock w n < tokenExpires c - 300000.

(** The server answers 401 to a request. *)
Definition unauthorized {A} (r : HttpResult A) : Prop :=
  exists e, r = HttpAxiosError e /\ errStatus e = Some 401.

Definition is_graph_get (e : Event) : bool :=
  match e with
  | EvRequest r =>
      match reqMethod r with
      | GET => negb (reqPath r =? ENDPOINTS.connections)%string
      | POST => false
      end
  | _ => false
  end.

Definition graph_gets : list Event -> nat := count is_graph_get.

(** A request other than the login carries a bearer token and an account
    id, neither of them empty. *)
Definition carries_credentials (e : Event) : Prop :=
  match e with
  | EvRequest r =>
      reqMethod r = GET ->
      exists tok acc,
        tok <> "" /\ acc <> ""
        /\ header "Authorization" (reqHeaders r) = Some ("Bearer " ++ tok)
        /\ header "Account-Id" (reqHeaders r) = Some acc
  | _ => True
  end.

Definition all_authenticated (w : World) : Prop :=
  Forall carries_credentials (trace w).

(** Whoever holds a token holds an account id, and so does every bundle in
    the token file. *)
Definition token_has_account (c : LibreLinkClient) : Prop :=
  truthy (jwtToken c) = true -> truthy (accountId c) = true.

Definition bundles_have_account (w : World) : Prop :=
  forall td, tokenFile w = Sealed td -> Stored.accountId td <> "".

(** The login server keeps to the interface [LoginResponse]: a response
    that passes the test of [login] comes with a user and its id. *)
Definition users_have_ids (w : World) : Prop :=
  forall h req data ticket,
    onLogin w h req = HttpOk data ->
    redirect_target data = None ->
    lr_authTicket data = Some ticket ->
    lr_status data = 0 ->
    user_id data <> None.

(** The invariant of client and token file, in a world whose login server
    keeps to the interface. *)
Definition consistent (s : St) : Prop :=
  token_has_account (fst s) /\ bundles_have_account (snd s)
  /\ users_have_ids (snd s).

(* ================================================================= *)
(** ** SHA-256

    The digest Node's crypto module computes for [generateAccountId], on the
    bytes of the string.  It instantiates the runtime of the fixtures. *)

Module SHA256.

(** 32-bit words are [Z] with the wrap-around written out. *)
Definition mask (x : Z) : Z := Z.land x 0xffffffff.
Definition add32 (x y : Z) : Z := mask (x + y).
Definition rotr (n x : Z) : Z :=
  Z.lor (Z.shiftr x n) (mask (Z.shiftl x (32 - n))).
Definition not32 (x : Z) : Z := Z.lxor x 0xffffffff.

Definition Ch (x y z : Z) : Z := Z.lxor (Z.land x y) (Z.land (not32 x) z).
Definition Maj (x y z : Z) : Z :=
  Z.lxor (Z.lxor (Z.land x y) (Z.land x z)) (Z.land y z).
Definition Sigma0 (x : Z) : Z := Z.lxor (Z.lxor (rotr 2 x) (rotr 13 x)) (rotr 22 x).
Definition Sigma1 (x : Z) : Z := Z.lxor (Z.lxor (rotr 6 x) (rotr 11 x)) (rotr 25 x).
Definition sigma0 (x : Z) : Z := Z.lxor (Z.lxor (rotr 7 x) (rotr 18 x)) (Z.shiftr x 3).
Definition sigma1 (x : Z) : Z := Z.lxor (Z.lxor (rotr 17 x) (rotr 19 x)) (Z.shiftr x 10).

(** The round constants and the initial hash value are the first 32 bits of
    the fractional parts of the cube roots, respectively square roots, of the
    first primes. *)
Fixpoint no_divisor (d : nat) (n : Z) : bool :=
  match d with
  | O | S O => true
  | S d' => negb (n mod Z.of_nat d =? 0) && no_divisor d' n
  end.

Definition is_prime (n : Z) : bool :=
  (2 <=? n) && no_divisor (Z.to_nat (Z.sqrt n)) n.

Definition primes (count : nat) : list Z :=
  firstn count (filter is_prime (map Z.of_nat (seq 2 320))).

(** Integer cube root by bisection: [lo ^ 3 <= x < hi ^ 3] throughout. *)
Fixpoint cbrt_between (steps : nat) (lo hi x : Z) : Z :=
  match steps with
  | O => lo
  | S steps' =>
      let mid := (lo + hi) / 2 in
      if mid * mid * mid <=? x
      then cbrt_between steps' mid hi x
      else cbrt_between steps' lo mid x
  end.

Definition cbrt (x : Z) : Z := cbrt_between 48 0 (Z.shiftl 1 40) x.

Definition K : list Z :=
  Eval vm_compute in map (fun p => mask (cbrt (Z.shiftl p 96))) (primes 64).

Record Words8 := w8 { wa : Z; wb : Z; wc : Z; wd : Z; we : Z; wf : Z; wg : Z; wh : Z }.

Definition root_bits (p : Z) : Z := mask (Z.sqrt (Z.shiftl p 64)).

Definition H0 : Words8 :=
  Eval vm_compute in
    match map root_bits (primes 8) with
    | [a; b; c; d; e; f; g; h] => w8 a b c d e f g h
    | _ => w8 0 0 0 0 0 0 0 0
    end.

Fixpoint bytes (s : string) : list Z :=
  match s with
  | EmptyString => []
  | String c tl => Z.of_nat (nat_of_ascii c) :: bytes tl
  end.

Definition be64 (x : Z) : list Z :=
  map (fun i => Z.land (Z.shiftr x (8 * i)) 255) [7; 6; 5; 4; 3; 2; 1; 0].

Definition pad (m : list Z) : list Z :=
  let len := Z.of_nat (length m) in
  (m ++ [128] ++ repeat 0 (Z.to_nat ((55 - len) mod 64)) ++ be64 (8 * len))%list.

Fixpoint words (bs : list Z) : list Z :=
  match bs with
  | b0 :: b1 :: b2 :: b3 :: tl =>
      Z.lor (Z.shiftl b0 24) (Z.lor (Z.shiftl b1 16) (Z.lor (Z.shiftl b2 8) b3))
      :: words tl
  | _ => []
  end.

(** The message schedule, most recent word first. *)
Fixpoint extend (n : nat) (w : list Z) : list Z :=
  match n with
  | O => w
  | S n' =>
      extend n'
        (add32 (add32 (sigma1 (nth 1 w 0)) (nth 6 w 0))
               (add32 (sigma0 (nth 14 w 0)) (nth 15 w 0)) :: w)
  end.

Definition schedule (block : list Z) : list Z := rev (extend 48 (rev block)).

Definition round (s : Words8) (kw : Z * Z) : Words8 :=
  let t1 := add32 (add32 (add32 (wh s) (Sigma1 (we s))) (Ch (we s) (wf s) (wg s)))
                  (add32 (fst kw) (snd kw)) in
  let t2 := add32 (Sigma0 (wa s)) (Maj (wa s) (wb s) (wc s)) in
  w8 (add32 t1 t2) (wa s) (wb s) (wc s) (add32 (wd s) t1) (we s) (wf s) (wg s).

Definition compress (h : Words8) (block : list Z) : Words8 :=
  let s := fold_left round (combine K (schedule block)) h in
  w8 (add32 (wa h) (wa s)) (add32 (wb h) (wb s)) (add32 (wc h) (wc s))
     (add32 (wd h) (wd s)) (add32 (we h) (we s)) (add32 (wf h) (wf s))
     (add32 (wg h) (wg s)) (add32 (wh h) (wh s)).

Fixpoint blocks (n : nat) (ws : list Z) (h : Words8) : Words8 :=
  match n with
  | O => h
  | S n' =>
      match ws with
      | [] => h
      | _ => blocks n' (skipn 16 ws) (compress h (firstn 16 ws))
      end
  end.

Definition hash (s : string) : Words8 :=
  let ws := words (pad (bytes s)) in
  blocks (length ws) ws H0.

Definition hexdigit (d : Z) : ascii :=
  if d <? 10 then ascii_of_nat (48 + Z.to_nat d)
  else ascii_of_nat (87 + Z.to_nat d).

Definition hex8 (w : Z) (rest : string) : string :=
  String (hexdigit (Z.land (Z.shiftr w 28) 15))
    (String (hexdigit (Z.land (Z.shiftr w 24) 15))
       (String (hexdigit (Z.land (Z.shiftr w 20) 15))
          (String (hexdigit (Z.land (Z.shiftr w 16) 15))
             (String (hexdigit (Z.land (Z.shiftr w 12) 15))
                (String (hexdigit (Z.land (Z.shiftr w 8) 15))
                   (String (hexdigit (Z.land (Z.shiftr w 4) 15))
                      (String (hexdigit (Z.land w 15)) rest))))))).

(** [createHash('sha256').update(s).digest('hex')] *)
Definition hex (s : string) : string :=
  let h := hash s in
  hex8 (wa h) (hex8 (wb h) (hex8 (wc h) (hex8 (wd h)
    (hex8 (we h) (hex8 (wf h) (hex8 (wg h) (hex8 (wh h) ""))))))).

End SHA256.

(* ================================================================= *)
(** ** Fixtures: a runtime, servers and sessions to run the client on *)

Module Fixture.

Definition upper_ascii (c : ascii) : ascii :=
  let n := nat_of_ascii c in
  if ((97 <=? n) && (n <=? 122))%nat then ascii_of_nat (n - 32) else c.

Fixpoint upper (s : string) : string :=
  match s with
  | EmptyString => EmptyString
  | String c tl => String (upper_ascii c) (upper tl)
  end.

Definition digest (s : string) : string := SHA256.hex s.

(** The digest of ["user-1"]. *)
Definition account_1 : string :=
  "c6c289e49e9c05b2145860387b73bcb18df43fb09a1e4a4a9713c76c88bb541b".

Definition servers (key : string) : option string :=
  if (key =? "EU")%string then Some "https://api-eu.libreview.io"
  else if (key =? "US")%string then Some "https://api-us.libreview.io"
  else if (key =? "GLOBAL")%string then Some "https://api.libreview.io"
  else None.

Definition node : Runtime :=
  {| sha256_hex := digest; toUpperCase := upper; LIBRE_LINK_SERVERS := servers |}.

Definition cfg (r : string) : LibreLinkConfig :=
  mkConfig "a@b.com" "pw" r "4.16.0" 70 180.

Definition alice : User := mkUser (Some "user-1") "Alice" "Liddell" "a@b.com" "IT".

(** Times are milliseconds; [t0] is the value of the clock. *)
Definition t0 : Z := 1000000000.

(** A ticket whose expiry, in seconds, is an hour after [t0]. *)
Definition fresh_ticket : AuthTicket := mkTicket "jwt-new" 1003600 3600.

Definition login_ok : LoginResponse :=
  mkLoginResponse 0 (Some alice) (Some fresh_ticket) None None.

Definition redirect_to (r : string) : LoginResponse :=
  mkLoginResponse 0 (Some alice) None (Some true) (Some r).

(** Bodies with status 0 and a ticket that leave the interface: one without
    a user, one whose user has no id. *)
Definition login_no_user : LoginResponse :=
  mkLoginResponse 0 None (Some fresh_ticket) None None.

Definition login_no_id : LoginResponse :=
  mkLoginResponse 0 (Some (mkUser None "Alice" "Liddell" "a@b.com" "IT"))
                  (Some fresh_ticket) None None.

Definition http_error (status : Z) : AxiosErr :=
  mkAxiosErr (Some status) None None "Request failed".

Definition carol : Connection := mkConnection "patient-7" "Carol" "Rossi".

Definition reading : RawGlucoseItem :=
  mkRaw 105 "12/6/2025 4:30:00 PM" (Some 3) false false.

Definition graph : GraphResponse := mkGraph reading [reading].

(** Servers.  Each takes the history and the request. *)
Definition login_always_ok (_ : list Event) (_ : Request) : HttpResult LoginResponse :=
  HttpOk login_ok.

Definition login_rejected (_ : list Event) (_ : Request) : HttpResult LoginResponse :=
  HttpAxiosError (http_error 401).

(** Every endpoint redirects to the other region. *)
Definition login_cross_redirect (_ : list Event) (req : Request)
  : HttpResult LoginResponse :=
  if opt_string_eqb (reqBaseURL req) "https://api-eu.libreview.io"
  then HttpOk (redirect_to "us")
  else HttpOk (redirect_to "eu").

(** Redirects the first [k] login requests to [r], then lets the user in. *)
Definition login_after_redirects (k : nat) (r : string)
           (h : list Event) (_ : Request) : HttpResult LoginResponse :=
  if (logins h <? k)%nat then HttpOk (redirect_to r) else HttpOk login_ok.

(** Redirects the first login request to [r], rejects the second. *)
Definition login_redirect_then_reject (r : string)
           (h : list Event) (_ : Request) : HttpResult LoginResponse :=
  if (logins h <? 1)%nat then HttpOk (redirect_to r)
  else HttpAxiosError (http_error 401).

(** Answers every login request with the same body. *)
Definition login_answers (data : LoginResponse)
           (_ : list Event) (_ : Request) : HttpResult LoginResponse :=
  HttpOk data.

(** Redirects the first login request to [r], answers the second without a
    user. *)
Definition login_redirect_then_no_user (r : string)
           (h : list Event) (_ : Request) : HttpResult LoginResponse :=
  if (logins h <? 1)%nat then HttpOk (redirect_to r) else HttpOk login_no_user.

(** Answers 401 to the first [k] connection requests, then the list. *)
Definition connections_after_401s (k : nat)
           (h : list Event) (_ : Request) : HttpResult (option (list Connection)) :=
  if (connection_gets h <? k)%nat then HttpAxiosError (http_error 401)
  else HttpOk (Some [carol]).

Definition connections_ok (_ : list Event) (_ : Request)
  : HttpResult (option (list Connection)) :=
  HttpOk (Some [carol]).

(** Rejects the token ["jwt-old"], accepts any other. *)
Definition connections_reject_old (_ : list Event) (req : Request)
  : HttpResult (option (list Connection)) :=
  if opt_string_eqb (header "Authorization" (reqHeaders req)) "Bearer jwt-old"
  then HttpAxiosError (http_error 401)
  else HttpOk (Some [carol]).

Definition graph_ok (_ : list Event) (_ : Request) : HttpResult GraphResponse :=
  HttpOk graph.

(** Answers 401 to the first [k] graph requests, then the graph. *)
Definition graph_after_401s (k : nat)
           (h : list Event) (_ : Request) : HttpResult GraphResponse :=
  if (graph_gets h <? k)%nat then HttpAxiosError (http_error 401)
  else HttpOk graph.

Definition connections_rejected (_ : list Event) (_ : Request)
  : HttpResult (option (list Connection)) :=
  HttpAxiosError (http_error 401).

Definition world (file : TokenFile)
           (l : list Event -> Request -> HttpResult LoginResponse)
           (c : list Event -> Request -> HttpResult (option (list Connection)))
  : World :=
  mkWorld file true l c graph_ok (fun _ => t0) [].

(** A client for region [r] with a session in memory that expires [secs]
    seconds after [t0]. *)
Definition session (r : string) (tok : string) (secs : Z) : LibreLinkClient :=
  mkClient (cfg r) (Some TheConfigManager) (servers r)
           (Some tok) (Some "user-1") (Some account_1) None
           (t0 + secs * 1000).

(** The same with the patient id known. *)
Definition session_of (r : string) (tok : string) (secs : Z) (pid : string)
  : LibreLinkClient :=
  set_patientId (Some pid) (session r tok secs).

(** Worlds with a graph server of their own. *)
Definition world_g (file : TokenFile)
           (l : list Event -> Request -> HttpResult LoginResponse)
           (c : list Event -> Request -> HttpResult (option (list Connection)))
           (g : list Event -> Request -> HttpResult GraphResponse)
  : World :=
  mkWorld file true l c g (fun _ => t0) [].

(** A client as the constructor leaves it. *)
Definition fresh (r : string) : LibreLinkClient :=
  @new_LibreLinkClient node (cfg r) (Some TheConfigManager).

Definition bundle (r : string) (tok : string) (secs : Z) : Stored.TokenData :=
  Stored.mk tok (t0 + secs * 1000) "user-1" account_1 r.

End Fixture.

(* ================================================================= *)
(** ** Readings

    The methods of [LibreLinkClient] that turn the graph response into
    readings: [mapGlucoseItem], [getCurrentGlucose], [getGlucoseHistory] and
    [validateConnection]. *)

Module Reading.
(** [GlucoseReading] of types.ts, as [mapGlucoseItem] fills it. *)
Record t := mk {
  value : Z;
  timestamp : string;
  trend : string;
  trendArrow : Z;
  isHigh : bool;
  isLow : bool;
  color : string
}.
End Reading.

(** What the readings take from types.ts and from the runtime. *)
Class Types := {
  (** the table [TREND_MAP] of types.ts, as a lookup by key *)
  TREND_MAP : Z -> option string;
  (** [getGlucoseColor(value, targetLow, targetHigh)] of types.ts *)
  getGlucoseColor : Z -> Z -> Z -> string;
  (** [new Date(s).getTime()]; [None] is NaN, the time of an invalid date *)
  Date_getTime : string -> option Z
}.

(** [a || 3] on an optional number: 0 is falsy. *)
Definition or_3 (a : option Z) : Z :=
  match a with
  | Some x => if x =? 0 then 3 else x
  | None => 3
  end.

(** [a || d] on an optional string, [d] being a string. *)
Definition or_string (a : option string) (d : string) : string :=
  match a with
  | Some s => if (s =? "")%string then d else s
  | None => d
  end.

(** [Array.prototype.sort(compare)]: a stable sort; an element goes in front
    of the first one it does not compare greater than. *)
Fixpoint insert_by {A} (compare : A -> A -> Z) (x : A) (l : list A) : list A :=
  match l with
  | [] => [x]
  | y :: tl => if compare x y <=? 0 then x :: l else y :: insert_by compare x tl
  end.

Definition sort_by {A} (compare : A -> A -> Z) (l : list A) : list A :=
  fold_right (insert_by compare) [] l.

Section Readings.

Context {rt : Runtime} {ty : Types}.

Definition mapGlucoseItem (item : RawGlucoseItem) (targetLow targetHigh : Z)
  : Reading.t :=
  Reading.mk
    (ValueInMgPerDl item)
    (Timestamp item)
    (or_string (TREND_MAP (or_3 (TrendArrow item))) "Flat")
    (or_3 (TrendArrow item))
    (isHigh item)
    (isLow item)
    (getGlucoseColor (ValueInMgPerDl item) targetLow targetHigh).

Definition getCurrentGlucose (fuel : nat) : M Reading.t :=
  data <- getGraphData fuel ;;
  c <- this ;;
  ret (mapGlucoseItem (glucoseMeasurement data)
                      (targetLow (config c)) (targetHigh (config c))).

(** [new Date(item.Timestamp).getTime() > cutoffTime]: false for NaN. *)
Definition newer_than (cutoffTime : Z) (item : RawGlucoseItem) : bool :=
  match Date_getTime (Timestamp item) with
  | Some t => cutoffTime <? t
  | None => false
  end.

(** [new Date(a.timestamp).getTime() - new Date(b.timestamp).getTime()]; a
    NaN difference counts as 0 in a sort. *)
Definition compare_time (a b : Reading.t) : Z :=
  match Date_getTime (Reading.timestamp a), Date_getTime (Reading.timestamp b) with
  | Some x, Some y => x - y
  | _, _ => 0
  end.

Definition getGlucoseHistory (fuel : nat) (hours : Z) : M (list Reading.t) :=
  data <- getGraphData fuel ;;
  now <- Date_now ;;
  c <- this ;;
  let cutoffTime := now - hours * 60 * 60 * 1000 in
  ret (sort_by compare_time
         (map (fun item => mapGlucoseItem item (targetLow (config c))
                                          (targetHigh (config c)))
              (filter (newer_than cutoffTime) (graphData data)))).

Definition validateConnection (fuel : nat) : M bool :=
  try_catch (getCurrentGlucose fuel ;; ret true) (fun _ => ret false).

(** The calls the [validate_connection] tool of index.ts makes on its
    client; the text it answers is put together from what they return. *)
Definition validate_connection_calls (fuel : nat)
  : M (option (Reading.t * SessionStatus)) :=
  isValid <- validateConnection fuel ;;
  if isValid
  then
    glucose <- getCurrentGlucose fuel ;;
    sessionStatus <- getSessionStatus ;;
    ret (Some (glucose, sessionStatus))
  else ret None.

(** The time of a reading is known and does not come after that of another. *)
Definition not_after (a b : Reading.t) : Prop :=
  exists x y,
    Date_getTime (Reading.timestamp a) = Some x
    /\ Date_getTime (Reading.timestamp b) = Some y
    /\ x <= y.

(** The timestamp of a reading is a date. *)
Definition dated (r : Reading.t) : Prop :=
  exists t, Date_getTime (Reading.timestamp r) = Some t.

(** The time of a reading is known and later than [cutoffTime]. *)
Definition within (cutoffTime : Z) (r : Reading.t) : Prop :=
  exists t, Date_getTime (Reading.timestamp r) = Some t /\ cutoffTime < t.

End Readings.

Module Sample.

(** A trend table, a colour rule and a clock reading for the fixtures: the
    timestamps of the fixtures are written as milliseconds in decimal. *)
Definition trends (k : Z) : option string :=
  match k with
  | 1 => Some "SingleDown"
  | 2 => Some "FortyFiveDown"
  | 3 => Some "Flat"
  | 4 => Some "FortyFiveUp"
  | 5 => Some "SingleUp"
  | _ => None
  end.

Definition colour (v lo hi : Z) : string :=
  if v <? lo then "red" else if hi <? v then "orange" else "green".

Fixpoint decimal (acc : Z) (s : string) : option Z :=
  match s with
  | EmptyString => Some acc
  | String c tl =>
      let d := Z.of_nat (nat_of_ascii c) - 48 in
      if (0 <=? d) && (d <=? 9) then decimal (10 * acc + d) tl else None
  end.

Definition millis (s : string) : option Z :=
  match s with
  | EmptyString => None
  | _ => decimal 0 s
  end.

Definition types : Types :=
  {| TREND_MAP := trends; getGlucoseColor := colour; Date_getTime := millis |}.

Definition item (v : Z) (stamp : string) (arrow : option Z) : RawGlucoseItem :=
  mkRaw v stamp arrow false false.

(** Readings of the last hours before [Fixture.t0], out of order, one with a
    timestamp that is no date and one a day old. *)
Definition readings : list RawGlucoseItem :=
  [ item 110 "996400000" (Some 4);
    item 250 "992800000" (Some 5);
    item 90 "n/a" None;
    item 60 "999000000" (Some 0);
    item 100 "913600000" (Some 3) ].

Definition graph : GraphResponse := mkGraph (item 105 "999940000" None) readings.

Definition graph_server (_ : list Event) (_ : Request) : HttpResult GraphResponse :=
  HttpOk graph.

Definition no_connections (_ : list Event) (_ : Request)
  : HttpResult (option (list Connection)) :=
  HttpOk (Some []).

Definition forbidden (_ : list Event) (_ : Request)
  : HttpResult (option (list Connection)) :=
  HttpAxiosError (mkAxiosErr (Some 403) None None "Request failed with status code 403").

Definition graph_forbidden (_ : list Event) (_ : Request) : HttpResult GraphResponse :=
  HttpAxiosError (mkAxiosErr (Some 403) None None "Request failed with status code 403").

(** A world whose token store refuses writes. *)
Definition read_only_world
           (l : list Event -> Request -> HttpResult LoginResponse) : World :=
  mkWorld NoFile false l Fixture.connections_ok Fixture.graph_ok
          (fun _ => Fixture.t0) [].

(** A client with a valid session and the patient id known, in a world whose
    graph server answers with the sample readings. *)
Definition watcher : LibreLinkClient := Fixture.session_of "EU" "jwt" 3600 "patient-7".

Definition graph_world : World :=
  Fixture.world_g NoFile Fixture.login_always_ok Fixture.connections_ok graph_server.

Definition graph_world_after : World :=
  record (EvRequest (graph_request watcher "patient-7")) graph_world.

(** The same session before the patient id is known, and a world with the
    servers of the fixtures. *)
Definition saver : LibreLinkClient := Fixture.session "EU" "jwt" 3600.

Definition plain : World :=
  Fixture.world NoFile Fixture.login_always_ok Fixture.connections_ok.

(** Stored bundles of the region EU, valid for an hour and for two minutes. *)
Definition stored_hour : Stored.TokenData := Fixture.bundle "EU" "jwt-old" 3600.

Definition stored_short : Stored.TokenData := Fixture.bundle "EU" "jwt-old" 120.

Definition other_account : PartialConfig :=
  mkPartial (Some "b@c.com") (Some "pw2") None None None None.

Definition narrower : PartialConfig :=
  mkPartial None None None None (Some 110) (Some 160).

Definition refused : AxiosErr :=
  mkAxiosErr (Some 403) None None "Request failed with status code 403".

Definition forbidden_world : World :=
  Fixture.world_g NoFile Fixture.login_always_ok forbidden graph_forbidden.

End Sample.

(* ================================================================= *)
(** ** Properties *)

(** The methods are unfolded by name in the proofs, never by [cbn]. *)
Arguments saveSession : simpl never.
Arguments tryRestoreSession : simpl never.
Arguments isTokenValid : simpl never.
Arguments createAuthenticatedClient : simpl never.
Arguments login_catch : simpl never.
Arguments login_try : simpl never.
Arguments login : simpl never.
Arguments ensureAuthenticated : simpl never.
Arguments getConnections : simpl never.
Arguments getPatientId : simpl never.
Arguments getGraphData : simpl never.
Arguments clearSession : simpl never.
Arguments getSessionStatus : simpl never.

Ltac conjs := repeat match goal with |- _ /\ _ => split end.

Section Properties.

Context {rt : Runtime}.

Lemma isTokenValid_run (c : LibreLinkClient) (w : World) :
  isTokenValid (c, w) = Some (Ret (valid_at c (now_of w)), (c, w)).
Proof.
  unfold isTokenValid, valid_at, now_of, bind, this, ret, Date_now; simpl.
  destruct (truthy (jwtToken c)); simpl; [|reflexivity].
  destruct (truthy (accountId c)); reflexivity.
Qed.

Lemma truthy_Some (v : option string) :
  truthy v = true -> exists s, v = Some s /\ s <> "".
Proof.
  destruct v as [s|]; simpl; [|discriminate].
  intros H. exists s. split; [reflexivity|].
  intros ->. discriminate.
Qed.

Lemma truthy_Some_iff (s : string) : truthy (Some s) = true <-> s <> "".
Proof.
  simpl. destruct (String.eqb_spec s ""); simpl; split; congruence.
Qed.

Lemma createAuthenticatedClient_run (c : LibreLinkClient) (w : World) :
  createAuthenticatedClient (c, w) =
  match jwtToken c, accountId c with
  | Some tok, Some acc =>
      if negb (tok =? "")%string && negb (acc =? "")%string
      then Some (Ret (mkAxios (baseUrl c)
                              (base_headers c ++
                               [("Authorization", "Bearer " ++ tok);
                                ("Account-Id", acc)]) 30000), (c, w))
      else Some (Throw (JsError "Not authenticated. Call login() first."), (c, w))
  | _, _ => Some (Throw (JsError "Not authenticated. Call login() first."), (c, w))
  end.
Proof.
  unfold createAuthenticatedClient, bind, this, ret, throw; simpl.
  destruct (jwtToken c) as [tok|]; simpl; [|reflexivity].
  destruct (accountId c) as [acc|]; simpl.
  - destruct (tok =? "")%string; simpl; [reflexivity|].
    destruct (acc =? "")%string; reflexivity.
  - destruct (tok =? "")%string; reflexivity.
Qed.

(** C9.  [getSessionStatus] is a pure read: it returns with the client and
    the world (token file, history of I/O) exactly as they were, and its
    three fields are a function of [jwtToken], [accountId], [tokenExpires]
    and the clock alone: two states that agree on these give the same
    result, so two calls on the same state at the same time do. *)
Theorem getSessionStatus_pure_read (c c' : LibreLinkClient) (w w' : World) :
  jwtToken c = jwtToken c' ->
  accountId c = accountId c' ->
  tokenExpires c = tokenExpires c' ->
  now_of w = now_of w' ->
  exists r,
    getSessionStatus (c, w) = Some (Ret r, (c, w))
    /\ getSessionStatus (c', w') = Some (Ret r, (c', w'))
    /\ authenticated r = truthy (jwtToken c)
    /\ tokenValid r = valid_at c (now_of w)
    /\ expiresAt r = (if 0 <? tokenExpires c then Some (tokenExpires c) else None).
Proof.
  intros Hj Ha He Hn.
  eexists. unfold getSessionStatus, bind, this, ret. simpl.
  rewrite !isTokenValid_run. simpl.
  unfold valid_at. rewrite <- Hj, <- Ha, <- He, <- Hn.
  conjs; reflexivity.
Qed.

(** C10.  [updateConfig] always returns, touches nothing outside the client,
    and merges the partial config.  When it carries an email, a password or a
    region, [jwtToken], [accountId] and [patientId] become null and a region
    moves the base endpoint, while [userId] and [tokenExpires] stay: the
    status right afterwards is unauthenticated with the old expiry.
    Otherwise every authentication field stays as it was. *)
Theorem updateConfig_effect (n : PartialConfig) (c : LibreLinkClient) (w : World) :
  exists c',
    updateConfig n (c, w) = Some (Ret tt, (c', w))
    /\ config c' = spread (config c) n
    /\ configManager c' = configManager c
    /\ userId c' = userId c
    /\ tokenExpires c' = tokenExpires c
    /\ (if changes_credentials n
        then jwtToken c' = None /\ accountId c' = None /\ patientId c' = None
             /\ baseUrl c' = match p_region n with
                             | Some r => if (r =? "")%string then baseUrl c
                                         else server_for r
                             | None => baseUrl c
                             end
             /\ getSessionStatus (c', w) =
                Some (Ret (mkStatus false false
                             (if 0 <? tokenExpires c
                              then Some (tokenExpires c) else None)), (c', w))
        else jwtToken c' = jwtToken c /\ accountId c' = accountId c
             /\ patientId c' = patientId c /\ baseUrl c' = baseUrl c).
Proof.
  assert (Hst : forall c0 : LibreLinkClient,
             jwtToken c0 = None ->
             getSessionStatus (c0, w) =
             Some (Ret (mkStatus false false
                          (if 0 <? tokenExpires c0
                           then Some (tokenExpires c0) else None)), (c0, w))).
  { intros c0 H0. unfold getSessionStatus, bind, this, ret. simpl.
    rewrite isTokenValid_run. unfold valid_at. rewrite H0. reflexivity. }
  unfold updateConfig, changes_credentials, bind, this, assign, ret. simpl.
  destruct (truthy (p_email n) || truthy (p_password n) || truthy (p_region n)) eqn:E.
  - destruct (p_region n) as [r|] eqn:Er; simpl.
    + destruct (r =? "")%string eqn:E0; simpl;
        eexists; (split; [reflexivity|]); simpl;
        conjs; try reflexivity; apply Hst; reflexivity.
    + eexists; (split; [reflexivity|]); simpl.
      conjs; try reflexivity; apply Hst; reflexivity.
  - eexists; (split; [reflexivity|]); simpl. conjs; reflexivity.
Qed.

(** *** Running the session methods *)

Lemma tryRestoreSession_run (c : LibreLinkClient) (w : World) :
  tryRestoreSession (c, w) =
  match configManager c with
  | None => Some (Ret false, (c, w))
  | Some _ =>
      match tokenFile w with
      | Sealed td =>
          if (Stored.region td =? region (config c))%string
          then Some (Ret true, (restore_from td c, after_restore c w))
          else Some (Ret false, (c, after_restore c w))
      | _ => Some (Ret false, (c, after_restore c w))
      end
  end.
Proof.
  unfold tryRestoreSession, after_restore, bind, this, ret, try_catch, getToken,
    clearToken, assign, console_error, emit. cbn.
  destruct (configManager c); cbn; [|reflexivity].
  destruct (tokenFile w) as [|td|]; cbn; try reflexivity.
  destruct (Stored.region td =? region (config c))%string; reflexivity.
Qed.

Lemma saveSession_run (c : LibreLinkClient) (w : World) :
  saveSession (c, w) = Some (Ret tt, (c, after_save c w)).
Proof.
  unfold saveSession, after_save, bundle_of, bind, this, ret, try_catch,
    saveToken, console_error, emit. simpl.
  destruct (configManager c); simpl; [|reflexivity].
  destruct (jwtToken c) as [tok|]; simpl; [|reflexivity].
  destruct (tok =? "")%string; simpl; [destruct (userId c), (accountId c); reflexivity|].
  destruct (userId c) as [uid|]; simpl; [|reflexivity].
  destruct (uid =? "")%string; simpl; [destruct (accountId c); reflexivity|].
  destruct (accountId c) as [acc|]; simpl; [|reflexivity].
  destruct (acc =? "")%string; simpl; [reflexivity|].
  destruct (tokenWritable w); reflexivity.
Qed.

(** [ensureAuthenticated], one check at a time. *)
Lemma ensureAuthenticated_run (fuel : nat) (c : LibreLinkClient) (w : World) :
  ensureAuthenticated fuel (c, w) =
  if valid_at c (now_of w) then Some (Ret tt, (c, w))
  else
    match tryRestoreSession (c, w) with
    | Some (Ret restored, (c1, w1)) =>
        if valid_at c1 (now_of w1) then Some (Ret tt, (c1, w1))
        else login fuel (c1, w1)
    | Some (Throw e, s1) => Some (Throw e, s1)
    | None => None
    end.
Proof.
  unfold ensureAuthenticated, bind at 1 2. rewrite isTokenValid_run.
  destruct (valid_at c (now_of w)) eqn:V; simpl.
  - unfold ret, bind. rewrite isTokenValid_run, V. reflexivity.
  - unfold bind. destruct (tryRestoreSession (c, w)) as [[[restored|e] [c1 w1]]|];
      try reflexivity.
    destruct restored.
    + rewrite isTokenValid_run.
      destruct (valid_at c1 (now_of w1)) eqn:V1; [reflexivity|].
      rewrite isTokenValid_run, V1. reflexivity.
    + unfold ret. rewrite isTokenValid_run.
      destruct (valid_at c1 (now_of w1)); reflexivity.
Qed.

Lemma login_catch_run {A} (e : Error) (c : LibreLinkClient) (w : World) :
  exists e', @login_catch A e (c, w) = Some (Throw e', (c, w)).
Proof.
  unfold login_catch, bind, this, throw.
  destruct e; cbn; try (eexists; reflexivity).
  destruct (opt_Z_eqb (errStatus e) 403 && truthy (errMinimumVersion e));
    [eexists; reflexivity|].
  destruct (opt_Z_eqb (errStatus e) 403
            && opt_string_eqb (errResponseMessage e) "RequiredHeaderMissing");
    [eexists; reflexivity|].
  destruct (opt_Z_eqb (errStatus e) 401); eexists; reflexivity.
Qed.

(** One round of [login]: what the server answered decides between a retry
    from the redirected client, a session, a failure that leaves the client
    as it was, and a failure after the token and the expiry were assigned. *)
Lemma login_cases (c : LibreLinkClient) (w : World) :
  let w1 := record (EvRequest (login_request c)) w in
  (exists data r,
      onLogin w (trace w) (login_request c) = HttpOk data
      /\ redirect_target data = Some r
      /\ forall f, login (S f) (c, w) = login f (redirected r c, w1))
  \/ (exists data ticket u uid,
         onLogin w (trace w) (login_request c) = HttpOk data
         /\ redirect_target data = None
         /\ lr_authTicket data = Some ticket
         /\ lr_status data = 0
         /\ lr_user data = Some u
         /\ id u = Some uid
         /\ let c' := logged_in uid ticket c in
            forall f,
              login (S f) (c, w) =
              Some (Ret tt,
                    (c', after_save c'
                           (record (EvConsole
                                      ("LibreLink: Logged in as "
                                         ++ firstName u ++ " "
                                         ++ lastName u) None) w1))))
  \/ (exists e,
         (forall data, onLogin w (trace w) (login_request c) = HttpOk data ->
                       redirect_target data = None
                       /\ (lr_authTicket data = None \/ lr_status data <> 0))
         /\ forall f, login (S f) (c, w) = Some (Throw e, (c, w1)))
  \/ (exists data ticket,
         onLogin w (trace w) (login_request c) = HttpOk data
         /\ redirect_target data = None
         /\ lr_authTicket data = Some ticket
         /\ lr_status data = 0
         /\ user_id data = None
         /\ forall f,
             login (S f) (c, w)
             = Some (Throw (interruption data), (interrupted data ticket c, w1))).
Proof.
  intros w1. subst w1.
  assert (STEP : forall f,
             login (S f) (c, w) =
             match
               match login_try (c, w) with
               | Some (Throw e, s') => login_catch e s'
               | r => r
               end
             with
             | Some (Ret RetryLogin, s') => login f s'
             | Some (Ret LoginDone, s') => Some (Ret tt, s')
             | Some (Throw e, s') => Some (Throw e, s')
             | None => None
             end).
  { intros f.
    change (login (S f) (c, w)) with
      ((step <- try_catch login_try login_catch ;;
        match step with RetryLogin => login f | LoginDone => ret tt end) (c, w)).
    unfold bind, try_catch.
    destruct (login_try (c, w)) as [[[[]|e] s']|]; try reflexivity.
    destruct (login_catch e s') as [[[[]|e'] s'']|]; reflexivity. }
  assert (TRY : login_try (c, w) =
                (match settle (onLogin w (trace w) (login_request c)) with
                 | Ret data =>
                     match redirect_target data with
                     | Some r =>
                         Some (Ret RetryLogin,
                               (redirected r c, record (EvRequest (login_request c)) w))
                     | None =>
                         match lr_authTicket data with
                         | Some ticket =>
                             if lr_status data =? 0
                             then
                               match lr_user data with
                               | Some u =>
                                   match id u with
                                   | Some uid =>
                                       let c' := logged_in uid ticket c in
                                       Some (Ret LoginDone,
                                             (c', after_save c'
                                                    (record (EvConsole
                                                               ("LibreLink: Logged in as "
                                                                  ++ firstName u ++ " "
                                                                  ++ lastName u) None)
                                                            (record (EvRequest (login_request c)) w))))
                                   | None =>
                                       Some (Throw (interruption data),
                                             (interrupted data ticket c,
                                              record (EvRequest (login_request c)) w))
                                   end
                               | None =>
                                   Some (Throw (interruption data),
                                         (interrupted data ticket c,
                                          record (EvRequest (login_request c)) w))
                               end
                             else
                               Some (Throw (JsError "Login failed: Invalid response from LibreLink API"),
                                     (c, record (EvRequest (login_request c)) w))
                         | None =>
                             Some (Throw (JsError "Login failed: Invalid response from LibreLink API"),
                                   (c, record (EvRequest (login_request c)) w))
                         end
                     end
                 | Throw e => Some (Throw e, (c, record (EvRequest (login_request c)) w))
                 end)).
  { unfold login_try, createClient, http, bind, this, ret.
    change (request_of _ POST ENDPOINTS.login _) with (login_request c).
    cbn [fst snd].
    destruct (onLogin w (trace w) (login_request c)) as [data|e|m];
      cbn [settle]; try reflexivity.
    destruct (redirect_target data) as [r|].
    - unfold redirected, redirect_base, assign.
      destruct (truthy (LIBRE_LINK_SERVERS (toUpperCase r))); reflexivity.
    - destruct (lr_authTicket data) as [ticket|]; [|reflexivity].
      destruct (lr_status data =? 0); cbn [negb]; [|reflexivity].
      unfold interruption, interrupted.
      destruct (lr_user data) as [u|]; [|reflexivity].
      unfold assign, throw. cbn [fst snd userId set_userId].
      destruct (id u) as [uid|] eqn:I.
      + unfold console_error, emit. cbn [fst snd].
        rewrite saveSession_run. reflexivity.
      + reflexivity. }
  rewrite TRY in STEP. clear TRY.
  destruct (onLogin w (trace w) (login_request c)) as [data|e|m] eqn:E;
    cbn [settle] in STEP.
  - destruct (redirect_target data) as [r|] eqn:R.
    + left. exists data, r. conjs; try reflexivity; try assumption.
    + destruct (lr_authTicket data) as [ticket|] eqn:T.
      * destruct (lr_status data =? 0) eqn:S0.
        -- apply Z.eqb_eq in S0.
           destruct (lr_user data) as [u|] eqn:U.
           ++ destruct (id u) as [uid|] eqn:I.
              ** right; left. exists data, ticket, u, uid.
                 conjs; try reflexivity; try assumption.
              ** do 3 right. exists data, ticket.
                 conjs; try reflexivity; try assumption.
                 --- unfold user_id. rewrite U. exact I.
                 --- intros f. rewrite STEP.
                     unfold interruption. rewrite U.
                     unfold login_catch, throw. reflexivity.
           ++ do 3 right. exists data, ticket.
              conjs; try reflexivity; try assumption.
              --- unfold user_id. rewrite U. reflexivity.
              --- intros f. rewrite STEP.
                  unfold interruption. rewrite U.
                  unfold login_catch, throw. reflexivity.
        -- right; right; left.
           exists (JsError "Login failed: Invalid response from LibreLink API").
           split; [|exact STEP].
           intros d [= <-]. split; [assumption|].
           right. apply Z.eqb_neq; assumption.
      * right; right; left.
        exists (JsError "Login failed: Invalid response from LibreLink API").
        split; [|exact STEP].
        intros d [= <-]. split; [assumption|]. left; assumption.
  - right; right; left.
    destruct (@login_catch_run LoginStep (AxiosError e) c
                (record (EvRequest (login_request c)) w)) as [e' He'].
    rewrite He' in STEP.
    exists e'. split; [discriminate|exact STEP].
  - right; right; left. exists (OtherError m). split; [discriminate|exact STEP].
Qed.

(** *** Worlds only move forward *)

Lemma count_app (p : Event -> bool) (a b : list Event) :
  count p (a ++ b)%list = (count p a + count p b)%nat.
Proof. unfold count. rewrite filter_app, length_app. reflexivity. Qed.

Lemma count_cons (p : Event -> bool) (e : Event) (h : list Event) :
  count p (e :: h) = ((if p e then 1 else 0) + count p h)%nat.
Proof. unfold count. simpl. destruct (p e); reflexivity. Qed.

Lemma later_refl (w : World) : later w w.
Proof. split; [repeat split|]. exists []. reflexivity. Qed.

Lemma later_trans (w1 w2 w3 : World) : later w1 w2 -> later w2 w3 -> later w1 w3.
Proof.
  intros [(A1 & A2 & A3 & A4 & A5) [e1 E1]] [(B1 & B2 & B3 & B4 & B5) [e2 E2]].
  split.
  - repeat split; congruence.
  - exists (e2 ++ e1)%list. rewrite E2, E1, app_assoc. reflexivity.
Qed.

Lemma later_record (e : Event) (w : World) : later w (record e w).
Proof. split; [repeat split|]. exists [e]. reflexivity. Qed.

Lemma later_with_tokenFile (f : TokenFile) (w : World) : later w (with_tokenFile f w).
Proof. split; [repeat split|]. exists []. reflexivity. Qed.

Lemma later_delete (w : World) : later w (delete_token_file w).
Proof. split; [repeat split|]. exists [EvClearToken]. reflexivity. Qed.

Lemma later_count (p : Event -> bool) (w w' : World) :
  later w w' -> (count p (trace w) <= count p (trace w'))%nat.
Proof. intros [_ [evs E]]. rewrite E, count_app. lia. Qed.

Create HintDb later.
#[local] Hint Resolve later_refl later_record later_with_tokenFile later_delete : later.

Lemma after_save_later (c : LibreLinkClient) (w : World) : later w (after_save c w).
Proof.
  unfold after_save. destruct (bundle_of c); [|auto with later].
  destruct (tokenWritable w);
    repeat (eapply later_trans; [|apply later_record]); auto with later.
Qed.

Lemma after_save_counts (c : LibreLinkClient) (w : World) :
  logins (trace (after_save c w)) = logins (trace w)
  /\ connection_gets (trace (after_save c w)) = connection_gets (trace w)
  /\ token_clears (trace (after_save c w)) = token_clears (trace w).
Proof.
  unfold after_save. destruct (bundle_of c); [|repeat split].
  destruct (tokenWritable w); repeat split.
Qed.

Lemma after_restore_later (c : LibreLinkClient) (w : World) :
  later w (after_restore c w).
Proof.
  unfold after_restore. destruct (tokenFile w) as [|td|].
  - auto with later.
  - destruct (Stored.region td =? region (config c))%string.
    + eapply later_trans; [|apply later_record]. auto with later.
    + eapply later_trans; [|apply later_delete]. auto with later.
  - eapply later_trans; [|apply later_record]. auto with later.
Qed.

Lemma login_request_is_post (c : LibreLinkClient) :
  is_login_post (EvRequest (login_request c)) = true.
Proof. reflexivity. Qed.

Lemma same_session_refl (c : LibreLinkClient) : same_session c c.
Proof. repeat split. Qed.

Lemma same_session_trans (a b c : LibreLinkClient) :
  same_session a b -> same_session b c -> same_session a c.
Proof.
  unfold same_session. intros (A1 & A2 & A3 & A4 & A5 & A6) (B1 & B2 & B3 & B4 & B5 & B6).
  repeat split; congruence.
Qed.

Lemma same_session_redirected (r : string) (c : LibreLinkClient) :
  same_session c (redirected r c).
Proof. repeat split. Qed.

(** Whatever [login] does, the world it leaves is a later one, its history
    starts with the login request of the call, and the client keeps its
    manager. *)
Lemma login_later (f : nat) :
  forall c w o c' w',
    login f (c, w) = Some (o, (c', w')) ->
    later w w'
    /\ (exists evs, trace w' = (evs ++ EvRequest (login_request c) :: trace w)%list)
    /\ configManager c' = configManager c.
Proof.
  induction f as [|f IH]; intros c w o c' w' H; [discriminate|].
  destruct (login_cases c w) as
    [(data & r & _ & _ & EQ)
    | [(data & ticket & u & uid & _ & _ & _ & _ & _ & _ & EQ)
      | [(e & _ & EQ) | (data & ticket & _ & _ & _ & _ & _ & EQ)]]];
    rewrite EQ in H; clear EQ.
  - apply IH in H. destruct H as (L & [evs E] & CM). conjs.
    + eapply later_trans; [apply later_record|exact L].
    + destruct L as [_ [evs' E']].
      exists (evs ++ [EvRequest (login_request (redirected r c))])%list.
      rewrite E. cbn [record trace]. rewrite <- app_assoc. reflexivity.
    + rewrite CM. reflexivity.
  - injection H as <- <- <-. conjs.
    + eapply later_trans; [|apply after_save_later].
      eapply later_trans; apply later_record.
    + destruct (after_save_later (logged_in uid ticket c)
                  (record (EvConsole
                             ("LibreLink: Logged in as "
                                ++ firstName u ++ " "
                                ++ lastName u) None)
                          (record (EvRequest (login_request c)) w)))
        as [_ [evs E]].
      eexists (evs ++ [_])%list. etransitivity; [exact E|].
      cbn [record trace]. rewrite <- app_assoc. reflexivity.
    + reflexivity.
  - injection H as <- <- <-. conjs.
    + apply later_record.
    + exists []. reflexivity.
    + reflexivity.
  - injection H as <- <- <-. conjs.
    + apply later_record.
    + exists []. reflexivity.
    + unfold interrupted. destruct (lr_user data); reflexivity.
Qed.

Lemma valid_at_later (c : LibreLinkClient) (t t' : Z) :
  t <= t' -> valid_at c t = false -> valid_at c t' = false.
Proof.
  unfold valid_at. intros Le H.
  destruct (truthy (jwtToken c)); [|reflexivity].
  destruct (truthy (accountId c)); [|reflexivity].
  cbn in *. apply Z.ltb_ge in H. apply Z.ltb_ge. lia.
Qed.

Lemma valid_at_true (c : LibreLinkClient) (t : Z) :
  valid_at c t = true <->
  truthy (jwtToken c) = true /\ truthy (accountId c) = true
  /\ t < tokenExpires c - 300000.
Proof.
  unfold valid_at. rewrite !andb_true_iff, Z.ltb_lt. tauto.
Qed.

(** *** Session lifecycle *)

(** C8.  [clearSession] always returns; afterwards token, account id, user id
    and patient id are null and the expiry is 0, and the token file is
    deleted through the client's manager (the [clear_session] tool deletes it
    in every case).  The status is then unauthenticated, not valid, without
    expiry; no authenticated client can be built; and [ensureAuthenticated]
    finds nothing to restore and is a [login]. *)
Theorem clearSession_drops_session (c : LibreLinkClient) (w : World) :
  exists c' w',
    clearSession (c, w) = Some (Ret tt, (c', w'))
    /\ jwtToken c' = None /\ accountId c' = None /\ userId c' = None
    /\ patientId c' = None /\ tokenExpires c' = 0
    /\ config c' = config c /\ baseUrl c' = baseUrl c
    /\ configManager c' = configManager c
    /\ w' = (if is_some (configManager c) then delete_token_file w else w)
    /\ tokenFile w' = (if is_some (configManager c) then NoFile else tokenFile w)
    /\ getSessionStatus (c', w') = Some (Ret (mkStatus false false None), (c', w'))
    /\ createAuthenticatedClient (c', w') =
       Some (Throw (JsError "Not authenticated. Call login() first."), (c', w'))
    /\ (forall fuel,
           ensureAuthenticated fuel (c', w') =
           login fuel (c', if is_some (configManager c)
                           then record EvGetToken w' else w'))
    /\ (exists w'',
           clear_session_handler (Some c) w =
           Some (Ret "Session cleared. You will need to re-authenticate on the next request.",
                 (Some c', w''))
           /\ tokenFile w'' = NoFile)
    /\ (exists w'',
           clear_session_handler None w =
           Some (Ret "Session cleared. You will need to re-authenticate on the next request.",
                 (None, w''))
           /\ tokenFile w'' = NoFile).
Proof.
  unfold clear_session_handler, bind.
  unfold clearSession, bind, assign, this, ret, clearToken. cbn.
  destruct (configManager c) as [cm|] eqn:CM; cbn;
    do 2 eexists; (split; [reflexivity|]); cbn; conjs;
    try reflexivity; try assumption.
  - intros fuel. rewrite ensureAuthenticated_run, tryRestoreSession_run.
    cbn. rewrite CM. reflexivity.
  - eexists. split; reflexivity.
  - eexists. split; reflexivity.
  - intros fuel. rewrite ensureAuthenticated_run, tryRestoreSession_run.
    cbn. rewrite CM. reflexivity.
  - eexists. split; reflexivity.
  - eexists. split; reflexivity.
Qed.

(** C3.  With a token in memory (and with it its account id, as in every
    state the client reaches while the login server keeps to its interface,
    see [consistent]): when the expiry is more
    than 300 000 ms ahead of the clock, [ensureAuthenticated] returns at once
    and leaves client and world (no token-store or network event) as they
    were; when it is at most 300 000 ms ahead, [isTokenValid] is false and the
    call does not return the session as it is: with a manager it first reads
    the token store and then, unless what it holds afterwards is valid, logs
    in; without one it is a [login].  In both cases the history has grown by
    a token-store read or a login request first. *)
Theorem ensureAuthenticated_safety_margin
        (fuel : nat) (c : LibreLinkClient) (w : World) :
  truthy (jwtToken c) = true ->
  token_has_account c ->
  (now_of w < tokenExpires c - 300000 ->
   ensureAuthenticated fuel (c, w) = Some (Ret tt, (c, w)))
  /\ (tokenExpires c - now_of w <= 300000 ->
      isTokenValid (c, w) = Some (Ret false, (c, w))
      /\ (exists restored c1 w1,
             tryRestoreSession (c, w) = Some (Ret restored, (c1, w1))
             /\ w1 = (if is_some (configManager c) then after_restore c w else w)
             /\ ensureAuthenticated fuel (c, w) =
                if valid_at c1 (now_of w1) then Some (Ret tt, (c1, w1))
                else login fuel (c1, w1))
      /\ (forall o c' w',
             ensureAuthenticated fuel (c, w) = Some (o, (c', w')) ->
             exists evs e,
               trace w' = (evs ++ e :: trace w)%list
               /\ e = (if is_some (configManager c) then EvGetToken
                       else EvRequest (login_request c)))).
Proof.
  intros Hj Ha. specialize (Ha Hj). split.
  - intros Hlt. rewrite ensureAuthenticated_run.
    replace (valid_at c (now_of w)) with true; [reflexivity|].
    symmetry. apply valid_at_true. auto.
  - intros Hle.
    assert (V : valid_at c (now_of w) = false).
    { unfold valid_at. rewrite Hj, Ha. cbn. apply Z.ltb_ge. lia. }
    assert (R : exists restored c1 w1,
               tryRestoreSession (c, w) = Some (Ret restored, (c1, w1))
               /\ w1 = (if is_some (configManager c) then after_restore c w else w)
               /\ (is_some (configManager c) = false -> c1 = c)).
    { rewrite tryRestoreSession_run.
      destruct (configManager c); cbn [is_some].
      - destruct (tokenFile w) as [|td|].
        + do 3 eexists; conjs; try reflexivity; discriminate.
        + destruct (Stored.region td =? region (config c))%string;
            do 3 eexists; conjs; try reflexivity; discriminate.
        + do 3 eexists; conjs; try reflexivity; discriminate.
      - do 3 eexists; conjs; reflexivity. }
    destruct R as (restored & c1 & w1 & TR & W1 & C1).
    assert (EQ : ensureAuthenticated fuel (c, w) =
                 if valid_at c1 (now_of w1) then Some (Ret tt, (c1, w1))
                 else login fuel (c1, w1)).
    { rewrite ensureAuthenticated_run, V, TR. reflexivity. }
    conjs.
    + rewrite isTokenValid_run, V. reflexivity.
    + exists restored, c1, w1. auto.
    + intros o c' w' H. rewrite EQ in H.
      destruct (configManager c) as [cm|] eqn:CM; cbn [is_some] in *.
      * assert (G : exists evs, trace w1 = (evs ++ EvGetToken :: trace w)%list).
        { subst w1. unfold after_restore.
          destruct (tokenFile w) as [|td|].
          - exists []. reflexivity.
          - destruct (Stored.region td =? region (config c))%string;
              eexists [_]; reflexivity.
          - eexists [_]; reflexivity. }
        destruct G as [evs1 G].
        destruct (valid_at c1 (now_of w1)).
        -- injection H as <- <- <-. exists evs1, EvGetToken. auto.
        -- apply login_later in H. destruct H as ([_ [evs E]] & _ & _).
           exists (evs ++ evs1)%list, EvGetToken. split; [|reflexivity].
           rewrite E, G, app_assoc. reflexivity.
      * specialize (C1 eq_refl). subst c1 w1. rewrite V in H.
        apply login_later in H. destruct H as (_ & [evs E] & _).
        exists evs, (EvRequest (login_request c)). auto.
Qed.

(** C4.  A stored bundle whose region is not the configured one is treated
    as absent: [tryRestoreSession] deletes the token file, answers false and
    leaves every field of the client as it was; [ensureAuthenticated], when
    the session in memory is not valid, then goes on to [login]. *)
Theorem restore_region_mismatch
        (fuel : nat) (c : LibreLinkClient) (w : World)
        (cm : ConfigManager) (td : Stored.TokenData) :
  configManager c = Some cm ->
  tokenFile w = Sealed td ->
  Stored.region td <> region (config c) ->
  let w' := delete_token_file (record EvGetToken w) in
  tryRestoreSession (c, w) = Some (Ret false, (c, w'))
  /\ tokenFile w' = NoFile
  /\ token_clears (trace w') = S (token_clears (trace w))
  /\ (valid_at c (now_of w) = false ->
      now_of w <= now_of w' ->
      ensureAuthenticated fuel (c, w) = login fuel (c, w')).
Proof.
  intros CM TF NE w'.
  assert (TR : tryRestoreSession (c, w) = Some (Ret false, (c, w'))).
  { rewrite tryRestoreSession_run, CM, TF. unfold after_restore. rewrite TF.
    destruct (String.eqb_spec (Stored.region td) (region (config c)));
      [contradiction|reflexivity]. }
  conjs; try reflexivity; try assumption.
  intros V Le. rewrite ensureAuthenticated_run, V, TR.
  rewrite (valid_at_later c _ _ Le V). reflexivity.
Qed.

(** C6, as the code has it.  [tryRestoreSession] never throws.  When the
    token file is unreadable, the error of the store is caught, written to the
    console, and the answer is false with the client as it was and the file
    still in place; [ensureAuthenticated], when the session in memory is not
    valid, then goes on to [login]. *)
Theorem tryRestoreSession_swallows_store_errors
        (fuel : nat) (c : LibreLinkClient) (w : World) (cm : ConfigManager) :
  configManager c = Some cm ->
  tokenFile w = Damaged ->
  let w' := record (EvConsole "Error restoring session:" (Some CorruptedStoreError))
                   (record EvGetToken w) in
  tryRestoreSession (c, w) = Some (Ret false, (c, w'))
  /\ tokenFile w' = Damaged
  /\ (forall c0 w0, exists b c1 w1,
         tryRestoreSession (c0, w0) = Some (Ret b, (c1, w1)))
  /\ (valid_at c (now_of w) = false ->
      now_of w <= now_of w' ->
      ensureAuthenticated fuel (c, w) = login fuel (c, w')).
Proof.
  intros CM TF w'.
  assert (TR : tryRestoreSession (c, w) = Some (Ret false, (c, w'))).
  { rewrite tryRestoreSession_run, CM, TF. unfold after_restore. rewrite TF.
    reflexivity. }
  conjs; try assumption.
  - intros c0 w0. rewrite tryRestoreSession_run.
    destruct (configManager c0); [|do 3 eexists; reflexivity].
    destruct (tokenFile w0) as [|td0|]; try (do 3 eexists; reflexivity).
    destruct (Stored.region td0 =? region (config c0))%string;
      do 3 eexists; reflexivity.
  - intros V Le. rewrite ensureAuthenticated_run, V, TR.
    rewrite (valid_at_later c _ _ Le V). reflexivity.
Qed.

Lemma login_counts_a_request (f : nat) (c : LibreLinkClient) (w : World)
      (o : Outcome unit) (c' : LibreLinkClient) (w' : World) :
  login f (c, w) = Some (o, (c', w')) ->
  (S (logins (trace w)) <= logins (trace w'))%nat.
Proof.
  intros H. apply login_later in H. destruct H as (_ & [evs E] & _).
  unfold logins. rewrite E, count_app, count_cons, login_request_is_post. lia.
Qed.

(** C7, as the code has it.  A [login] that throws has sent its last request
    as the client [c0]: the client it started from, moved to the region and
    the endpoint of the redirect it followed last, if it followed one (with a
    single request, [c0] is the client it started from; otherwise the request
    before the last was answered with that redirect).  Token, expiry, user
    id, account id and patient id of [c0] are those before the call.  When
    the last request failed, or its response did not pass the test of status
    and ticket, the client is left as [c0].  When the response passed the test
    and came without a user, or with a user without an id, a TypeError is
    thrown after the first assignments and nothing is taken back: the client
    is left with the token and the expiry of the ticket, with no user id if
    the user came without one, and with the account id, the patient id,
    the region and the endpoint of [c0]. *)
Theorem login_failure_keeps_session
        (fuel : nat) (c : LibreLinkClient) (w : World)
        (e : Error) (c' : LibreLinkClient) (w' : World) :
  login fuel (c, w) = Some (Throw e, (c', w')) ->
  exists c0 w0,
    w' = record (EvRequest (login_request c0)) w0
    /\ same_session c c0
    /\ config c0 = set_region (region (config c0)) (config c)
    /\ (logins (trace w') = S (logins (trace w)) -> c0 = c /\ w0 = w)
    /\ ((c0 = c /\ w0 = w)
        \/ exists c1 w1 data r,
            later w w1
            /\ same_session c c1
            /\ onLogin w (trace w1) (login_request c1) = HttpOk data
            /\ redirect_target data = Some r
            /\ c0 = redirected r c1
            /\ w0 = record (EvRequest (login_request c1)) w1)
    /\ ((c' = c0
         /\ forall data,
             onLogin w (trace w0) (login_request c0) = HttpOk data ->
             lr_authTicket data = None \/ lr_status data <> 0)
        \/ (exists data ticket,
               onLogin w (trace w0) (login_request c0) = HttpOk data
               /\ redirect_target data = None
               /\ lr_authTicket data = Some ticket
               /\ lr_status data = 0
               /\ user_id data = None
               /\ e = interruption data
               /\ c' = interrupted data ticket c0
               /\ jwtToken c' = Some (ticketToken ticket)
               /\ tokenExpires c' = ticketExpires ticket * 1000
               /\ userId c' = match lr_user data with
                              | Some _ => None
                              | None => userId c
                              end
               /\ accountId c' = accountId c
               /\ patientId c' = patientId c
               /\ config c' = config c0
               /\ baseUrl c' = baseUrl c0)).
Proof.
  revert c w. induction fuel as [|f IH]; intros c w H; [discriminate|].
  destruct (login_cases c w) as
    [(data & r & E & R & EQ)
    | [(data & ticket & u & uid & _ & _ & _ & _ & _ & _ & EQ)
      | [(e0 & N & EQ) | (data & ticket & E & R & T & S0 & UID & EQ)]]];
    rewrite EQ in H; clear EQ.
  - pose proof (login_counts_a_request _ _ _ _ _ _ H) as Cnt.
    cbn [record trace] in Cnt. unfold logins in Cnt.
    rewrite count_cons, login_request_is_post in Cnt.
    apply IH in H. destruct H as (c0 & w0 & W' & SS & CF & _ & CH & LAST).
    exists c0, w0. conjs.
    + exact W'.
    + eapply same_session_trans; [apply same_session_redirected|exact SS].
    + rewrite CF. reflexivity.
    + unfold logins. intros K. lia.
    + right.
      destruct CH as [[-> ->] | (c1 & w1 & data1 & r1 & L1 & SS1 & E1 & R1 & -> & ->)].
      * exists c, w, data, r. conjs; auto with later; apply same_session_refl.
      * exists c1, w1, data1, r1. conjs; try assumption; try reflexivity.
        eapply later_trans; [apply later_record|exact L1].
    + exact LAST.
  - discriminate.
  - injection H as <- <- <-. exists c, w. conjs.
    + reflexivity.
    + apply same_session_refl.
    + destruct (config c); reflexivity.
    + intros _. split; reflexivity.
    + left; split; reflexivity.
    + left. split; [reflexivity|]. intros d Hd. apply (N d Hd).
  - injection H as <- <- <-. exists c, w. conjs.
    + reflexivity.
    + apply same_session_refl.
    + destruct (config c); reflexivity.
    + intros _. split; reflexivity.
    + left; split; reflexivity.
    + right. exists data, ticket.
      assert (U : userId (interrupted data ticket c)
                  = match lr_user data with
                    | Some _ => None
                    | None => userId c
                    end).
      { unfold interrupted, user_id in *.
        destruct (lr_user data); [exact UID|reflexivity]. }
      conjs; try assumption; try reflexivity;
        unfold interrupted; destruct (lr_user data); reflexivity.
Qed.

(** *** Redirects *)

(** C2, as the code has it.  On a redirect response [login] moves the
    configured region and the base endpoint to the region named and calls
    itself; nothing bounds the number of hops.  When the login server answers
    the next [k] requests with redirects, [k] nested calls have been made, each
    after one more request, the call has not settled, and it goes on as a
    [login] of the client redirected for the [k]-th time. *)
Theorem login_follows_every_redirect
        (k fuel : nat) (c : LibreLinkClient) (w : World) :
  (forall h req,
      (logins h < logins (trace w) + k)%nat ->
      exists data r, onLogin w h req = HttpOk data /\ redirect_target data = Some r) ->
  login k (c, w) = None
  /\ exists c_k w_k,
      login (k + fuel) (c, w) = login fuel (c_k, w_k)
      /\ later w w_k
      /\ logins (trace w_k) = (logins (trace w) + k)%nat
      /\ same_session c c_k
      /\ (k = 0%nat -> c_k = c /\ w_k = w)
      /\ ((0 < k)%nat ->
          exists r, region (config c_k) = toUpperCase r
                    /\ baseUrl c_k = redirect_base r).
Proof.
  revert c w. induction k as [|k IH]; intros c w Hred.
  - split; [reflexivity|]. exists c, w. conjs; auto with later.
    + apply same_session_refl.
    + intros K. inversion K.
  - destruct (Hred (trace w) (login_request c)) as (data & r & E & R); [lia|].
    assert (STEP : forall f, login (S f) (c, w) =
                             login f (redirected r c,
                                      record (EvRequest (login_request c)) w)).
    { intros f.
      destruct (login_cases c w) as
        [(data' & r' & E' & R' & EQ)
        | [(data' & ticket & u & uid & E' & R' & _)
          | [(e & N & _) | (data' & ticket & E' & R' & _)]]].
      - rewrite E in E'. injection E' as <-. rewrite R in R'.
        injection R' as <-. apply EQ.
      - rewrite E in E'. injection E' as <-. congruence.
      - destruct (N data E) as [N' _]. congruence.
      - rewrite E in E'. injection E' as <-. congruence. }
    destruct (IH (redirected r c) (record (EvRequest (login_request c)) w))
      as (DIV & c_k & w_k & EQ & L & CNT & SS & Z & P).
    { intros h req Hlt. apply Hred.
      cbn [record trace] in Hlt. unfold logins in Hlt.
      rewrite count_cons, login_request_is_post in Hlt.
      unfold logins. lia. }
    split; [rewrite STEP; exact DIV|].
    exists c_k, w_k. conjs.
    + cbn [Nat.add]. rewrite STEP. exact EQ.
    + eapply later_trans; [apply later_record|exact L].
    + rewrite CNT. cbn [record trace]. unfold logins.
      rewrite count_cons, login_request_is_post. lia.
    + eapply same_session_trans; [apply same_session_redirected|exact SS].
    + discriminate.
    + intros _. destruct k as [|k'].
      * destruct (Z eq_refl) as [-> _]. exists r. split; reflexivity.
      * apply P. lia.
Qed.


Lemma login_redirect_loop_never_settles (c : LibreLinkClient) (w : World) :
  (forall h req, exists data r,
      onLogin w h req = HttpOk data /\ redirect_target data = Some r) ->
  forall fuel, login fuel (c, w) = None.
Proof.
  intros Hred fuel. revert c w Hred.
  induction fuel as [|f IH]; intros c w Hred; [reflexivity|].
  destruct (Hred (trace w) (login_request c)) as (data & r & E & R).
  destruct (login_cases c w) as
    [(data' & r' & _ & _ & EQ)
    | [(data' & ticket & u & uid & E' & R' & _)
      | [(e & N & _) | (data' & ticket & E' & R' & _)]]].
  - rewrite EQ. apply IH. exact Hred.
  - rewrite E in E'. injection E' as <-. congruence.
  - destruct (N data E) as [N' _]. congruence.
  - rewrite E in E'. injection E' as <-. congruence.
Qed.

(** *** Authenticated calls *)

Lemma createAuthenticatedClient_ok (c : LibreLinkClient) (w : World) :
  truthy (jwtToken c) = true -> truthy (accountId c) = true ->
  createAuthenticatedClient (c, w) = Some (Ret (authenticated_client c), (c, w)).
Proof.
  intros Hj Ha. rewrite createAuthenticatedClient_run. unfold authenticated_client.
  destruct (jwtToken c) as [tok|]; [|discriminate].
  destruct (accountId c) as [acc|]; [|discriminate].
  cbn [truthy] in Hj, Ha. rewrite Hj, Ha. reflexivity.
Qed.

Lemma createAuthenticatedClient_state (c : LibreLinkClient) (w : World) :
  exists o, createAuthenticatedClient (c, w) = Some (o, (c, w)).
Proof.
  rewrite createAuthenticatedClient_run.
  destruct (jwtToken c) as [tok|]; [|eexists; reflexivity].
  destruct (accountId c) as [acc|]; [|eexists; reflexivity].
  destruct (negb (tok =? "")%string && negb (acc =? "")%string);
    eexists; reflexivity.
Qed.

(** One round of [getConnections]. *)
Lemma getConnections_run (f : nat) (c : LibreLinkClient) (w : World) :
  getConnections (S f) (c, w) =
  match ensureAuthenticated f (c, w) with
  | Some (Ret _, (c1, w1)) =>
      match createAuthenticatedClient (c1, w1) with
      | Some (Ret inst, _) =>
          let req := request_of inst GET ENDPOINTS.connections None in
          let w2 := record (EvRequest req) w1 in
          match onConnections w1 (trace w1) req with
          | HttpOk data =>
              Some (Ret (match data with Some l => l | None => [] end), (c1, w2))
          | HttpAxiosError e =>
              if opt_Z_eqb (errStatus e) 401
              then
                match ensureAuthenticated f (drop_token (c1, w2)) with
                | Some (Ret _, s3) => getConnections f s3
                | Some (Throw e', s3) => Some (Throw e', s3)
                | None => None
                end
              else Some (Throw (AxiosError e), (c1, w2))
          | HttpOtherError m => Some (Throw (OtherError m), (c1, w2))
          end
      | Some (Throw e, s) => Some (Throw e, s)
      | None => None
      end
  | Some (Throw e, s) => Some (Throw e, s)
  | None => None
  end.
Proof.
  change (getConnections (S f)) with
    (ensureAuthenticated f ;;
     client <- createAuthenticatedClient ;;
     try_catch
       (data <- http onConnections
                  (request_of client GET ENDPOINTS.connections None) ;;
        ret (match data with Some l => l | None => [] end))
       (fun error =>
          match error with
          | AxiosError e =>
              if opt_Z_eqb (errStatus e) 401
              then
                c <- this ;;
                (if is_some (configManager c) then clearToken else ret tt) ;;
                assign (set_jwtToken None) ;;
                ensureAuthenticated f ;;
                getConnections f
              else throw error
          | _ => throw error
          end)).
  unfold bind at 1.
  destruct (ensureAuthenticated f (c, w)) as [[[[] |e] [c1 w1]]|]; try reflexivity.
  unfold bind at 1.
  destruct (createAuthenticatedClient_state c1 w1) as [o CA]. rewrite CA.
  destruct o as [inst|e]; [|reflexivity].
  unfold try_catch, http, bind at 1, ret. cbn [fst snd].
  destruct (onConnections w1 (trace w1) _) as [data|e|m]; cbn [settle]; try reflexivity.
  destruct (opt_Z_eqb (errStatus e) 401); [|reflexivity].
  unfold drop_token, bind, this, assign, clearToken, ret. cbn [fst snd].
  destruct (configManager c1); reflexivity.
Qed.

Lemma good_session_later (c : LibreLinkClient) (w w' : World) :
  good_session c w -> later w w' -> good_session c w'.
Proof.
  intros (Hj & Ha & Hc) [(_ & _ & _ & Ck & _) _].
  unfold good_session. rewrite Ck. auto.
Qed.

Lemma lets_in_later (w w' : World) : lets_in w -> later w w' -> lets_in w'.
Proof.
  intros H [(L & _ & _ & Ck & _) _]. unfold lets_in. rewrite L, Ck. exact H.
Qed.

Lemma good_session_valid (c : LibreLinkClient) (w : World) :
  good_session c w -> valid_at c (now_of w) = true.
Proof.
  intros (Hj & Ha & Hc). apply valid_at_true. conjs; auto. apply Hc.
Qed.

Lemma ensureAuthenticated_cached (f : nat) (c : LibreLinkClient) (w : World) :
  good_session c w -> ensureAuthenticated f (c, w) = Some (Ret tt, (c, w)).
Proof.
  intros G. rewrite ensureAuthenticated_run, (good_session_valid _ _ G). reflexivity.
Qed.

Ltac count_events :=
  cbn [record with_tokenFile delete_token_file trace];
  unfold logins, connection_gets, graph_gets, token_clears;
  rewrite ?count_cons; cbn; try lia.

(** After the token was dropped and the token file deleted, a login server
    that lets the user in makes [ensureAuthenticated] log in once. *)
Lemma ensureAuthenticated_relogin (f : nat) (c : LibreLinkClient) (w : World) :
  (forall s, sha256_hex s <> "") ->
  lets_in w ->
  jwtToken c = None ->
  (is_some (configManager c) = true -> tokenFile w = NoFile) ->
  exists c1 w1,
    ensureAuthenticated (S f) (c, w) = Some (Ret tt, (c1, w1))
    /\ good_session c1 w1 /\ later w w1
    /\ logins (trace w1) = S (logins (trace w))
    /\ connection_gets (trace w1) = connection_gets (trace w)
    /\ graph_gets (trace w1) = graph_gets (trace w)
    /\ token_clears (trace w1) = token_clears (trace w)
    /\ configManager c1 = configManager c /\ patientId c1 = patientId c.
Proof.
  intros Hsha Hin Hj Hfile.
  assert (V : forall t, valid_at c t = false).
  { intros t. unfold valid_at. rewrite Hj. reflexivity. }
  set (w0 := if is_some (configManager c) then record EvGetToken w else w).
  assert (TR : tryRestoreSession (c, w) = Some (Ret false, (c, w0))).
  { rewrite tryRestoreSession_run. subst w0.
    destruct (configManager c); cbn [is_some] in *; [|reflexivity].
    unfold after_restore. rewrite (Hfile eq_refl). reflexivity. }
  assert (L0 : later w w0).
  { subst w0. destruct (is_some (configManager c)); auto with later. }
  assert (C0 : forall p, p EvGetToken = false -> count p (trace w0) = count p (trace w)).
  { intros p Hp. subst w0. destruct (is_some (configManager c)); [|reflexivity].
    cbn [record trace]. rewrite count_cons, Hp. reflexivity. }
  rewrite ensureAuthenticated_run, V, TR, V.
  destruct (lets_in_later _ _ Hin L0 (trace w0) (login_request c))
    as (resp & ticket & E & R & T & S0 & Uid & Tok & Exp).
  destruct (login_cases c w0) as
    [(data' & r' & E' & R' & _)
    | [(data' & ticket' & u & uid & E' & _ & T' & _ & _ & _ & EQ)
      | [(e & N & _) | (data' & ticket' & E' & _ & _ & _ & UID & _)]]].
  - rewrite E in E'. injection E' as <-. congruence.
  - rewrite E in E'. injection E' as <-. rewrite T in T'. injection T' as <-.
    cbv zeta in EQ. rewrite EQ. clear EQ.
    set (c1 := logged_in uid ticket c).
    set (w2 := record (EvConsole
                         ("LibreLink: Logged in as "
                            ++ firstName u ++ " "
                            ++ lastName u) None)
                      (record (EvRequest (login_request c)) w0)).
    exists c1, (after_save c1 w2). split; [reflexivity|].
    pose proof (after_save_counts c1 w2) as (K1 & K2 & K3).
    pose proof (after_save_later c1 w2) as LS.
    assert (L2 : later w0 w2).
    { eapply later_trans; apply later_record. }
    assert (K4 : graph_gets (trace (after_save c1 w2)) = graph_gets (trace w2)).
    { unfold after_save. destruct (bundle_of c1); [|reflexivity].
      destruct (tokenWritable w2); reflexivity. }
    conjs.
    + eapply good_session_later; [|exact LS].
      unfold good_session, c1, logged_in, generateAccountId. cbn.
      conjs.
      * destruct (String.eqb_spec (ticketToken ticket) ""); [contradiction|reflexivity].
      * destruct (String.eqb_spec (sha256_hex uid) "");
          [exfalso; eapply Hsha; eassumption|reflexivity].
      * exact Exp.
    + eapply later_trans; [exact L0|]. eapply later_trans; [exact L2|exact LS].
    + rewrite K1. subst w2. count_events.
      fold (logins (trace w0)). unfold logins. rewrite C0; reflexivity.
    + rewrite K2. subst w2. count_events. rewrite C0; reflexivity.
    + rewrite K4. subst w2. count_events. rewrite C0; reflexivity.
    + rewrite K3. subst w2. count_events. rewrite C0; reflexivity.
    + reflexivity.
    + reflexivity.
  - destruct (N resp E) as [_ [N'|N']]; congruence.
  - rewrite E in E'. injection E' as <-. congruence.
Qed.


Lemma connections_request_counts (c : LibreLinkClient) :
  is_connections_get (EvRequest (connections_request c)) = true
  /\ is_login_post (EvRequest (connections_request c)) = false
  /\ is_graph_get (EvRequest (connections_request c)) = false
  /\ is_token_clear (EvRequest (connections_request c)) = false.
Proof. repeat split. Qed.

(** [k] rejections of [getConnections] in a row: [k] times the token is
    dropped, the token file deleted and a login made, and the call asks
    again; the answer that is not a 401 is the one returned. *)
Lemma getConnections_cycles (k : nat) :
  forall (extra : nat) (c : LibreLinkClient) (w : World)
         (data : option (list Connection)),
    (forall s, sha256_hex s <> "") ->
    lets_in w ->
    good_session c w ->
    (forall h req,
        (connection_gets h < connection_gets (trace w) + k)%nat ->
        unauthorized (onConnections w h req)) ->
    (forall h req,
        connection_gets h = (connection_gets (trace w) + k)%nat ->
        onConnections w h req = HttpOk data) ->
    exists c' w',
      getConnections (S k + extra) (c, w) =
      Some (Ret (match data with Some l => l | None => [] end), (c', w'))
      /\ good_session c' w' /\ later w w'
      /\ logins (trace w') = (logins (trace w) + k)%nat
      /\ connection_gets (trace w') = (connection_gets (trace w) + S k)%nat
      /\ token_clears (trace w') =
         (token_clears (trace w) + if is_some (configManager c) then k else 0)%nat
      /\ configManager c' = configManager c
      /\ patientId c' = patientId c.
Proof.
  induction k as [|k IH]; intros extra c w data Hsha Hin G H401 Hok.
  - cbn [Nat.add]. rewrite getConnections_run, (ensureAuthenticated_cached _ _ _ G).
    destruct G as (Hj & Ha & Hc).
    rewrite (createAuthenticatedClient_ok _ _ Hj Ha). cbv zeta.
    fold (connections_request c).
    rewrite (Hok (trace w) (connections_request c)) by lia.
    do 2 eexists. split; [reflexivity|].
    conjs; try reflexivity; auto with later.
    + unfold good_session. auto.
    + count_events.
    + destruct (is_some (configManager c)); count_events.
  - cbn [Nat.add]. rewrite getConnections_run, (ensureAuthenticated_cached _ _ _ G).
    pose proof G as (Hj & Ha & Hc).
    rewrite (createAuthenticatedClient_ok _ _ Hj Ha). cbv zeta.
    fold (connections_request c).
    destruct (H401 (trace w) (connections_request c)) as (e & E & St401); [lia|].
    rewrite E, St401. cbn [opt_Z_eqb]. rewrite Z.eqb_refl.
    set (w2 := record (EvRequest (connections_request c)) w).
    destruct (ensureAuthenticated_relogin (k + extra)
                (fst (drop_token (c, w2))) (snd (drop_token (c, w2))))
      as (c1 & w1 & EA & G1 & L1 & N1 & N2 & _ & N4 & CM1 & P1); auto.
    { eapply lets_in_later; [exact Hin|]. unfold drop_token. cbn [fst snd].
      destruct (is_some (configManager c)).
      - eapply later_trans; [apply later_record|apply later_delete].
      - apply later_record. }
    { unfold drop_token. cbn. intros ->. reflexivity. }
    replace (fst (drop_token (c, w2)), snd (drop_token (c, w2)))
      with (drop_token (c, w2)) in EA by reflexivity.
    rewrite EA.
    assert (L : later w w1).
    { eapply later_trans; [|exact L1]. unfold drop_token. cbn [fst snd].
      destruct (is_some (configManager c)).
      - eapply later_trans; [apply later_record|apply later_delete].
      - apply later_record. }
    assert (CG : connection_gets (trace w1) = S (connection_gets (trace w))).
    { rewrite N2. unfold drop_token. cbn [fst snd].
      destruct (is_some (configManager c)); subst w2; count_events. }
    pose proof L as [(_ & OC & _) _].
    destruct (IH extra c1 w1 data) as
      (c' & w' & EQ & G' & L' & M1 & M2 & M3 & CM' & P'); auto.
    { eapply lets_in_later; [exact Hin|].
      eapply later_trans; [|exact L1]. unfold drop_token. cbn [fst snd].
      destruct (is_some (configManager c)).
      - eapply later_trans; [apply later_record|apply later_delete].
      - apply later_record. }
    { intros h req Hlt. rewrite OC. apply H401. lia. }
    { intros h req Heq. rewrite OC. apply Hok. lia. }
    exists c', w'. split; [exact EQ|].
    conjs; auto.
    + eapply later_trans; [|exact L'].
      eapply later_trans; [|exact L1]. unfold drop_token. cbn [fst snd].
      destruct (is_some (configManager c)).
      * eapply later_trans; [apply later_record|apply later_delete].
      * apply later_record.
    + rewrite M1, N1. unfold drop_token. cbn [fst snd].
      destruct (is_some (configManager c)); subst w2; count_events.
    + rewrite M2, CG. lia.
    + rewrite M3, N4, CM1. unfold drop_token. cbn [fst snd set_jwtToken configManager].
      destruct (is_some (configManager c)); subst w2; count_events.
    + rewrite CM', CM1. reflexivity.
    + rewrite P', P1. reflexivity.
Qed.

Lemma getPatientId_cached (f : nat) (c : LibreLinkClient) (w : World) (pid : string) :
  patientId c = Some pid -> pid <> "" ->
  getPatientId f (c, w) = Some (Ret pid, (c, w)).
Proof.
  intros P NE. unfold getPatientId, bind, this, ret. cbn [fst snd].
  rewrite P. cbn [truthy].
  destruct (String.eqb_spec pid ""); [contradiction|reflexivity].
Qed.

(** One round of [getGraphData]. *)
Lemma getGraphData_run (f : nat) (c : LibreLinkClient) (w : World) :
  getGraphData (S f) (c, w) =
  match ensureAuthenticated f (c, w) with
  | Some (Ret _, s1) =>
      match getPatientId f s1 with
      | Some (Ret pid, (c2, w2)) =>
          match createAuthenticatedClient (c2, w2) with
          | Some (Ret inst, _) =>
              let req := request_of inst GET (ENDPOINTS.graph pid) None in
              let w3 := record (EvRequest req) w2 in
              match onGraph w2 (trace w2) req with
              | HttpOk data => Some (Ret data, (c2, w3))
              | HttpAxiosError e =>
                  if opt_Z_eqb (errStatus e) 401
                  then
                    match ensureAuthenticated f (drop_token (c2, w3)) with
                    | Some (Ret _, s4) => getGraphData f s4
                    | Some (Throw e', s4) => Some (Throw e', s4)
                    | None => None
                    end
                  else Some (Throw (AxiosError e), (c2, w3))
              | HttpOtherError m => Some (Throw (OtherError m), (c2, w3))
              end
          | Some (Throw e, s) => Some (Throw e, s)
          | None => None
          end
      | Some (Throw e, s) => Some (Throw e, s)
      | None => None
      end
  | Some (Throw e, s) => Some (Throw e, s)
  | None => None
  end.
Proof.
  change (getGraphData (S f)) with
    (ensureAuthenticated f ;;
     patientId <- getPatientId f ;;
     client <- createAuthenticatedClient ;;
     try_catch
       (http onGraph (request_of client GET (ENDPOINTS.graph patientId) None))
       (fun error =>
          match error with
          | AxiosError e =>
              if opt_Z_eqb (errStatus e) 401
              then
                c <- this ;;
                (if is_some (configManager c) then clearToken else ret tt) ;;
                assign (set_jwtToken None) ;;
                ensureAuthenticated f ;;
                getGraphData f
              else throw error
          | _ => throw error
          end)).
  unfold bind at 1.
  destruct (ensureAuthenticated f (c, w)) as [[[[] |e] s1]|]; try reflexivity.
  unfold bind at 1.
  destruct (getPatientId f s1) as [[[pid|e] [c2 w2]]|]; try reflexivity.
  unfold bind at 1.
  destruct (createAuthenticatedClient_state c2 w2) as [o CA]. rewrite CA.
  destruct o as [inst|e]; [|reflexivity].
  unfold try_catch, http. cbn [fst snd].
  destruct (onGraph w2 (trace w2) _) as [data|e|m]; cbn [settle]; try reflexivity.
  destruct (opt_Z_eqb (errStatus e) 401); [|reflexivity].
  unfold drop_token, bind, this, assign, clearToken, ret. cbn [fst snd].
  destruct (configManager c2); reflexivity.
Qed.

Lemma graph_request_counts (c : LibreLinkClient) (pid : string) :
  is_graph_get (EvRequest (graph_request c pid)) = true
  /\ is_connections_get (EvRequest (graph_request c pid)) = false
  /\ is_login_post (EvRequest (graph_request c pid)) = false
  /\ is_token_clear (EvRequest (graph_request c pid)) = false.
Proof. repeat split. Qed.

(** The same for [getGraphData], the patient id being known. *)
Lemma getGraphData_cycles (k : nat) :
  forall (extra : nat) (c : LibreLinkClient) (w : World)
         (pid : string) (data : GraphResponse),
    (forall s, sha256_hex s <> "") ->
    lets_in w ->
    good_session c w ->
    patientId c = Some pid -> pid <> "" ->
    (forall h req,
        (graph_gets h < graph_gets (trace w) + k)%nat ->
        unauthorized (onGraph w h req)) ->
    (forall h req,
        graph_gets h = (graph_gets (trace w) + k)%nat ->
        onGraph w h req = HttpOk data) ->
    exists c' w',
      getGraphData (S k + extra) (c, w) = Some (Ret data, (c', w'))
      /\ good_session c' w' /\ later w w'
      /\ logins (trace w') = (logins (trace w) + k)%nat
      /\ graph_gets (trace w') = (graph_gets (trace w) + S k)%nat
      /\ token_clears (trace w') =
         (token_clears (trace w) + if is_some (configManager c) then k else 0)%nat
      /\ configManager c' = configManager c.
Proof.
  induction k as [|k IH]; intros extra c w pid data Hsha Hin G P NE H401 Hok.
  - cbn [Nat.add]. rewrite getGraphData_run, (ensureAuthenticated_cached _ _ _ G).
    rewrite (getPatientId_cached _ _ _ _ P NE).
    destruct G as (Hj & Ha & Hc).
    rewrite (createAuthenticatedClient_ok _ _ Hj Ha). cbv zeta.
    fold (graph_request c pid).
    rewrite (Hok (trace w) (graph_request c pid)) by lia.
    do 2 eexists. split; [reflexivity|].
    conjs; try reflexivity; auto with later.
    + unfold good_session. auto.
    + count_events.
    + destruct (is_some (configManager c)); count_events.
  - cbn [Nat.add]. rewrite getGraphData_run, (ensureAuthenticated_cached _ _ _ G).
    rewrite (getPatientId_cached _ _ _ _ P NE).
    pose proof G as (Hj & Ha & Hc).
    rewrite (createAuthenticatedClient_ok _ _ Hj Ha). cbv zeta.
    fold (graph_request c pid).
    destruct (H401 (trace w) (graph_request c pid)) as (e & E & St401); [lia|].
    rewrite E, St401. cbn [opt_Z_eqb]. rewrite Z.eqb_refl.
    set (w2 := record (EvRequest (graph_request c pid)) w).
    assert (L2 : later w (snd (drop_token (c, w2)))).
    { unfold drop_token. cbn [fst snd].
      destruct (is_some (configManager c)).
      - eapply later_trans; [apply later_record|apply later_delete].
      - apply later_record. }
    destruct (ensureAuthenticated_relogin (k + extra)
                (fst (drop_token (c, w2))) (snd (drop_token (c, w2))))
      as (c1 & w1 & EA & G1 & L1 & N1 & _ & N3 & N4 & CM1 & P1); auto.
    { eapply lets_in_later; [exact Hin|exact L2]. }
    { unfold drop_token. cbn. intros ->. reflexivity. }
    replace (fst (drop_token (c, w2)), snd (drop_token (c, w2)))
      with (drop_token (c, w2)) in EA by reflexivity.
    rewrite EA.
    assert (L : later w w1) by (eapply later_trans; [exact L2|exact L1]).
    assert (CG : graph_gets (trace w1) = S (graph_gets (trace w))).
    { rewrite N3. unfold drop_token. cbn [fst snd].
      destruct (is_some (configManager c)); subst w2; count_events. }
    pose proof L as [(_ & _ & OG & _) _].
    destruct (IH extra c1 w1 pid data) as
      (c' & w' & EQ & G' & L' & M1 & M2 & M3 & CM'); auto.
    { eapply lets_in_later; [exact Hin|exact L]. }
    { rewrite P1. exact P. }
    { intros h req Hlt. rewrite OG. apply H401. lia. }
    { intros h req Heq. rewrite OG. apply Hok. lia. }
    exists c', w'. split; [exact EQ|].
    conjs; auto.
    + eapply later_trans; [exact L|exact L'].
    + rewrite M1, N1. unfold drop_token. cbn [fst snd].
      destruct (is_some (configManager c)); subst w2; count_events.
    + rewrite M2, CG. lia.
    + rewrite M3, N4, CM1. unfold drop_token. cbn [fst snd set_jwtToken configManager].
      destruct (is_some (configManager c)); subst w2; count_events.
    + rewrite CM', CM1. reflexivity.
Qed.

(** *** More fuel changes nothing *)

Lemma login_more_fuel (n : nat) :
  forall s r, login n s = Some r -> login (S n) s = Some r.
Proof.
  induction n as [|n IH]; intros [c w] r H; [discriminate|].
  destruct (login_cases c w) as
    [(data & r0 & _ & _ & EQ)
    | [(data & ticket & u & uid & _ & _ & _ & _ & _ & _ & EQ)
      | [(e & _ & EQ) | (data & ticket & _ & _ & _ & _ & _ & EQ)]]].
  - rewrite EQ in H. rewrite EQ. apply IH. exact H.
  - cbv zeta in EQ. rewrite EQ in H. rewrite EQ. exact H.
  - rewrite EQ in H. rewrite EQ. exact H.
  - rewrite EQ in H. rewrite EQ. exact H.
Qed.

Lemma ensureAuthenticated_more_fuel (n : nat) (s : St) (r : Outcome unit * St) :
  ensureAuthenticated n s = Some r -> ensureAuthenticated (S n) s = Some r.
Proof.
  destruct s as [c w]. rewrite !ensureAuthenticated_run.
  destruct (valid_at c (now_of w)); [auto|].
  destruct (tryRestoreSession (c, w)) as [[[b|e] [c1 w1]]|]; auto.
  destruct (valid_at c1 (now_of w1)); [auto|].
  apply login_more_fuel.
Qed.

Lemma getConnections_more_fuel (n : nat) :
  forall s r, getConnections n s = Some r -> getConnections (S n) s = Some r.
Proof.
  induction n as [|n IH]; intros [c w] r H; [discriminate|].
  rewrite getConnections_run in H. rewrite getConnections_run.
  destruct (ensureAuthenticated n (c, w)) as [x|] eqn:EA; [|discriminate].
  rewrite (ensureAuthenticated_more_fuel _ _ _ EA).
  destruct x as [[[]|e] [c1 w1]]; [|exact H].
  destruct (createAuthenticatedClient (c1, w1)) as [[[inst|e] s2]|]; try exact H.
  cbv zeta in *.
  destruct (onConnections w1 (trace w1) _) as [data|e|m]; try exact H.
  destruct (opt_Z_eqb (errStatus e) 401); [|exact H].
  destruct (ensureAuthenticated n (drop_token _)) as [y|] eqn:EB; [|discriminate].
  rewrite (ensureAuthenticated_more_fuel _ _ _ EB).
  destruct y as [[[]|e'] s3]; [|exact H].
  apply IH. exact H.
Qed.

Lemma getPatientId_more_fuel (n : nat) (s : St) (r : Outcome string * St) :
  getPatientId n s = Some r -> getPatientId (S n) s = Some r.
Proof.
  unfold getPatientId, bind, this. cbn [fst snd].
  destruct (truthy (patientId (fst s))); [auto|].
  destruct (getConnections n s) as [x|] eqn:E; [|discriminate].
  rewrite (getConnections_more_fuel _ _ _ E). auto.
Qed.

Lemma getGraphData_more_fuel (n : nat) :
  forall s r, getGraphData n s = Some r -> getGraphData (S n) s = Some r.
Proof.
  induction n as [|n IH]; intros [c w] r H; [discriminate|].
  rewrite getGraphData_run in H. rewrite getGraphData_run.
  destruct (ensureAuthenticated n (c, w)) as [x|] eqn:EA; [|discriminate].
  rewrite (ensureAuthenticated_more_fuel _ _ _ EA).
  destruct x as [[[]|e] s1]; [|exact H].
  destruct (getPatientId n s1) as [y|] eqn:EP; [|discriminate].
  rewrite (getPatientId_more_fuel _ _ _ EP).
  destruct y as [[pid|e] [c2 w2]]; [|exact H].
  destruct (createAuthenticatedClient (c2, w2)) as [[[inst|e] s2]|]; try exact H.
  cbv zeta in *.
  destruct (onGraph w2 (trace w2) _) as [data|e|m]; try exact H.
  destruct (opt_Z_eqb (errStatus e) 401); [|exact H].
  destruct (ensureAuthenticated n (drop_token _)) as [z|] eqn:EB; [|discriminate].
  rewrite (ensureAuthenticated_more_fuel _ _ _ EB).
  destruct z as [[[]|e'] s3]; [|exact H].
  apply IH. exact H.
Qed.

(** *** A token in memory comes with its account id *)

Lemma users_have_ids_later (w w' : World) :
  later w w' -> users_have_ids w -> users_have_ids w'.
Proof.
  intros [(L & _) _] U. unfold users_have_ids. rewrite L. exact U.
Qed.

Lemma consistent_later_file (c : LibreLinkClient) (w w' : World) :
  consistent (c, w) ->
  later w w' ->
  (tokenFile w' = tokenFile w \/ tokenFile w' = NoFile) ->
  consistent (c, w').
Proof.
  intros (T & B & U) L E. unfold consistent; conjs; cbn [fst snd] in *.
  - exact T.
  - intros td H. destruct E as [E|E].
    + apply B. rewrite <- E. exact H.
    + rewrite E in H. discriminate.
  - eapply users_have_ids_later; eassumption.
Qed.

Lemma consistent_record (c : LibreLinkClient) (w : World) (e : Event) :
  consistent (c, w) -> consistent (c, record e w).
Proof.
  intros C. apply (consistent_later_file c w); auto with later.
Qed.

Lemma after_save_consistent (c : LibreLinkClient) (w : World) :
  consistent (c, w) -> consistent (c, after_save c w).
Proof.
  intros (T & B & U). unfold consistent; conjs; [exact T| |]; cbn [fst snd] in *.
  2:{ eapply users_have_ids_later; [apply after_save_later|exact U]. }
  unfold after_save. destruct (bundle_of c) as [td|] eqn:Bd; [|exact B].
  destruct (tokenWritable w); [|exact B].
  intros td' [= <-].
  unfold bundle_of in Bd.
  destruct (configManager c); [|discriminate].
  destruct (jwtToken c) as [tok|]; [|discriminate].
  destruct (userId c) as [uid|]; [|discriminate].
  destruct (accountId c) as [acc|]; [|discriminate].
  destruct (String.eqb_spec acc ""); cbn in Bd.
  - rewrite !andb_false_r in Bd. discriminate.
  - destruct (negb (tok =? "")%string && negb (uid =? "")%string);
      [|discriminate].
    injection Bd as <-. exact n.
Qed.

Lemma tryRestoreSession_consistent (s : St) (o : Outcome bool) (s' : St) :
  consistent s -> tryRestoreSession s = Some (o, s') -> consistent s'.
Proof.
  destruct s as [c w]. intros C. rewrite tryRestoreSession_run.
  assert (A : consistent (c, after_restore c w)).
  { apply (consistent_later_file c w);
      [exact C|apply after_restore_later|].
    unfold after_restore.
    destruct (tokenFile w) as [|td|] eqn:F; [left; exact F| |left; exact F].
    destruct (Stored.region td =? region (config c))%string;
      [left; exact F|right; reflexivity]. }
  destruct (configManager c); [|intros [= <- <-]; exact C].
  destruct (tokenFile w) as [|td|] eqn:F; try (intros [= <- <-]; exact A).
  destruct (Stored.region td =? region (config c))%string;
    intros [= <- <-]; [|exact A].
  destruct A as (_ & B & U). destruct C as (_ & B0 & _).
  unfold consistent; conjs; [|exact B|exact U].
  intros _. cbn. specialize (B0 td F).
  destruct (String.eqb_spec (Stored.accountId td) ""); [contradiction|reflexivity].
Qed.

(** [login] keeps the invariant, however it ends: with a login server that
    keeps to the interface, the failure after the first assignments does not
    occur. *)
Lemma login_consistent (n : nat) :
  (forall x, sha256_hex x <> "") ->
  forall s o s', consistent s -> login n s = Some (o, s') -> consistent s'.
Proof.
  intros Hsha. induction n as [|n IH]; intros [c w] o s' C H; [discriminate|].
  destruct (login_cases c w) as
    [(data & r & _ & _ & EQ)
    | [(data & ticket & u & uid & _ & _ & _ & _ & _ & _ & EQ)
      | [(e & _ & EQ) | (data & ticket & E & R & T & S0 & UID & EQ)]]];
    rewrite EQ in H; clear EQ.
  - eapply IH; [|exact H]. destruct C as (T & B & U). unfold consistent; conjs; [exact T|exact B|].
    eapply users_have_ids_later; [apply later_record|exact U].
  - injection H as <- <-. apply after_save_consistent.
    apply consistent_record.
    apply (consistent_record _ _ (EvRequest (login_request c))) in C.
    destruct C as (_ & B & U). unfold consistent; conjs; [|exact B|exact U].
    intros _. cbn. unfold generateAccountId.
    destruct (String.eqb_spec (sha256_hex uid) "");
      [exfalso; eapply Hsha; eassumption|reflexivity].
  - injection H as <- <-. apply consistent_record. exact C.
  - destruct C as (_ & _ & U). exfalso.
    exact (U _ _ _ _ E R T S0 UID).
Qed.

Lemma ensureAuthenticated_consistent (n : nat) :
  (forall x, sha256_hex x <> "") ->
  forall s o s', consistent s -> ensureAuthenticated n s = Some (o, s') -> consistent s'.
Proof.
  intros Hsha [c w] o s' C. rewrite ensureAuthenticated_run.
  destruct (valid_at c (now_of w)); [intros [= <- <-]; exact C|].
  destruct (tryRestoreSession (c, w)) as [[[b|e] [c1 w1]]|] eqn:TR;
    try discriminate.
  - pose proof (tryRestoreSession_consistent _ _ _ C TR) as C1.
    destruct (valid_at c1 (now_of w1)); [intros [= <- <-]; exact C1|].
    intros H. eapply login_consistent; eauto.
  - intros [= <- <-]. eapply tryRestoreSession_consistent; eauto.
Qed.

Lemma drop_token_consistent (s : St) : consistent s -> consistent (drop_token s).
Proof.
  destruct s as [c w]. intros (T & B & U). unfold consistent; conjs.
  - intros H. discriminate H.
  - unfold drop_token. cbn [fst snd].
    destruct (is_some (configManager c)); [|exact B].
    intros td H. discriminate H.
  - unfold drop_token. cbn [fst snd].
    destruct (is_some (configManager c)); [|exact U].
    eapply users_have_ids_later; [apply later_delete|exact U].
Qed.

Lemma getConnections_consistent (n : nat) :
  (forall x, sha256_hex x <> "") ->
  forall s o s', consistent s -> getConnections n s = Some (o, s') -> consistent s'.
Proof.
  intros Hsha. induction n as [|n IH]; intros [c w] o s' C H; [discriminate|].
  rewrite getConnections_run in H.
  destruct (ensureAuthenticated n (c, w)) as [[[[]|e] [c1 w1]]|] eqn:EA;
    try discriminate.
  2:{ injection H as <- <-. eapply ensureAuthenticated_consistent; eauto. }
  pose proof (ensureAuthenticated_consistent n Hsha _ _ _ C EA) as C1.
  destruct (createAuthenticatedClient_state c1 w1) as [oc CA]. rewrite CA in H.
  destruct oc as [inst|e]; [|injection H as <- <-; exact C1].
  cbv zeta in H.
  assert (C2 : forall e, consistent (c1, record e w1)).
  { intros e. apply consistent_record. exact C1. }
  destruct (onConnections w1 (trace w1) _) as [data|e|m];
    try (injection H as <- <-; apply C2).
  destruct (opt_Z_eqb (errStatus e) 401); [|injection H as <- <-; apply C2].
  destruct (ensureAuthenticated n (drop_token _)) as [[[[]|e'] s3]|] eqn:EB;
    try discriminate.
  - eapply IH; [|exact H].
    eapply ensureAuthenticated_consistent; [exact Hsha| |exact EB].
    apply drop_token_consistent. apply C2.
  - injection H as <- <-.
    eapply ensureAuthenticated_consistent; [exact Hsha| |exact EB].
    apply drop_token_consistent. apply C2.
Qed.

Lemma getPatientId_consistent (n : nat) :
  (forall x, sha256_hex x <> "") ->
  forall s o s', consistent s -> getPatientId n s = Some (o, s') -> consistent s'.
Proof.
  intros Hsha [c w] o s' C. unfold getPatientId, bind, this, ret. cbn [fst snd].
  destruct (truthy (patientId c)); [intros [= <- <-]; exact C|].
  destruct (getConnections n (c, w)) as [[[l|e] [c1 w1]]|] eqn:G; try discriminate.
  - pose proof (getConnections_consistent n Hsha _ _ _ C G) as C1.
    destruct l as [|first l]; intros [= <- <-]; exact C1.
  - intros [= <- <-]. eapply getConnections_consistent; eauto.
Qed.

Lemma getGraphData_consistent (n : nat) :
  (forall x, sha256_hex x <> "") ->
  forall s o s', consistent s -> getGraphData n s = Some (o, s') -> consistent s'.
Proof.
  intros Hsha. induction n as [|n IH]; intros [c w] o s' C H; [discriminate|].
  rewrite getGraphData_run in H.
  destruct (ensureAuthenticated n (c, w)) as [[[[]|e] s1]|] eqn:EA;
    try discriminate.
  2:{ injection H as <- <-. eapply ensureAuthenticated_consistent; eauto. }
  pose proof (ensureAuthenticated_consistent n Hsha _ _ _ C EA) as C1.
  destruct (getPatientId n s1) as [[[pid|e] [c2 w2]]|] eqn:GP; try discriminate.
  2:{ injection H as <- <-. eapply getPatientId_consistent; eauto. }
  pose proof (getPatientId_consistent n Hsha _ _ _ C1 GP) as C2.
  destruct (createAuthenticatedClient_state c2 w2) as [oc CA]. rewrite CA in H.
  destruct oc as [inst|e]; [|injection H as <- <-; exact C2].
  cbv zeta in H.
  assert (C3 : forall e, consistent (c2, record e w2)).
  { intros e. apply consistent_record. exact C2. }
  destruct (onGraph w2 (trace w2) _) as [data|e|m];
    try (injection H as <- <-; apply C3).
  destruct (opt_Z_eqb (errStatus e) 401); [|injection H as <- <-; apply C3].
  destruct (ensureAuthenticated n (drop_token _)) as [[[[]|e'] s4]|] eqn:EB;
    try discriminate.
  - eapply IH; [|exact H].
    eapply ensureAuthenticated_consistent; [exact Hsha| |exact EB].
    apply drop_token_consistent. apply C3.
  - injection H as <- <-.
    eapply ensureAuthenticated_consistent; [exact Hsha| |exact EB].
    apply drop_token_consistent. apply C3.
Qed.

Lemma updateConfig_consistent (n : PartialConfig) (s : St) (o : Outcome unit) (s' : St) :
  consistent s -> updateConfig n s = Some (o, s') -> consistent s'.
Proof.
  destruct s as [c w]. intros (T & B & U).
  unfold updateConfig, bind, this, assign, ret. cbn [fst snd].
  destruct (truthy (p_email n) || truthy (p_password n) || truthy (p_region n)).
  - destruct (truthy (p_region n)); [destruct (p_region n)|];
      intros [= <- <-]; (unfold consistent; conjs; [intros H; discriminate H|exact B|exact U]).
  - intros [= <- <-]. unfold consistent; conjs; [exact T|exact B|exact U].
Qed.

Lemma clearSession_consistent (s : St) (o : Outcome unit) (s' : St) :
  consistent s -> clearSession s = Some (o, s') -> consistent s'.
Proof.
  destruct s as [c w]. intros (T & B & U).
  unfold clearSession, bind, this, assign, ret, clearToken. cbn.
  destruct (configManager c); cbn; intros [= <- <-];
    (unfold consistent; conjs; [intros H; discriminate H| |]); try exact B; try exact U.
  intros td H. discriminate H.
Qed.

Lemma new_client_consistent (cfg : LibreLinkConfig) (cm : option ConfigManager)
      (w : World) :
  bundles_have_account w -> users_have_ids w ->
  consistent (new_LibreLinkClient cfg cm, w).
Proof. intros B U. unfold consistent; conjs; [intros H; discriminate H|exact B|exact U]. Qed.

(** Without that, the invariant is not kept: a response that passes the test
    and names no user leaves the token of the ticket in a client that has no
    account id. *)
Lemma login_breaks_the_invariant
      (f : nat) (c : LibreLinkClient) (w : World)
      (data : LoginResponse) (ticket : AuthTicket) :
  onLogin w (trace w) (login_request c) = HttpOk data ->
  redirect_target data = None ->
  lr_authTicket data = Some ticket ->
  lr_status data = 0 ->
  user_id data = None ->
  ticketToken ticket <> "" ->
  accountId c = None ->
  exists e c' w',
    login (S f) (c, w) = Some (Throw e, (c', w'))
    /\ ~ token_has_account c'.
Proof.
  intros E R T S0 UID Tok Acc.
  destruct (login_cases c w) as
    [(data' & r' & E' & R' & _)
    | [(data' & ticket' & u & uid & E' & _ & _ & _ & U' & I' & _)
      | [(e & N & _) | (data' & ticket' & E' & _ & T' & _ & _ & EQ)]]].
  - rewrite E in E'. injection E' as <-. congruence.
  - rewrite E in E'. injection E' as <-. unfold user_id in UID.
    rewrite U' in UID. congruence.
  - destruct (N data E) as [_ [N'|N']]; congruence.
  - rewrite E in E'. injection E' as <-. rewrite T in T'. injection T' as <-.
    do 3 eexists. split; [apply EQ|].
    unfold token_has_account, interrupted. intros K.
    assert (J : truthy (Some (ticketToken ticket)) = true).
    { cbn. destruct (String.eqb_spec (ticketToken ticket) "");
        [contradiction|reflexivity]. }
    destruct (lr_user data); cbn in K; rewrite Acc in K;
      specialize (K J); discriminate K.
Qed.

(** *** Every data request carries the credentials *)

Lemma all_authenticated_record (e : Event) (w : World) :
  carries_credentials e -> all_authenticated w -> all_authenticated (record e w).
Proof. intros He Hw. constructor; assumption. Qed.

Lemma after_save_authenticated (c : LibreLinkClient) (w : World) :
  all_authenticated w -> all_authenticated (after_save c w).
Proof.
  intros H. unfold after_save. destruct (bundle_of c); [|exact H].
  destruct (tokenWritable w); repeat (apply all_authenticated_record; [exact I|]);
    exact H.
Qed.

Lemma tryRestoreSession_authenticated (s : St) (o : Outcome bool) (s' : St) :
  all_authenticated (snd s) -> tryRestoreSession s = Some (o, s') ->
  all_authenticated (snd s').
Proof.
  destruct s as [c w]. cbn [snd]. intros A. rewrite tryRestoreSession_run.
  assert (R : all_authenticated (after_restore c w)).
  { unfold after_restore. destruct (tokenFile w) as [|td|].
    - apply all_authenticated_record; [exact I|exact A].
    - destruct (Stored.region td =? region (config c))%string;
        repeat (apply all_authenticated_record; [exact I|]); exact A.
    - repeat (apply all_authenticated_record; [exact I|]); exact A. }
  destruct (configManager c); [|intros [= <- <-]; exact A].
  destruct (tokenFile w) as [|td|]; try (intros [= <- <-]; exact R).
  destruct (Stored.region td =? region (config c))%string;
    intros [= <- <-]; exact R.
Qed.

Lemma login_authenticated (n : nat) :
  forall s o s', all_authenticated (snd s) -> login n s = Some (o, s') ->
                 all_authenticated (snd s').
Proof.
  induction n as [|n IH]; intros [c w] o s' A H; [discriminate|].
  assert (A1 : all_authenticated (record (EvRequest (login_request c)) w)).
  { apply all_authenticated_record; [|exact A]. intros G. discriminate G. }
  destruct (login_cases c w) as
    [(data & r & _ & _ & EQ)
    | [(data & ticket & u & uid & _ & _ & _ & _ & _ & _ & EQ)
      | [(e & _ & EQ) | (data & ticket & _ & _ & _ & _ & _ & EQ)]]];
    rewrite EQ in H; clear EQ.
  - eapply IH; [|exact H]. exact A1.
  - injection H as <- <-. apply after_save_authenticated.
    apply all_authenticated_record; [exact I|exact A1].
  - injection H as <- <-. exact A1.
  - injection H as <- <-. exact A1.
Qed.

Lemma ensureAuthenticated_authenticated (n : nat) (s : St) (o : Outcome unit) (s' : St) :
  all_authenticated (snd s) -> ensureAuthenticated n s = Some (o, s') ->
  all_authenticated (snd s').
Proof.
  destruct s as [c w]. intros A. rewrite ensureAuthenticated_run.
  destruct (valid_at c (now_of w)); [intros [= <- <-]; exact A|].
  destruct (tryRestoreSession (c, w)) as [[[b|e] [c1 w1]]|] eqn:TR;
    try discriminate.
  - pose proof (tryRestoreSession_authenticated _ _ _ A TR) as A1.
    destruct (valid_at c1 (now_of w1)); [intros [= <- <-]; exact A1|].
    intros H. eapply login_authenticated; [|exact H]. exact A1.
  - intros [= <- <-]. eapply tryRestoreSession_authenticated; eauto.
Qed.

Lemma drop_token_authenticated (s : St) :
  all_authenticated (snd s) -> all_authenticated (snd (drop_token s)).
Proof.
  destruct s as [c w]. unfold drop_token. cbn [fst snd]. intros A.
  destruct (is_some (configManager c)); [|exact A].
  constructor; [exact I|exact A].
Qed.

(** The request an authenticated client sends. *)
Lemma authenticated_request_carries (c : LibreLinkClient) (w : World)
      (inst : AxiosInstance) (s : St) (path : string) :
  createAuthenticatedClient (c, w) = Some (Ret inst, s) ->
  carries_credentials (EvRequest (request_of inst GET path None)).
Proof.
  rewrite createAuthenticatedClient_run.
  destruct (jwtToken c) as [tok|]; [|discriminate].
  destruct (accountId c) as [acc|]; [|discriminate].
  destruct (String.eqb_spec tok ""); [discriminate|].
  destruct (String.eqb_spec acc ""); [discriminate|].
  cbn [negb andb]. intros [= <- _] _. exists tok, acc. conjs; auto.
Qed.

Lemma getConnections_authenticated (n : nat) :
  forall s o s', all_authenticated (snd s) -> getConnections n s = Some (o, s') ->
                 all_authenticated (snd s').
Proof.
  induction n as [|n IH]; intros [c w] o s' A H; [discriminate|].
  rewrite getConnections_run in H.
  destruct (ensureAuthenticated n (c, w)) as [[[[]|e] [c1 w1]]|] eqn:EA;
    try discriminate.
  2:{ injection H as <- <-. eapply ensureAuthenticated_authenticated; eauto. }
  pose proof (ensureAuthenticated_authenticated n _ _ _ A EA) as A1.
  cbn [snd] in A1.
  destruct (createAuthenticatedClient (c1, w1)) as [[[inst|e] s2]|] eqn:CA;
    try discriminate.
  2:{ destruct (createAuthenticatedClient_state c1 w1) as [oc CA'].
      rewrite CA' in CA. injection CA as E1 E2. subst.
      injection H as <- <-. exact A1. }
  cbv zeta in H.
  assert (A2 : all_authenticated
                 (record (EvRequest (request_of inst GET ENDPOINTS.connections None)) w1)).
  { apply all_authenticated_record; [|exact A1].
    eapply authenticated_request_carries; exact CA. }
  destruct (onConnections w1 (trace w1) _) as [data|e|m];
    try (injection H as <- <-; exact A2).
  destruct (opt_Z_eqb (errStatus e) 401); [|injection H as <- <-; exact A2].
  destruct (ensureAuthenticated n (drop_token _)) as [[[[]|e'] s3]|] eqn:EB;
    try discriminate.
  - eapply IH; [|exact H].
    eapply ensureAuthenticated_authenticated; [|exact EB].
    apply drop_token_authenticated. exact A2.
  - injection H as <- <-.
    eapply ensureAuthenticated_authenticated; [|exact EB].
    apply drop_token_authenticated. exact A2.
Qed.

Lemma getPatientId_authenticated (n : nat) (s : St) (o : Outcome string) (s' : St) :
  all_authenticated (snd s) -> getPatientId n s = Some (o, s') ->
  all_authenticated (snd s').
Proof.
  destruct s as [c w]. intros A. unfold getPatientId, bind, this, ret. cbn [fst snd].
  destruct (truthy (patientId c)); [intros [= <- <-]; exact A|].
  destruct (getConnections n (c, w)) as [[[l|e] [c1 w1]]|] eqn:G; try discriminate.
  - pose proof (getConnections_authenticated n _ _ _ A G) as A1.
    destruct l as [|first l]; intros [= <- <-]; exact A1.
  - intros [= <- <-]. eapply getConnections_authenticated; eauto.
Qed.

Lemma getGraphData_authenticated (n : nat) :
  forall s o s', all_authenticated (snd s) -> getGraphData n s = Some (o, s') ->
                 all_authenticated (snd s').
Proof.
  induction n as [|n IH]; intros [c w] o s' A H; [discriminate|].
  rewrite getGraphData_run in H.
  destruct (ensureAuthenticated n (c, w)) as [[[[]|e] s1]|] eqn:EA;
    try discriminate.
  2:{ injection H as <- <-. eapply ensureAuthenticated_authenticated; eauto. }
  pose proof (ensureAuthenticated_authenticated n _ _ _ A EA) as A1.
  destruct (getPatientId n s1) as [[[pid|e] [c2 w2]]|] eqn:GP; try discriminate.
  2:{ injection H as <- <-. eapply getPatientId_authenticated; eauto. }
  pose proof (getPatientId_authenticated n _ _ _ A1 GP) as A2. cbn [snd] in A2.
  destruct (createAuthenticatedClient (c2, w2)) as [[[inst|e] s2]|] eqn:CA;
    try discriminate.
  2:{ destruct (createAuthenticatedClient_state c2 w2) as [oc CA'].
      rewrite CA' in CA. injection CA as E1 E2. subst.
      injection H as <- <-. exact A2. }
  cbv zeta in H.
  assert (A3 : all_authenticated
                 (record (EvRequest (request_of inst GET (ENDPOINTS.graph pid) None)) w2)).
  { apply all_authenticated_record; [|exact A2].
    eapply authenticated_request_carries; exact CA. }
  destruct (onGraph w2 (trace w2) _) as [data|e|m];
    try (injection H as <- <-; exact A3).
  destruct (opt_Z_eqb (errStatus e) 401); [|injection H as <- <-; exact A3].
  destruct (ensureAuthenticated n (drop_token _)) as [[[[]|e'] s4]|] eqn:EB;
    try discriminate.
  - eapply IH; [|exact H].
    eapply ensureAuthenticated_authenticated; [|exact EB].
    apply drop_token_authenticated. exact A3.
  - injection H as <- <-.
    eapply ensureAuthenticated_authenticated; [|exact EB].
    apply drop_token_authenticated. exact A3.
Qed.

Lemma ensureAuthenticated_no_fuel (c : LibreLinkClient) (w : World) :
  jwtToken c = None ->
  (is_some (configManager c) = true -> tokenFile w = NoFile) ->
  ensureAuthenticated 0 (c, w) = None.
Proof.
  intros Hj Hfile.
  assert (V : forall t, valid_at c t = false).
  { intros t. unfold valid_at. rewrite Hj. reflexivity. }
  rewrite ensureAuthenticated_run, V, tryRestoreSession_run.
  destruct (configManager c); cbn [is_some] in *.
  - rewrite (Hfile eq_refl), V. reflexivity.
  - rewrite V. reflexivity.
Qed.

(** A server that answers 401 to every connection request, next to a login
    server that lets the user in every time: [getConnections] never settles,
    whatever the fuel. *)
Lemma getConnections_401_forever (fuel : nat) :
  forall (c : LibreLinkClient) (w : World),
    (forall s, sha256_hex s <> "") ->
    lets_in w ->
    good_session c w ->
    (forall h req, unauthorized (onConnections w h req)) ->
    getConnections fuel (c, w) = None.
Proof.
  induction fuel as [|f IH]; intros c w Hsha Hin G H401; [reflexivity|].
  rewrite getConnections_run, (ensureAuthenticated_cached _ _ _ G).
  pose proof G as (Hj & Ha & Hc).
  rewrite (createAuthenticatedClient_ok _ _ Hj Ha). cbv zeta.
  fold (connections_request c).
  destruct (H401 (trace w) (connections_request c)) as (e & E & St401).
  rewrite E, St401. cbn [opt_Z_eqb]. rewrite Z.eqb_refl.
  set (w2 := record (EvRequest (connections_request c)) w).
  assert (L2 : later w (snd (drop_token (c, w2)))).
  { unfold drop_token. cbn [fst snd].
    destruct (is_some (configManager c)).
    - eapply later_trans; [apply later_record|apply later_delete].
    - apply later_record. }
  assert (F : is_some (configManager (fst (drop_token (c, w2)))) = true ->
              tokenFile (snd (drop_token (c, w2))) = NoFile).
  { unfold drop_token. cbn. intros ->. reflexivity. }
  replace (drop_token (c, w2))
    with (fst (drop_token (c, w2)), snd (drop_token (c, w2))) by reflexivity.
  destruct f as [|f'].
  - rewrite ensureAuthenticated_no_fuel; auto.
  - destruct (ensureAuthenticated_relogin f'
                (fst (drop_token (c, w2))) (snd (drop_token (c, w2))))
      as (c1 & w1 & EA & G1 & L1 & _); auto.
    { eapply lets_in_later; [exact Hin|exact L2]. }
    rewrite EA. apply IH; auto.
    + eapply lets_in_later; [exact Hin|].
      eapply later_trans; [exact L2|exact L1].
    + assert (L : later w w1) by (eapply later_trans; [exact L2|exact L1]).
      destruct L as [(_ & OC & _) _]. rewrite OC. exact H401.
Qed.

(** C5.  A [login] that returns leaves in memory the token and the user id
    of a response the login server gave to one of its requests, and as
    account id the SHA-256 hex digest of that user id.  An authenticated
    client carries [Authorization: Bearer <token>] and [Account-Id: <account
    id>]; building one without a token or without an account id throws; and
    every request [getConnections] and [getGraphData] send carries both
    headers. *)
Theorem login_derives_account_id
        (fuel : nat) (c : LibreLinkClient) (w : World)
        (c' : LibreLinkClient) (w' : World) :
  login fuel (c, w) = Some (Ret tt, (c', w')) ->
  (exists h req data ticket uid,
      onLogin w h req = HttpOk data
      /\ In (EvRequest req) (trace w')
      /\ lr_authTicket data = Some ticket
      /\ user_id data = Some uid
      /\ jwtToken c' = Some (ticketToken ticket)
      /\ tokenExpires c' = ticketExpires ticket * 1000
      /\ userId c' = Some uid
      /\ accountId c' = Some (sha256_hex uid))
  /\ accountId c' = option_map sha256_hex (userId c')
  /\ (forall (c0 : LibreLinkClient) (w0 : World),
         match createAuthenticatedClient (c0, w0) with
         | Some (Ret inst, s) =>
             s = (c0, w0)
             /\ truthy (jwtToken c0) = true /\ truthy (accountId c0) = true
             /\ baseURL inst = baseUrl c0
             /\ option_map (append "Bearer ") (jwtToken c0)
                = header "Authorization" (headers inst)
             /\ accountId c0 = header "Account-Id" (headers inst)
         | Some (Throw e, s) =>
             s = (c0, w0)
             /\ e = JsError "Not authenticated. Call login() first."
             /\ (truthy (jwtToken c0) = false \/ truthy (accountId c0) = false)
         | None => False
         end)
  /\ (forall n s o s',
         all_authenticated (snd s) ->
         getConnections n s = Some (o, s') ->
         all_authenticated (snd s'))
  /\ (forall n s o s',
         all_authenticated (snd s) ->
         getGraphData n s = Some (o, s') ->
         all_authenticated (snd s')).
Proof.
  intros H.
  assert (G : exists h req data ticket uid,
             onLogin w h req = HttpOk data
             /\ In (EvRequest req) (trace w')
             /\ lr_authTicket data = Some ticket
             /\ user_id data = Some uid
             /\ jwtToken c' = Some (ticketToken ticket)
             /\ tokenExpires c' = ticketExpires ticket * 1000
             /\ userId c' = Some uid
             /\ accountId c' = Some (sha256_hex uid)).
  { revert c w H. induction fuel as [|f IH]; intros c w H; [discriminate|].
    destruct (login_cases c w) as
      [(data & r & _ & _ & EQ)
      | [(data & ticket & u & uid & E & _ & T & _ & U & UI & EQ)
        | [(e & _ & EQ) | (data & ticket & _ & _ & _ & _ & _ & EQ)]]];
      rewrite EQ in H; clear EQ.
    - apply IH in H. exact H.
    - injection H as <- <-.
      exists (trace w), (login_request c), data, ticket, uid.
      conjs; try reflexivity; try assumption.
      2:{ unfold user_id. rewrite U. exact UI. }
      destruct (after_save_later (logged_in uid ticket c)
                  (record (EvConsole
                             ("LibreLink: Logged in as "
                                ++ firstName u ++ " "
                                ++ lastName u) None)
                          (record (EvRequest (login_request c)) w)))
        as [_ [evs E']].
      match goal with |- In _ ?t => replace t with
          (evs ++ [EvConsole ("LibreLink: Logged in as "
                                ++ firstName u ++ " "
                                ++ lastName u) None]
               ++ EvRequest (login_request c) :: trace w)%list
          by (symmetry; exact E') end.
      apply in_or_app. right. apply in_or_app. right. left. reflexivity.
    - discriminate.
    - discriminate. }
  conjs.
  - exact G.
  - destruct G as (_ & _ & data & _ & uid & _ & _ & _ & _ & _ & _ & U & A).
    rewrite U, A. reflexivity.
  - intros c0 w0. rewrite createAuthenticatedClient_run.
    destruct (jwtToken c0) as [tok|]; [|conjs; auto].
    destruct (accountId c0) as [acc|]; [|conjs; auto].
    cbn [truthy].
    destruct (tok =? "")%string; cbn [negb andb]; [conjs; auto|].
    destruct (acc =? "")%string; cbn [negb andb]; [conjs; auto|].
    conjs; reflexivity.
  - intros n s o s' A R. eapply getConnections_authenticated; eauto.
  - intros n s o s' A R. eapply getGraphData_authenticated; eauto.
Qed.

(** C1, as the code has it.  Every 401 answer to [getConnections] or
    [getGraphData] makes the call delete the stored token, drop the token in
    memory, authenticate again and call itself; nothing counts the rounds.
    With a session in memory, a login server that lets the user in, and a
    data server that answers 401 to the next [k] requests and then with data,
    the call returns that data after [k] logins, [k] deletions of the token
    file and [k + 1] requests: none of the [k] rejections reaches the
    caller. *)
Theorem unauthorized_relogin_cycles
        (k extra : nat) (c : LibreLinkClient) (w : World) :
  (forall s, sha256_hex s <> "") ->
  lets_in w ->
  good_session c w ->
  (forall conns,
      (forall h req,
          (connection_gets h < connection_gets (trace w) + k)%nat ->
          unauthorized (onConnections w h req)) ->
      (forall h req,
          connection_gets h = (connection_gets (trace w) + k)%nat ->
          onConnections w h req = HttpOk conns) ->
      exists c' w',
        getConnections (S k + extra) (c, w) =
        Some (Ret (match conns with Some l => l | None => [] end), (c', w'))
        /\ logins (trace w') = (logins (trace w) + k)%nat
        /\ connection_gets (trace w') = (connection_gets (trace w) + S k)%nat
        /\ token_clears (trace w') =
           (token_clears (trace w) + if is_some (configManager c) then k else 0)%nat)
  /\ (forall pid graph,
         patientId c = Some pid -> pid <> "" ->
         (forall h req,
             (graph_gets h < graph_gets (trace w) + k)%nat ->
             unauthorized (onGraph w h req)) ->
         (forall h req,
             graph_gets h = (graph_gets (trace w) + k)%nat ->
             onGraph w h req = HttpOk graph) ->
         exists c' w',
           getGraphData (S k + extra) (c, w) = Some (Ret graph, (c', w'))
           /\ logins (trace w') = (logins (trace w) + k)%nat
           /\ graph_gets (trace w') = (graph_gets (trace w) + S k)%nat
           /\ token_clears (trace w') =
              (token_clears (trace w) + if is_some (configManager c) then k else 0)%nat).
Proof.
  intros Hsha Hin G. split.
  - intros conns C401 Cok.
    destruct (getConnections_cycles k extra c w conns Hsha Hin G C401 Cok)
      as (c' & w' & EQ & _ & _ & M1 & M2 & M3 & _).
    exists c', w'. auto.
  - intros pid graph P NE G401 Gok.
    destruct (getGraphData_cycles k extra c w pid graph Hsha Hin G P NE G401 Gok)
      as (c' & w' & EQ & _ & _ & M1 & M2 & M3 & _).
    exists c', w'. auto.
Qed.

End Properties.

(* ================================================================= *)
(** ** Scenarios

    The properties above at work on the fixtures, and the runs on which the
    code and the specification part ways. *)

Section Scenarios.

Import Fixture.

#[local] Existing Instance node.

Example sha256_empty :
  SHA256.hex "" = "e3b0c44298fc1c149afbf4c8996fb92427ae41e4649b934ca495991b7852b855".
Proof. vm_compute. reflexivity. Qed.

Example sha256_abc :
  SHA256.hex "abc" = "ba7816bf8f01cfea414140de5dae2223b00361a396177a9cb410ff61f20015ad".
Proof. vm_compute. reflexivity. Qed.

Example sha256_two_blocks :
  SHA256.hex "abcdbcdecdefdefgefghfghighijhijkijkljklmklmnlmnomnopnopq"
  = "248d6a61d20638b8e5c026930c3e6039a33ce45964ff2167f6ecedd419db06c1".
Proof. vm_compute. reflexivity. Qed.

Example account_1_is_the_digest : digest "user-1" = account_1.
Proof. vm_compute. reflexivity. Qed.

Lemma digest_not_empty (s : string) : digest s <> "".
Proof. unfold digest, SHA256.hex, SHA256.hex8. discriminate. Qed.

Lemma login_always_ok_lets_in
      (file : TokenFile)
      (c : list Event -> Request -> HttpResult (option (list Connection)))
      (g : list Event -> Request -> HttpResult GraphResponse) :
  lets_in (world_g file login_always_ok c g).
Proof.
  intros h req. exists login_ok, fresh_ticket.
  conjs; try reflexivity; try discriminate.
Defined.

(** Two sessions with the same token, account id and expiry, in worlds whose
    clocks agree, have the same status, and asking for it changes nothing. *)
Lemma getSessionStatus_pure_read_witness :
  exists r,
    getSessionStatus (session "EU" "jwt" 3600,
                      world NoFile login_always_ok connections_ok)
    = Some (Ret r, (session "EU" "jwt" 3600,
                    world NoFile login_always_ok connections_ok))
    /\ getSessionStatus (session_of "US" "jwt" 3600 "patient-7",
                         world Damaged login_rejected connections_rejected)
       = Some (Ret r, (session_of "US" "jwt" 3600 "patient-7",
                       world Damaged login_rejected connections_rejected))
    /\ authenticated r = true
    /\ tokenValid r = true
    /\ expiresAt r = Some (t0 + 3600000).
Proof.
  apply (getSessionStatus_pure_read
           (session "EU" "jwt" 3600) (session_of "US" "jwt" 3600 "patient-7")
           (world NoFile login_always_ok connections_ok)
           (world Damaged login_rejected connections_rejected));
    reflexivity.
Defined.

(** The safety margin: an hour ahead is reused without a single event, two
    minutes ahead is not valid. *)
Lemma ensureAuthenticated_safety_margin_witness :
  ensureAuthenticated 0 (session "EU" "jwt-old" 3600,
                         world NoFile login_always_ok connections_ok)
  = Some (Ret tt, (session "EU" "jwt-old" 3600,
                   world NoFile login_always_ok connections_ok))
  /\ isTokenValid (session "EU" "jwt-old" 120,
                   world NoFile login_always_ok connections_ok)
     = Some (Ret false, (session "EU" "jwt-old" 120,
                         world NoFile login_always_ok connections_ok)).
Proof.
  split.
  - apply (ensureAuthenticated_safety_margin 0 (session "EU" "jwt-old" 3600)
             (world NoFile login_always_ok connections_ok)
             eq_refl (fun _ => eq_refl)).
    reflexivity.
  - apply (ensureAuthenticated_safety_margin 0 (session "EU" "jwt-old" 120)
             (world NoFile login_always_ok connections_ok)
             eq_refl (fun _ => eq_refl)).
    vm_compute. discriminate.
Defined.

(** The scenario of the specification: a stored token that expires in 120
    seconds is restored, found not valid, and replaced by a fresh login. *)
Example safety_margin_scenario :
  let r := ensureAuthenticated 1
             (fresh "EU",
              world (Sealed (bundle "EU" "jwt-old" 120)) login_always_ok connections_ok) in
  outcome_of r = Some (Ret tt)
  /\ option_map jwtToken (client_of r) = Some (Some "jwt-new")
  /\ logins (history_of r) = 1%nat
  /\ option_map tokenFile (world_of r) = Some (Sealed (bundle "EU" "jwt-new" 3600)).
Proof. vm_compute. repeat split. Qed.

(** The scenario of the specification: nothing stored, [ensureAuthenticated]
    logs in, the bundle is stored, the status is authenticated and valid, and
    an authenticated client carries the token and the digest of the user id. *)
Example fresh_login_scenario :
  let r := (ensureAuthenticated 1 ;;
            status <- getSessionStatus ;;
            client <- createAuthenticatedClient ;;
            ret (status, header "Authorization" (headers client),
                 header "Account-Id" (headers client)))
             (fresh "EU", world NoFile login_always_ok connections_ok) in
  outcome_of r =
  Some (Ret (mkStatus true true (Some (t0 + 3600000)),
             Some "Bearer jwt-new", Some account_1))
  /\ logins (history_of r) = 1%nat
  /\ option_map tokenFile (world_of r) = Some (Sealed (bundle "EU" "jwt-new" 3600)).
Proof. vm_compute. repeat split. Qed.

(** Region mismatch: a bundle for US, a client for EU. *)
Lemma restore_region_mismatch_witness :
  let c := fresh "EU" in
  let w := world (Sealed (bundle "US" "jwt-old" 3600)) login_always_ok connections_ok in
  let w' := delete_token_file (record EvGetToken w) in
  tryRestoreSession (c, w) = Some (Ret false, (c, w'))
  /\ tokenFile w' = NoFile
  /\ token_clears (trace w') = S (token_clears (trace w))
  /\ (valid_at c (now_of w) = false ->
      now_of w <= now_of w' ->
      ensureAuthenticated 1 (c, w) = login 1 (c, w')).
Proof.
  apply (restore_region_mismatch 1 (fresh "EU")
           (world (Sealed (bundle "US" "jwt-old" 3600)) login_always_ok connections_ok)
           TheConfigManager (bundle "US" "jwt-old" 3600) eq_refl eq_refl).
  vm_compute. discriminate.
Defined.

Example region_mismatch_scenario :
  let r := ensureAuthenticated 1
             (fresh "EU",
              world (Sealed (bundle "US" "jwt-old" 3600)) login_always_ok connections_ok) in
  outcome_of r = Some (Ret tt)
  /\ option_map jwtToken (client_of r) = Some (Some "jwt-new")
  /\ logins (history_of r) = 1%nat
  /\ token_clears (history_of r) = 1%nat
  /\ option_map tokenFile (world_of r) = Some (Sealed (bundle "EU" "jwt-new" 3600)).
Proof. vm_compute. repeat split. Qed.

(** A login that succeeds: the account id is the digest of the user id. *)
Lemma login_derives_account_id_witness :
  let r := login 1 (fresh "EU", world NoFile login_always_ok connections_ok) in
  option_map accountId (client_of r) = Some (Some (SHA256.hex "user-1"))
  /\ option_map userId (client_of r) = Some (Some "user-1").
Proof.
  destruct (login 1 (fresh "EU", world NoFile login_always_ok connections_ok))
    as [[[[]|e] [c' w']]|] eqn:E; try (vm_compute in E; discriminate).
  destruct (login_derives_account_id 1 _ _ _ _ E)
    as ((h & req & data & ticket & uid & D & _ & _ & UID & _ & _ & U & A) & _ & _).
  injection D as <-. injection UID as <-.
  cbn [client_of option_map]. rewrite U, A. split; reflexivity.
Defined.

(** C6 fails on the code: with an unreadable token file nothing is thrown.
    [tryRestoreSession] answers false, and [ensureAuthenticated] logs in and
    returns as if no bundle had been stored. *)
Lemma damaged_store_is_not_surfaced :
  let s := (fresh "EU", world Damaged login_always_ok connections_ok) in
  outcome_of (tryRestoreSession s) = Some (Ret false)
  /\ outcome_of (ensureAuthenticated 1 s) = Some (Ret tt)
  /\ logins (history_of (ensureAuthenticated 1 s)) = 1%nat
  /\ option_map jwtToken (client_of (ensureAuthenticated 1 s)) = Some (Some "jwt-new").
Proof. vm_compute. repeat split. Qed.

Lemma tryRestoreSession_swallows_store_errors_witness :
  let c := fresh "EU" in
  let w := world Damaged login_always_ok connections_ok in
  let w' := record (EvConsole "Error restoring session:" (Some CorruptedStoreError))
                   (record EvGetToken w) in
  tryRestoreSession (c, w) = Some (Ret false, (c, w'))
  /\ tokenFile w' = Damaged
  /\ (forall c0 w0, exists b c1 w1,
         tryRestoreSession (c0, w0) = Some (Ret b, (c1, w1)))
  /\ (valid_at c (now_of w) = false ->
      now_of w <= now_of w' ->
      ensureAuthenticated 1 (c, w) = login 1 (c, w')).
Proof.
  apply (tryRestoreSession_swallows_store_errors 1 (fresh "EU")
           (world Damaged login_always_ok connections_ok)
           TheConfigManager eq_refl eq_refl).
Defined.

(** C7 fails on the code: redirected from EU to US and rejected there, the
    failed [login] leaves the client configured for US, with the base
    endpoint of US; the session fields are those from before. *)
Lemma failed_login_keeps_the_redirect :
  let c := session "EU" "jwt-old" 3600 in
  let r := login 2 (c, world NoFile (login_redirect_then_reject "us") connections_ok) in
  outcome_of r =
  Some (Throw (JsError "Authentication failed. Please check your email and password."))
  /\ region (config c) = "EU"
  /\ baseUrl c = Some "https://api-eu.libreview.io"
  /\ option_map (fun c' => region (config c')) (client_of r) = Some "US"
  /\ option_map baseUrl (client_of r) = Some (Some "https://api-us.libreview.io")
  /\ option_map jwtToken (client_of r) = Some (Some "jwt-old").
Proof. vm_compute. repeat split. Qed.

(** A failed [login] can also leave a token behind: a response with status
    0 and a ticket that names no user passes the test, the token and the
    expiry of the ticket are assigned, the TypeError follows and nothing is
    taken back.  The client then holds the new token with the user id and the
    account id from before; when the user is there without an id, the user id
    is gone as well. *)
Example failed_login_keeps_the_new_token :
  let c := session "EU" "jwt-old" 120 in
  let r := login 1 (c, world NoFile (login_answers login_no_user) connections_ok) in
  let r' := login 1 (c, world NoFile (login_answers login_no_id) connections_ok) in
  outcome_of r = Some (Throw (OtherError NO_USER))
  /\ jwtToken c = Some "jwt-old"
  /\ tokenExpires c = 1000120000
  /\ option_map jwtToken (client_of r) = Some (Some "jwt-new")
  /\ option_map tokenExpires (client_of r) = Some 1003600000
  /\ option_map userId (client_of r) = Some (Some "user-1")
  /\ option_map accountId (client_of r) = Some (Some account_1)
  /\ option_map tokenFile (world_of r) = Some NoFile
  /\ outcome_of r' = Some (Throw (OtherError NOT_A_STRING))
  /\ option_map jwtToken (client_of r') = Some (Some "jwt-new")
  /\ option_map userId (client_of r') = Some None
  /\ option_map accountId (client_of r') = Some (Some account_1).
Proof. vm_compute. repeat split. Qed.

(** Redirected from EU to US and answered there without a user. *)
Lemma login_failure_keeps_session_witness :
  let c := session "EU" "jwt-old" 3600 in
  let w := world NoFile (login_redirect_then_no_user "us") connections_ok in
  let c' := interrupted login_no_user fresh_ticket (redirected "us" c) in
  let w' := record (EvRequest (login_request (redirected "us" c)))
                   (record (EvRequest (login_request c)) w) in
  exists c0 w0,
    w' = record (EvRequest (login_request c0)) w0
    /\ same_session c c0
    /\ config c0 = set_region (region (config c0)) (config c)
    /\ (logins (trace w') = S (logins (trace w)) -> c0 = c /\ w0 = w)
    /\ ((c0 = c /\ w0 = w)
        \/ exists c1 w1 data r,
            later w w1
            /\ same_session c c1
            /\ onLogin w (trace w1) (login_request c1) = HttpOk data
            /\ redirect_target data = Some r
            /\ c0 = redirected r c1
            /\ w0 = record (EvRequest (login_request c1)) w1)
    /\ ((c' = c0
         /\ forall data,
             onLogin w (trace w0) (login_request c0) = HttpOk data ->
             lr_authTicket data = None \/ lr_status data <> 0)
        \/ (exists data ticket,
               onLogin w (trace w0) (login_request c0) = HttpOk data
               /\ redirect_target data = None
               /\ lr_authTicket data = Some ticket
               /\ lr_status data = 0
               /\ user_id data = None
               /\ OtherError NO_USER = interruption data
               /\ c' = interrupted data ticket c0
               /\ jwtToken c' = Some (ticketToken ticket)
               /\ tokenExpires c' = ticketExpires ticket * 1000
               /\ userId c' = match lr_user data with
                              | Some _ => None
                              | None => userId c
                              end
               /\ accountId c' = accountId c
               /\ patientId c' = patientId c
               /\ config c' = config c0
               /\ baseUrl c' = baseUrl c0)).
Proof.
  apply (login_failure_keeps_session 2
           (session "EU" "jwt-old" 3600)
           (world NoFile (login_redirect_then_no_user "us") connections_ok)
           (OtherError NO_USER)).
  reflexivity.
Defined.

(** C2 fails on the code: two redirects in a row are both followed, and two
    endpoints that redirect to each other keep [login] going for ever. *)
Lemma login_follows_two_redirects :
  let r := login 3 (fresh "EU", world NoFile (login_after_redirects 2 "us") connections_ok) in
  outcome_of r = Some (Ret tt)
  /\ logins (history_of r) = 3%nat
  /\ login 2 (fresh "EU", world NoFile (login_after_redirects 2 "us") connections_ok)
     = None
  /\ login 200 (fresh "EU", world NoFile login_cross_redirect connections_ok) = None.
Proof. vm_compute. repeat split. Qed.

Lemma cross_redirect_never_settles (fuel : nat) :
  login fuel (fresh "EU", world NoFile login_cross_redirect connections_ok) = None.
Proof.
  apply login_redirect_loop_never_settles.
  intros h req. unfold world, onLogin, login_cross_redirect.
  destruct (opt_string_eqb (reqBaseURL req) "https://api-eu.libreview.io");
    do 2 eexists; split; reflexivity.
Qed.

Lemma login_follows_every_redirect_witness :
  let c := fresh "EU" in
  let w := world NoFile (login_after_redirects 2 "us") connections_ok in
  login 2 (c, w) = None
  /\ exists c_k w_k,
      login (2 + 1) (c, w) = login 1 (c_k, w_k)
      /\ later w w_k
      /\ logins (trace w_k) = (logins (trace w) + 2)%nat
      /\ same_session c c_k
      /\ (2%nat = 0%nat -> c_k = c /\ w_k = w)
      /\ ((0 < 2)%nat ->
          exists r, region (config c_k) = toUpperCase r
                    /\ baseUrl c_k = redirect_base r).
Proof.
  apply (login_follows_every_redirect 2 1 (fresh "EU")
           (world NoFile (login_after_redirects 2 "us") connections_ok)).
  intros h req Hlt. exists (redirect_to "us"), "us".
  unfold world, onLogin, login_after_redirects.
  change (logins h < 2)%nat in Hlt.
  apply Nat.ltb_lt in Hlt. rewrite Hlt. split; reflexivity.
Defined.

(** C1 fails on the code: the server rejects the cached token and the token
    of the first login as well.  The second 401 is not surfaced: both calls
    log in a second time, ask a third time and return the data. *)
Lemma second_401_triggers_another_login :
  let c := session_of "EU" "jwt-old" 3600 "patient-7" in
  let file := Sealed (bundle "EU" "jwt-old" 3600) in
  let r1 := getConnections 3
              (c, world_g file login_always_ok (connections_after_401s 2) graph_ok) in
  let r2 := getGraphData 3
              (c, world_g file login_always_ok connections_ok (graph_after_401s 2)) in
  outcome_of r1 = Some (Ret [carol])
  /\ logins (history_of r1) = 2%nat
  /\ connection_gets (history_of r1) = 3%nat
  /\ outcome_of r2 = Some (Ret graph)
  /\ logins (history_of r2) = 2%nat
  /\ graph_gets (history_of r2) = 3%nat.
Proof. vm_compute. repeat split. Qed.

(** The scenario of the specification: one rejection, one login, and the
    retried call succeeds with the new token. *)
Example recovery_scenario :
  let r := getConnections 2
             (session "EU" "jwt-old" 3600,
              world (Sealed (bundle "EU" "jwt-old" 3600))
                    login_always_ok connections_reject_old) in
  outcome_of r = Some (Ret [carol])
  /\ logins (history_of r) = 1%nat
  /\ connection_gets (history_of r) = 2%nat
  /\ token_clears (history_of r) = 1%nat
  /\ option_map jwtToken (client_of r) = Some (Some "jwt-new").
Proof. vm_compute. repeat split. Qed.

(** A server that rejects every token keeps [getConnections] logging in and
    asking again for ever. *)
Lemma rejected_for_ever (fuel : nat) :
  getConnections fuel
    (session "EU" "jwt-old" 3600,
     world_g NoFile login_always_ok connections_rejected graph_ok) = None.
Proof.
  apply getConnections_401_forever.
  - apply digest_not_empty.
  - apply login_always_ok_lets_in.
  - unfold good_session. conjs; reflexivity.
  - intros h req. exists (http_error 401). split; reflexivity.
Qed.

Lemma unauthorized_relogin_cycles_witness :
  let c := session_of "EU" "jwt-old" 3600 "patient-7" in
  let w := world_g (Sealed (bundle "EU" "jwt-old" 3600)) login_always_ok
                   (connections_after_401s 2) (graph_after_401s 2) in
  (exists c' w',
      getConnections 3 (c, w) = Some (Ret [carol], (c', w'))
      /\ logins (trace w') = 2%nat
      /\ connection_gets (trace w') = 3%nat
      /\ token_clears (trace w') = 2%nat)
  /\ (exists c' w',
         getGraphData 3 (c, w) = Some (Ret graph, (c', w'))
         /\ logins (trace w') = 2%nat
         /\ graph_gets (trace w') = 3%nat
         /\ token_clears (trace w') = 2%nat).
Proof.
  destruct (unauthorized_relogin_cycles (rt := node) 2 0
              (session_of "EU" "jwt-old" 3600 "patient-7")
              (world_g (Sealed (bundle "EU" "jwt-old" 3600)) login_always_ok
                       (connections_after_401s 2) (graph_after_401s 2))
              digest_not_empty
              (login_always_ok_lets_in _ _ _)
              (conj eq_refl (conj eq_refl (fun _ => eq_refl))))
    as [Conn Graph].
  split.
  - apply (Conn (Some [carol])).
    + intros h req Hlt. change (connection_gets h < 2)%nat in Hlt.
      apply Nat.ltb_lt in Hlt. exists (http_error 401).
      unfold world_g, onConnections, connections_after_401s. rewrite Hlt.
      split; reflexivity.
    + intros h req Heq. change (connection_gets h = 2%nat) in Heq.
      unfold world_g, onConnections, connections_after_401s. rewrite Heq.
      reflexivity.
  - apply (Graph "patient-7" graph).
    + reflexivity.
    + discriminate.
    + intros h req Hlt. change (graph_gets h < 2)%nat in Hlt.
      apply Nat.ltb_lt in Hlt. exists (http_error 401).
      unfold world_g, onGraph, graph_after_401s. rewrite Hlt.
      split; reflexivity.
    + intros h req Heq. change (graph_gets h = 2%nat) in Heq.
      unfold world_g, onGraph, graph_after_401s. rewrite Heq.
      reflexivity.
Defined.

End Scenarios.

(* ================================================================= *)
(** ** Properties of the readings and of the session on restart *)

Arguments getCurrentGlucose : simpl never.
Arguments getGlucoseHistory : simpl never.
Arguments validateConnection : simpl never.

Section Sorting.

Context {A : Type} (compare : A -> A -> Z).

Lemma insert_by_perm (x : A) (l : list A) :
  Permutation (x :: l) (insert_by compare x l).
Proof.
  induction l as [|y tl IH]; cbn [insert_by]; [apply Permutation_refl|].
  destruct (compare x y <=? 0); [apply Permutation_refl|].
  eapply perm_trans; [apply perm_swap|]. apply perm_skip. exact IH.
Qed.

Lemma sort_by_perm (l : list A) : Permutation l (sort_by compare l).
Proof.
  induction l as [|x tl IH]; cbn [sort_by fold_right]; [apply perm_nil|].
  eapply perm_trans; [apply perm_skip; exact IH|]. apply insert_by_perm.
Qed.

Lemma insert_by_Forall (P : A -> Prop) (x : A) (l : list A) :
  P x -> Forall P l -> Forall P (insert_by compare x l).
Proof.
  intros Hx Hl. eapply Permutation_Forall; [apply insert_by_perm|].
  constructor; assumption.
Qed.

End Sorting.

Ltac tally :=
  cbn [record with_tokenFile delete_token_file trace];
  unfold logins, connection_gets, graph_gets, token_clears;
  rewrite ?count_cons; cbn; try lia.

Section MoreProperties.

Context {rt : Runtime} {ty : Types}.

(** *** The history of readings *)

Lemma insert_time_sorted (x : Reading.t) (l : list Reading.t) :
  dated x -> Forall dated l ->
  StronglySorted not_after l ->
  StronglySorted not_after (insert_by compare_time x l).
Proof.
  intros [tx Hx] Hd Hs. induction l as [|y tl IH]; cbn [insert_by].
  - constructor; constructor.
  - inversion Hd as [|? ? [ty' Hy] Hd']; subst.
    inversion Hs as [|? ? Hs' Hall]; subst.
    assert (C : compare_time x y = tx - ty').
    { unfold compare_time. rewrite Hx, Hy. reflexivity. }
    rewrite C. destruct (Z.leb_spec (tx - ty') 0) as [Le|Gt].
    + constructor; [exact Hs|]. constructor.
      * exists tx, ty'. conjs; auto. lia.
      * eapply Forall_impl; [|exact Hall].
        intros z (a & b & Ha & Hb & Hab). rewrite Hy in Ha. injection Ha as <-.
        exists tx, b. conjs; auto. lia.
    + constructor; [apply IH; assumption|].
      apply insert_by_Forall; [|exact Hall].
      exists ty', tx. conjs; auto. lia.
Qed.

Lemma sort_time_sorted (l : list Reading.t) :
  Forall dated l -> StronglySorted not_after (sort_by compare_time l).
Proof.
  induction l as [|x tl IH]; intros Hd; cbn [sort_by fold_right].
  - constructor.
  - inversion Hd; subst. apply insert_time_sorted; auto.
    eapply Permutation_Forall; [apply sort_by_perm|]. assumption.
Qed.

Lemma mapGlucoseItem_timestamp (item : RawGlucoseItem) (lo hi : Z) :
  Reading.timestamp (mapGlucoseItem item lo hi) = Timestamp item.
Proof. reflexivity. Qed.

Lemma newer_than_within (cutoff lo hi : Z) (items : list RawGlucoseItem) :
  Forall (within cutoff)
         (map (fun item => mapGlucoseItem item lo hi)
              (filter (newer_than cutoff) items)).
Proof.
  apply Forall_forall. intros r Hin. apply in_map_iff in Hin.
  destruct Hin as (item & <- & Hin). apply filter_In in Hin.
  destruct Hin as [_ Hn]. unfold newer_than in Hn. unfold within.
  rewrite mapGlucoseItem_timestamp.
  destruct (Date_getTime (Timestamp item)) as [t|]; [|discriminate].
  exists t. split; [reflexivity|]. apply Z.ltb_lt. exact Hn.
Qed.

Lemma getGlucoseHistory_run (fuel : nat) (hours : Z) (s : St)
      (data : GraphResponse) (c' : LibreLinkClient) (w' : World) :
  getGraphData fuel s = Some (Ret data, (c', w')) ->
  getGlucoseHistory fuel hours s =
  Some (Ret (sort_by compare_time
               (map (fun item => mapGlucoseItem item (targetLow (config c'))
                                                (targetHigh (config c')))
                    (filter (newer_than (now_of w' - hours * 60 * 60 * 1000))
                            (graphData data)))),
        (c', w')).
Proof.
  intros H. unfold getGlucoseHistory, bind. rewrite H. reflexivity.
Qed.

(** X1.  Every reading of the history is dated, and later than the clock at the
    end of the fetch minus [hours] hours; items whose timestamp is no date are
    left out. *)
Theorem getGlucoseHistory_within_hours
        (fuel : nat) (hours : Z) (s : St)
        (data : GraphResponse) (c' : LibreLinkClient) (w' : World) :
  getGraphData fuel s = Some (Ret data, (c', w')) ->
  exists readings,
    getGlucoseHistory fuel hours s = Some (Ret readings, (c', w'))
    /\ Forall (within (now_of w' - hours * 3600000)) readings.
Proof.
  intros H. eexists. split; [apply (getGlucoseHistory_run _ hours _ _ _ _ H)|].
  eapply Permutation_Forall; [apply sort_by_perm|].
  replace (hours * 3600000) with (hours * 60 * 60 * 1000) by lia.
  apply newer_than_within.
Qed.

(** X2.  The history comes in the order of time, oldest reading first. *)
Theorem getGlucoseHistory_sorted
        (fuel : nat) (hours : Z) (s : St)
        (data : GraphResponse) (c' : LibreLinkClient) (w' : World) :
  getGraphData fuel s = Some (Ret data, (c', w')) ->
  exists readings,
    getGlucoseHistory fuel hours s = Some (Ret readings, (c', w'))
    /\ StronglySorted not_after readings.
Proof.
  intros H. eexists. split; [apply (getGlucoseHistory_run _ hours _ _ _ _ H)|].
  apply sort_time_sorted.
  eapply Forall_impl; [|apply newer_than_within].
  intros r (t & Ht & _). exists t. exact Ht.
Qed.

(** X3.  The history holds each item of the graph that is newer than the cutoff
    exactly once, mapped with the target range of the configuration, and
    nothing else: neither the current measurement nor an older item. *)
Theorem getGlucoseHistory_complete
        (fuel : nat) (hours : Z) (s : St)
        (data : GraphResponse) (c' : LibreLinkClient) (w' : World) :
  getGraphData fuel s = Some (Ret data, (c', w')) ->
  exists readings,
    getGlucoseHistory fuel hours s = Some (Ret readings, (c', w'))
    /\ Permutation
         (map (fun item => mapGlucoseItem item (targetLow (config c'))
                                          (targetHigh (config c')))
              (filter (newer_than (now_of w' - hours * 3600000)) (graphData data)))
         readings
    /\ (length readings <= length (graphData data))%nat.
Proof.
  intros H. eexists. split; [apply (getGlucoseHistory_run _ hours _ _ _ _ H)|].
  replace (hours * 3600000) with (hours * 60 * 60 * 1000) by lia.
  split; [apply sort_by_perm|].
  rewrite <- (Permutation_length (sort_by_perm compare_time _)).
  rewrite length_map. apply filter_length_le.
Qed.

(** X4.  An arrow that is missing or 0 is reported as 3, and a trend the table
    does not know as Flat: no reading has arrow 0 or an empty trend. *)
Theorem mapGlucoseItem_defaults (item : RawGlucoseItem) (lo hi : Z) :
  let r := mapGlucoseItem item lo hi in
  Reading.trendArrow r <> 0
  /\ Reading.trend r <> ""
  /\ (TrendArrow item = None \/ TrendArrow item = Some 0 ->
      r = mapGlucoseItem (mkRaw (ValueInMgPerDl item) (Timestamp item) (Some 3)
                                (isHigh item) (isLow item)) lo hi)
  /\ (truthy (TREND_MAP (Reading.trendArrow r)) = false -> Reading.trend r = "Flat").
Proof.
  cbv zeta. unfold mapGlucoseItem. cbn [Reading.trendArrow Reading.trend].
  conjs.
  - unfold or_3. destruct (TrendArrow item) as [a|]; [|discriminate].
    destruct (Z.eqb_spec a 0); [discriminate|assumption].
  - unfold or_string. destruct (TREND_MAP _) as [t|]; [|discriminate].
    destruct (String.eqb_spec t ""); [discriminate|assumption].
  - intros [-> | ->]; reflexivity.
  - unfold or_string, truthy. destruct (TREND_MAP _) as [t|]; [|reflexivity].
    destruct (t =? "")%string; [reflexivity|discriminate].
Qed.

(** *** Saving and restoring the session *)

(** X5.  What [saveSession] writes, [tryRestoreSession] reads back: a client for
    the same region gets the token, the expiry, the user id and the account
    id of the client that saved them, and the base URL of the region. *)
Theorem saveSession_restore_round_trip
        (c c2 : LibreLinkClient) (w : World) (cm cm2 : ConfigManager) :
  configManager c = Some cm ->
  truthy (jwtToken c) = true ->
  truthy (userId c) = true ->
  truthy (accountId c) = true ->
  tokenWritable w = true ->
  configManager c2 = Some cm2 ->
  region (config c2) = region (config c) ->
  exists w1 c3 w2,
    saveSession (c, w) = Some (Ret tt, (c, w1))
    /\ tryRestoreSession (c2, w1) = Some (Ret true, (c3, w2))
    /\ jwtToken c3 = jwtToken c
    /\ tokenExpires c3 = tokenExpires c
    /\ userId c3 = userId c
    /\ accountId c3 = accountId c
    /\ baseUrl c3 = server_for (region (config c))
    /\ config c3 = config c2 /\ patientId c3 = patientId c2
    /\ logins (trace w2) = logins (trace w).
Proof.
  intros CM Hj Hu Ha HW CM2 HR.
  destruct (truthy_Some _ Hj) as (tok & Ej & Nj).
  destruct (truthy_Some _ Hu) as (uid & Eu & Nu).
  destruct (truthy_Some _ Ha) as (acc & Ea & Na).
  assert (B : bundle_of c =
              Some (Stored.mk tok (tokenExpires c) uid acc (region (config c)))).
  { unfold bundle_of. rewrite CM, Ej, Eu, Ea.
    destruct (String.eqb_spec tok ""); [contradiction|].
    destruct (String.eqb_spec uid ""); [contradiction|].
    destruct (String.eqb_spec acc ""); [contradiction|]. reflexivity. }
  rewrite saveSession_run. unfold after_save. rewrite B, HW.
  do 3 eexists. split; [reflexivity|].
  rewrite tryRestoreSession_run, CM2. cbn [tokenFile record with_tokenFile].
  cbn [Stored.region]. rewrite HR, String.eqb_refl.
  split; [reflexivity|]. cbn. rewrite Ej, Eu, Ea.
  conjs; try reflexivity.
  unfold after_restore. cbn. rewrite HR, String.eqb_refl. reflexivity.
Qed.

(** X6.  A [login] that cannot save its session still returns with the session
    in memory; the token file stays as it was. *)
Theorem login_survives_unwritable_store
        (f : nat) (c : LibreLinkClient) (w : World)
        (data : LoginResponse) (ticket : AuthTicket) (uid : string) :
  onLogin w (trace w) (login_request c) = HttpOk data ->
  redirect_target data = None ->
  lr_authTicket data = Some ticket ->
  lr_status data = 0 ->
  user_id data = Some uid ->
  tokenWritable w = false ->
  exists w',
    login (S f) (c, w) = Some (Ret tt, (logged_in uid ticket c, w'))
    /\ tokenFile w' = tokenFile w
    /\ later w w'
    /\ logins (trace w') = S (logins (trace w)).
Proof.
  intros E R T S0 UID HW.
  destruct (login_cases c w) as
    [(data' & r' & E' & R' & _)
    | [(data' & ticket' & u & uid' & E' & _ & T' & _ & U' & I' & EQ)
      | [(e & N & _) | (data' & ticket' & E' & _ & _ & _ & UID' & _)]]].
  - rewrite E in E'. injection E' as <-. congruence.
  - rewrite E in E'. injection E' as <-. rewrite T in T'. injection T' as <-.
    unfold user_id in UID. rewrite U', I' in UID. injection UID as <-.
    cbv zeta in EQ. rewrite EQ. eexists. split; [reflexivity|].
    pose proof (after_save_counts (logged_in uid' ticket c)
                  (record (EvConsole
                             ("LibreLink: Logged in as "
                                ++ firstName u ++ " "
                                ++ lastName u) None)
                          (record (EvRequest (login_request c)) w)))
      as (K1 & _).
    conjs.
    + unfold after_save. destruct (bundle_of _); [|reflexivity].
      cbn [tokenWritable record]. rewrite HW. reflexivity.
    + eapply later_trans; [|apply after_save_later].
      eapply later_trans; apply later_record.
    + rewrite K1. tally.
  - destruct (N data E) as [_ [N'|N']]; congruence.
  - rewrite E in E'. injection E' as <-. congruence.
Qed.

(** X7.  With nothing valid in memory and a stored bundle of the configured
    region that is valid, [ensureAuthenticated] adopts the bundle and returns
    without a login request, whatever the fuel. *)
Theorem ensureAuthenticated_restores_without_login
        (fuel : nat) (c : LibreLinkClient) (w : World)
        (cm : ConfigManager) (td : Stored.TokenData) :
  valid_at c (now_of w) = false ->
  configManager c = Some cm ->
  tokenFile w = Sealed td ->
  Stored.region td = region (config c) ->
  Stored.token td <> "" ->
  Stored.accountId td <> "" ->
  now_of (after_restore c w) < Stored.expires td - 300000 ->
  ensureAuthenticated fuel (c, w)
  = Some (Ret tt, (restore_from td c, after_restore c w))
  /\ logins (trace (after_restore c w)) = logins (trace w)
  /\ tokenFile (after_restore c w) = Sealed td.
Proof.
  intros V CM TF HR Nt Na Lt.
  rewrite ensureAuthenticated_run, V, tryRestoreSession_run, CM, TF, HR.
  rewrite String.eqb_refl.
  assert (V' : valid_at (restore_from td c) (now_of (after_restore c w)) = true).
  { apply valid_at_true. cbn. conjs.
    - destruct (String.eqb_spec (Stored.token td) ""); [contradiction|reflexivity].
    - destruct (String.eqb_spec (Stored.accountId td) ""); [contradiction|reflexivity].
    - exact Lt. }
  rewrite V'. conjs; try reflexivity.
  - unfold after_restore. rewrite TF, HR, String.eqb_refl. tally.
  - unfold after_restore. rewrite TF, HR, String.eqb_refl. exact TF.
Qed.

(** X8.  When the stored bundle is no longer valid and the login that should
    replace it fails, the error reaches the caller, and the bundle stays both
    in memory, where [tryRestoreSession] put it, and in the token file. *)
Theorem failed_login_keeps_restored_bundle
        (f : nat) (c : LibreLinkClient) (w : World)
        (cm : ConfigManager) (td : Stored.TokenData) (a : AxiosErr) :
  valid_at c (now_of w) = false ->
  configManager c = Some cm ->
  tokenFile w = Sealed td ->
  Stored.region td = region (config c) ->
  valid_at (restore_from td c) (now_of (after_restore c w)) = false ->
  onLogin w (trace (after_restore c w)) (login_request (restore_from td c))
  = HttpAxiosError a ->
  exists e c' w',
    ensureAuthenticated (S f) (c, w) = Some (Throw e, (c', w'))
    /\ jwtToken c' = Some (Stored.token td)
    /\ tokenExpires c' = Stored.expires td
    /\ userId c' = Some (Stored.userId td)
    /\ accountId c' = Some (Stored.accountId td)
    /\ tokenFile w' = Sealed td
    /\ logins (trace w') = S (logins (trace w)).
Proof.
  intros V CM TF HR V' E.
  rewrite ensureAuthenticated_run, V, tryRestoreSession_run, CM, TF, HR.
  rewrite String.eqb_refl, V'.
  pose proof (after_restore_later c w) as [(OL & _) _].
  destruct (login_cases (restore_from td c) (after_restore c w)) as
    [(data' & r' & E' & _)
    | [(data' & ticket' & u & uid & E' & _)
      | [(e & _ & EQ) | (data' & ticket' & E' & _)]]].
  - rewrite OL, E in E'. discriminate.
  - rewrite OL, E in E'. discriminate.
  - rewrite EQ. exists e. do 2 eexists. split; [reflexivity|].
    conjs; try reflexivity.
    + unfold after_restore. rewrite TF, HR, String.eqb_refl. exact TF.
    + unfold after_restore. rewrite TF, HR, String.eqb_refl. tally.
  - rewrite OL, E in E'. discriminate.
Qed.

Lemma updateConfig_run (n : PartialConfig) (c : LibreLinkClient) (w : World) :
  exists c1,
    updateConfig n (c, w) = Some (Ret tt, (c1, w))
    /\ config c1 = spread (config c) n
    /\ configManager c1 = configManager c
    /\ userId c1 = userId c
    /\ tokenExpires c1 = tokenExpires c
    /\ (changes_credentials n = true ->
        jwtToken c1 = None /\ accountId c1 = None /\ patientId c1 = None)
    /\ (changes_credentials n = false ->
        jwtToken c1 = jwtToken c /\ accountId c1 = accountId c
        /\ patientId c1 = patientId c /\ baseUrl c1 = baseUrl c).
Proof.
  unfold updateConfig, changes_credentials, bind, this, assign, ret. cbn.
  destruct (truthy (p_email n) || truthy (p_password n) || truthy (p_region n)).
  - destruct (p_region n) as [r|]; cbn.
    + destruct (r =? "")%string; cbn; eexists; (split; [reflexivity|]);
        cbn; conjs; try reflexivity; intros; conjs; try reflexivity; discriminate.
    + eexists; (split; [reflexivity|]);
        cbn; conjs; try reflexivity; intros; conjs; try reflexivity; discriminate.
  - eexists; (split; [reflexivity|]);
      cbn; conjs; try reflexivity; intros; conjs; try reflexivity; discriminate.
Qed.

(** X9.  New credentials given to [updateConfig] do not force a login with them:
    the token in memory is dropped, but the stored bundle is not, and when it
    is of the configured region and still valid the next
    [ensureAuthenticated] takes the session of the old account back from the
    store without a login request. *)
Theorem updateConfig_then_stored_session_returns
        (fuel : nat) (n : PartialConfig) (c : LibreLinkClient) (w : World)
        (cm : ConfigManager) (td : Stored.TokenData) :
  changes_credentials n = true ->
  configManager c = Some cm ->
  tokenFile w = Sealed td ->
  Stored.region td = region (spread (config c) n) ->
  Stored.token td <> "" ->
  Stored.accountId td <> "" ->
  clock w (2 + length (trace w)) < Stored.expires td - 300000 ->
  exists c' w',
    (updateConfig n ;; ensureAuthenticated fuel) (c, w) = Some (Ret tt, (c', w'))
    /\ config c' = spread (config c) n
    /\ jwtToken c' = Some (Stored.token td)
    /\ userId c' = Some (Stored.userId td)
    /\ accountId c' = Some (Stored.accountId td)
    /\ logins (trace w') = logins (trace w)
    /\ tokenFile w' = Sealed td.
Proof.
  intros Ch CM TF HR Nt Na Lt.
  destruct (updateConfig_run n c w) as (c1 & U & Cf & CM1 & _ & _ & Reset & _).
  destruct (Reset Ch) as (J1 & _).
  unfold bind at 1. rewrite U.
  assert (V : valid_at c1 (now_of w) = false).
  { unfold valid_at. rewrite J1. reflexivity. }
  assert (AR : after_restore c1 w
               = record (EvConsole "LibreLink: Restored session from secure storage" None)
                        (record EvGetToken w)).
  { unfold after_restore. rewrite TF, Cf, HR, String.eqb_refl. reflexivity. }
  rewrite ensureAuthenticated_run, V, tryRestoreSession_run, CM1, CM, TF, Cf, HR.
  rewrite String.eqb_refl.
  assert (V' : valid_at (restore_from td c1) (now_of (after_restore c1 w)) = true).
  { apply valid_at_true. rewrite AR. cbn. conjs.
    - destruct (String.eqb_spec (Stored.token td) ""); [contradiction|reflexivity].
    - destruct (String.eqb_spec (Stored.accountId td) ""); [contradiction|reflexivity].
    - exact Lt. }
  rewrite V'. do 2 eexists. split; [reflexivity|].
  conjs; try reflexivity.
  - cbn. exact Cf.
  - rewrite AR. tally.
  - rewrite AR. exact TF.
Qed.

(** X10.  A session obtained through a redirect is stored under the region the
    server named.  A client built again from the configuration it started
    with finds a bundle of another region: it deletes it and restores
    nothing. *)
Theorem redirected_session_is_not_restored
        (f : nat) (cfg : LibreLinkConfig) (cm : ConfigManager) (w : World)
        (r : string) (data1 data2 : LoginResponse) (ticket : AuthTicket)
        (uid : string) :
  let c := new_LibreLinkClient cfg (Some cm) in
  let w1 := record (EvRequest (login_request c)) w in
  onLogin w (trace w) (login_request c) = HttpOk data1 ->
  redirect_target data1 = Some r ->
  onLogin w (trace w1) (login_request (redirected r c)) = HttpOk data2 ->
  redirect_target data2 = None ->
  lr_authTicket data2 = Some ticket ->
  lr_status data2 = 0 ->
  user_id data2 = Some uid ->
  ticketToken ticket <> "" ->
  uid <> "" ->
  sha256_hex uid <> "" ->
  tokenWritable w = true ->
  toUpperCase r <> region cfg ->
  exists c' w' td,
    login (S (S f)) (c, w) = Some (Ret tt, (c', w'))
    /\ tokenFile w' = Sealed td
    /\ Stored.region td = toUpperCase r
    /\ Stored.token td = ticketToken ticket
    /\ tryRestoreSession (c, w')
       = Some (Ret false, (c, delete_token_file (record EvGetToken w')))
    /\ tokenFile (delete_token_file (record EvGetToken w')) = NoFile.
Proof.
  intros c w1 E1 R1 E2 R2 T S0 UID Nt Nu Na HW NE.
  assert (L1 : login (S (S f)) (c, w) = login (S f) (redirected r c, w1)).
  { destruct (login_cases c w) as
      [(d & r' & E' & R' & EQ)
      | [(d & t & u & i & E' & R' & _)
        | [(e & N & _) | (d & t & E' & R' & _)]]].
    - rewrite E1 in E'. injection E' as <-. rewrite R1 in R'. injection R' as <-.
      apply EQ.
    - rewrite E1 in E'. injection E' as <-. congruence.
    - destruct (N data1 E1) as [N' _]. congruence.
    - rewrite E1 in E'. injection E' as <-. congruence. }
  rewrite L1.
  destruct (login_cases (redirected r c) w1) as
    [(d & r' & E' & R' & _)
    | [(d & t & u & i & E' & _ & T' & _ & U' & I' & EQ)
      | [(e & N & _) | (d & t & E' & _ & _ & _ & UID' & _)]]].
  - change (onLogin w1) with (onLogin w) in E'.
    rewrite E2 in E'. injection E' as <-. congruence.
  - change (onLogin w1) with (onLogin w) in E'.
    rewrite E2 in E'. injection E' as <-. rewrite T in T'. injection T' as <-.
    unfold user_id in UID. rewrite U', I' in UID. injection UID as ->.
    cbv zeta in EQ. rewrite EQ. clear EQ.
    set (c' := logged_in uid ticket (redirected r c)).
    set (w2 := record _ (record _ w1)).
    set (td := Stored.mk (ticketToken ticket) (ticketExpires ticket * 1000)
                         uid (sha256_hex uid) (toUpperCase r)).
    assert (B : bundle_of c' = Some td).
    { unfold bundle_of, c', logged_in, redirected, generateAccountId. cbn.
      destruct (String.eqb_spec (ticketToken ticket) ""); [contradiction|].
      destruct (String.eqb_spec uid ""); [contradiction|].
      destruct (String.eqb_spec (sha256_hex uid) "");
        [contradiction|]. reflexivity. }
    assert (AS : after_save c' w2
                 = record (EvConsole "LibreLink: Session saved to secure storage" None)
                          (with_tokenFile (Sealed td) (record (EvSaveToken td) w2))).
    { unfold after_save. rewrite B. subst w2 w1. cbn [tokenWritable record].
      rewrite HW. reflexivity. }
    exists c', (after_save c' w2), td. rewrite AS.
    conjs; try reflexivity.
    rewrite tryRestoreSession_run. cbn [configManager c new_LibreLinkClient].
    cbn [tokenFile record with_tokenFile]. unfold after_restore.
    cbn [tokenFile record with_tokenFile]. cbn [Stored.region td].
    change (region (config c)) with (region cfg).
    destruct (String.eqb_spec (toUpperCase r) (region cfg)); [contradiction|].
    reflexivity.
  - change (onLogin w1) with (onLogin w) in N.
    destruct (N data2 E2) as [_ [N'|N']]; congruence.
  - change (onLogin w1) with (onLogin w) in E'.
    rewrite E2 in E'. injection E' as <-. congruence.
Qed.

(** *** Errors of login *)

Lemma login_try_throws (c : LibreLinkClient) (w : World) (e : Error) (s' : St) :
  login_try (c, w) = Some (Throw e, s') ->
  match e with
  | JsError _ | AxiosError _ | OtherError _ => True
  | CorruptedStoreError | StoreWriteError => False
  end.
Proof.
  unfold login_try, createClient, http, bind, this, ret. cbn [fst snd].
  destruct (onLogin w (trace w) _) as [data|a|m]; cbn [settle].
  - destruct (redirect_target data) as [r|].
    + unfold assign.
      destruct (truthy (LIBRE_LINK_SERVERS (toUpperCase r))); discriminate.
    + destruct (lr_authTicket data) as [ticket|]; [|intros [= <- _]; exact I].
      destruct (lr_status data =? 0); cbn [negb]; [|intros [= <- _]; exact I].
      destruct (lr_user data) as [u|]; [|intros [= <- _]; exact I].
      unfold assign, throw. cbn [fst snd userId set_userId].
      destruct (id u) as [uid|]; [|intros [= <- _]; exact I].
      unfold console_error, emit. cbn [fst snd].
      rewrite saveSession_run. discriminate.
  - intros [= <- _]. exact I.
  - intros [= <- _]. exact I.
Qed.

Lemma login_catch_plain {A} (e : Error) (s : St) (e' : Error) (s' : St) :
  match e with
  | JsError _ | AxiosError _ | OtherError _ => True
  | CorruptedStoreError | StoreWriteError => False
  end ->
  @login_catch A e s = Some (Throw e', s') ->
  match e' with
  | JsError _ | OtherError _ => True
  | AxiosError _ | CorruptedStoreError | StoreWriteError => False
  end.
Proof.
  unfold login_catch, bind, this, throw. destruct e as [m|a| | |m]; cbn;
    try contradiction; intros _.
  - intros [= <- _]. exact I.
  - destruct (opt_Z_eqb (errStatus a) 403 && truthy (errMinimumVersion a));
      [intros [= <- _]; exact I|].
    destruct (opt_Z_eqb (errStatus a) 403
              && opt_string_eqb (errResponseMessage a) "RequiredHeaderMissing");
      [intros [= <- _]; exact I|].
    destruct (opt_Z_eqb (errStatus a) 401); intros [= <- _]; exact I.
  - intros [= <- _]. exact I.
Qed.

(** X11.  [login] never lets the error of a failed HTTP request through as it is:
    what it throws is a plain error with a message of its own, or an error
    that is not an HTTP failure; and however many redirects came first, the
    thrown error is of that kind. *)
Theorem login_throws_plain_errors (fuel : nat) :
  forall (s : St) (e : Error) (s' : St),
    login fuel s = Some (Throw e, s') ->
    match e with
    | JsError _ | OtherError _ => True
    | AxiosError _ | CorruptedStoreError | StoreWriteError => False
    end.
Proof.
  induction fuel as [|f IH]; intros [c w] e s' H; [discriminate|].
  change (login (S f) (c, w)) with
    ((step <- try_catch login_try login_catch ;;
      match step with RetryLogin => login f | LoginDone => ret tt end) (c, w)) in H.
  unfold bind, try_catch in H.
  destruct (login_try (c, w)) as [[[step|e0] s0]|] eqn:T; [| |discriminate].
  - destruct step; [eapply IH; exact H|discriminate].
  - pose proof (login_try_throws _ _ _ _ T) as K.
    destruct (login_catch e0 s0) as [[[step|e1] s1]|] eqn:C; [| |discriminate].
    + destruct (login_catch_run (A:=LoginStep) e0 (fst s0) (snd s0)) as [x Hx].
      destruct s0. cbn [fst snd] in Hx. rewrite Hx in C. discriminate.
    + injection H as <- <-. eapply login_catch_plain; eauto.
Qed.

(** *** Errors and edges of the data calls *)

Lemma not_401 (a : AxiosErr) :
  errStatus a <> Some 401 -> opt_Z_eqb (errStatus a) 401 = false.
Proof.
  unfold opt_Z_eqb. destruct (errStatus a) as [x|]; [|reflexivity].
  intros N. destruct (Z.eqb_spec x 401); [subst; contradiction|reflexivity].
Qed.

(** X12.  A failure of a data request that is not a 401 (a 403, a 500, no response
    at all) reaches the caller as the HTTP error itself, after that single
    request: no login, no change to the client or to the token file. *)
Theorem data_errors_pass_through
        (f : nat) (c : LibreLinkClient) (w : World) (a : AxiosErr) :
  good_session c w ->
  errStatus a <> Some 401 ->
  (onConnections w (trace w) (connections_request c) = HttpAxiosError a ->
   getConnections (S f) (c, w)
   = Some (Throw (AxiosError a), (c, record (EvRequest (connections_request c)) w)))
  /\ (forall pid,
         patientId c = Some pid -> pid <> "" ->
         onGraph w (trace w) (graph_request c pid) = HttpAxiosError a ->
         getGraphData (S f) (c, w)
         = Some (Throw (AxiosError a), (c, record (EvRequest (graph_request c pid)) w))).
Proof.
  intros G N. pose proof G as (Hj & Ha & _). split.
  - intros E. rewrite getConnections_run, (ensureAuthenticated_cached _ _ _ G).
    rewrite (createAuthenticatedClient_ok _ _ Hj Ha). cbv zeta.
    fold (connections_request c). rewrite E, (not_401 _ N). reflexivity.
  - intros pid P NE E.
    rewrite getGraphData_run, (ensureAuthenticated_cached _ _ _ G).
    rewrite (getPatientId_cached _ _ _ _ P NE).
    rewrite (createAuthenticatedClient_ok _ _ Hj Ha). cbv zeta.
    fold (graph_request c pid). rewrite E, (not_401 _ N). reflexivity.
Qed.

Lemma getPatientId_fetch (f : nat) (c : LibreLinkClient) (w : World)
      (data : option (list Connection)) :
  good_session c w ->
  truthy (patientId c) = false ->
  onConnections w (trace w) (connections_request c) = HttpOk data ->
  getPatientId (S f) (c, w) =
  match data with
  | Some (first :: _) =>
      Some (Ret (connPatientId first),
            (set_patientId (Some (connPatientId first)) c,
             record (EvRequest (connections_request c)) w))
  | _ => Some (Throw (JsError NO_CONNECTIONS),
               (c, record (EvRequest (connections_request c)) w))
  end.
Proof.
  intros G P E. pose proof G as (Hj & Ha & _).
  unfold getPatientId, bind at 1, this. cbn [fst snd]. rewrite P.
  unfold bind at 1.
  rewrite getConnections_run, (ensureAuthenticated_cached _ _ _ G).
  rewrite (createAuthenticatedClient_ok _ _ Hj Ha). cbv zeta.
  fold (connections_request c). rewrite E.
  destruct data as [[|first rest]|]; reflexivity.
Qed.

(** X13.  Without a connection, be the list empty or missing from the response,
    [getPatientId] throws the "No connections found" error and the patient id
    stays unset. *)
Theorem getPatientId_no_connections
        (f : nat) (c : LibreLinkClient) (w : World)
        (data : option (list Connection)) :
  good_session c w ->
  truthy (patientId c) = false ->
  onConnections w (trace w) (connections_request c) = HttpOk data ->
  data = None \/ data = Some [] ->
  getPatientId (S f) (c, w)
  = Some (Throw (JsError NO_CONNECTIONS),
          (c, record (EvRequest (connections_request c)) w)).
Proof.
  intros G P E D. rewrite (getPatientId_fetch _ _ _ _ G P E).
  destruct D as [-> | ->]; reflexivity.
Qed.

(** X14.  [getPatientId] takes the patient id of the first connection and keeps
    it: asked again, it answers from memory, without a request and without
    fuel.  (The id is taken not to be the empty string, which the test
    [if (this.patientId)] takes for unset.) *)
Theorem getPatientId_caches
        (f : nat) (c : LibreLinkClient) (w : World)
        (first : Connection) (rest : list Connection) :
  good_session c w ->
  truthy (patientId c) = false ->
  onConnections w (trace w) (connections_request c) = HttpOk (Some (first :: rest)) ->
  connPatientId first <> "" ->
  let s1 := (set_patientId (Some (connPatientId first)) c,
             record (EvRequest (connections_request c)) w) in
  getPatientId (S f) (c, w) = Some (Ret (connPatientId first), s1)
  /\ forall f', getPatientId f' s1 = Some (Ret (connPatientId first), s1).
Proof.
  intros G P E NE s1. split.
  - rewrite (getPatientId_fetch _ _ _ _ G P E). reflexivity.
  - intros f'. apply getPatientId_cached; [reflexivity|exact NE].
Qed.

(** X15.  With no patient id in memory, [getGraphData] asks for the connections
    once and then for the graph of the first connection, under
    [/llu/connections/<patient id>/graph]; the others are not looked at. *)
Theorem getGraphData_first_connection
        (f : nat) (c : LibreLinkClient) (w : World)
        (first : Connection) (rest : list Connection) (data : GraphResponse) :
  good_session c w ->
  truthy (patientId c) = false ->
  onConnections w (trace w) (connections_request c) = HttpOk (Some (first :: rest)) ->
  let c1 := set_patientId (Some (connPatientId first)) c in
  let w1 := record (EvRequest (connections_request c)) w in
  onGraph w (trace w1) (graph_request c1 (connPatientId first)) = HttpOk data ->
  getGraphData (S (S f)) (c, w)
  = Some (Ret data, (c1, record (EvRequest (graph_request c1 (connPatientId first))) w1))
  /\ reqPath (graph_request c1 (connPatientId first))
     = "/llu/connections/" ++ connPatientId first ++ "/graph"
  /\ logins (trace w1) = logins (trace w).
Proof.
  intros G P E c1 w1 EG. pose proof G as (Hj & Ha & Hc).
  conjs; try reflexivity.
  rewrite getGraphData_run, (ensureAuthenticated_cached _ _ _ G).
  rewrite (getPatientId_fetch _ _ _ _ G P E). cbv iota beta.
  fold c1 w1.
  assert (Hj1 : truthy (jwtToken c1) = true) by exact Hj.
  assert (Ha1 : truthy (accountId c1) = true) by exact Ha.
  rewrite (createAuthenticatedClient_ok c1 w1 Hj1 Ha1). cbv zeta.
  fold (graph_request c1 (connPatientId first)).
  change (onGraph w1) with (onGraph w). rewrite EG. reflexivity.
Qed.

(** *** validateConnection and the target range *)

Lemma getCurrentGlucose_run (fuel : nat) (s : St) :
  getCurrentGlucose fuel s =
  match getGraphData fuel s with
  | Some (Ret data, (c', w')) =>
      Some (Ret (mapGlucoseItem (glucoseMeasurement data)
                                (targetLow (config c')) (targetHigh (config c'))),
            (c', w'))
  | Some (Throw e, s') => Some (Throw e, s')
  | None => None
  end.
Proof.
  unfold getCurrentGlucose, bind.
  destruct (getGraphData fuel s) as [[[data|e] [c' w']]|]; reflexivity.
Qed.

Lemma validateConnection_run (fuel : nat) (s : St) :
  validateConnection fuel s =
  match getGraphData fuel s with
  | Some (Ret _, s') => Some (Ret true, s')
  | Some (Throw _, s') => Some (Ret false, s')
  | None => None
  end.
Proof.
  unfold validateConnection, try_catch, bind. rewrite getCurrentGlucose_run.
  destruct (getGraphData fuel s) as [[[data|e] [c' w']]|]; reflexivity.
Qed.

(** X16.  [validateConnection] never throws.  With no token in memory and none in
    the store, a login that the server refuses makes it answer false after
    that one login request, without a data request. *)
Theorem validateConnection_rejected_login
        (f : nat) (c : LibreLinkClient) (w : World) (a : AxiosErr) :
  jwtToken c = None ->
  (is_some (configManager c) = true -> tokenFile w = NoFile) ->
  (forall h, onLogin w h (login_request c) = HttpAxiosError a) ->
  (exists w',
      validateConnection (S (S f)) (c, w) = Some (Ret false, (c, w'))
      /\ logins (trace w') = S (logins (trace w))
      /\ connection_gets (trace w') = connection_gets (trace w)
      /\ graph_gets (trace w') = graph_gets (trace w))
  /\ forall fuel s e s', validateConnection fuel s <> Some (Throw e, s').
Proof.
  intros Hj Hfile E. split.
  - assert (V : forall t, valid_at c t = false).
    { intros t. unfold valid_at. rewrite Hj. reflexivity. }
    set (w0 := if is_some (configManager c) then record EvGetToken w else w).
    assert (TR : tryRestoreSession (c, w) = Some (Ret false, (c, w0))).
    { rewrite tryRestoreSession_run. subst w0.
      destruct (configManager c); cbn [is_some] in *; [|reflexivity].
      unfold after_restore. rewrite (Hfile eq_refl). reflexivity. }
    assert (C0 : forall p, p EvGetToken = false ->
                           count p (trace w0) = count p (trace w)).
    { intros p Hp. subst w0. destruct (is_some (configManager c)); [|reflexivity].
      cbn [record trace]. rewrite count_cons, Hp. reflexivity. }
    assert (OL : onLogin w0 = onLogin w).
    { subst w0. destruct (is_some (configManager c)); reflexivity. }
    rewrite validateConnection_run, getGraphData_run.
    rewrite ensureAuthenticated_run, V, TR, V.
    destruct (login_cases c w0) as
      [(d & r' & E' & _)
      | [(d & t & u & uid & E' & _)
        | [(e & _ & EQ) | (d & t & E' & _)]]].
    + rewrite OL, E in E'. discriminate.
    + rewrite OL, E in E'. discriminate.
    + rewrite EQ. eexists. split; [reflexivity|].
      conjs; tally; rewrite C0; reflexivity.
    + rewrite OL, E in E'. discriminate.
  - intros fuel s e s'. rewrite validateConnection_run.
    destruct (getGraphData fuel s) as [[[data|e0] s0]|]; discriminate.
Qed.

(** X17.  A change of the target range alone takes effect at the next reading
    without a new login: the session stays, and the colour of the current
    glucose is computed with the new range. *)
Theorem new_target_range_applies_without_login
        (f : nat) (n : PartialConfig) (c : LibreLinkClient) (w : World)
        (pid : string) (data : GraphResponse) :
  good_session c w ->
  patientId c = Some pid -> pid <> "" ->
  changes_credentials n = false ->
  (forall req, onGraph w (trace w) req = HttpOk data) ->
  exists c' w',
    (updateConfig n ;; getCurrentGlucose (S f)) (c, w)
    = Some (Ret (mapGlucoseItem (glucoseMeasurement data)
                                (targetLow (spread (config c) n))
                                (targetHigh (spread (config c) n))),
            (c', w'))
    /\ jwtToken c' = jwtToken c
    /\ logins (trace w') = logins (trace w)
    /\ graph_gets (trace w') = S (graph_gets (trace w)).
Proof.
  intros G P NE Ch EG.
  destruct (updateConfig_run n c w) as (c1 & U & Cf & _ & _ & TE & _ & Keep).
  destruct (Keep Ch) as (J1 & A1 & P1 & _).
  unfold bind at 1. rewrite U.
  assert (G1 : good_session c1 w).
  { destruct G as (Hj & Ha & Hc). unfold good_session.
    rewrite J1, A1, TE. conjs; auto. }
  pose proof G1 as (Hj1 & Ha1 & _).
  rewrite P in P1.
  rewrite getCurrentGlucose_run, getGraphData_run.
  rewrite (ensureAuthenticated_cached _ _ _ G1).
  rewrite (getPatientId_cached _ _ _ _ P1 NE).
  rewrite (createAuthenticatedClient_ok _ _ Hj1 Ha1). cbv zeta.
  rewrite EG. rewrite Cf. do 2 eexists. split; [reflexivity|].
  conjs; auto; tally.
Qed.

Lemma getSessionStatus_run (c : LibreLinkClient) (w : World) :
  getSessionStatus (c, w)
  = Some (Ret (mkStatus (truthy (jwtToken c)) (valid_at c (now_of w))
                        (if 0 <? tokenExpires c then Some (tokenExpires c) else None)),
          (c, w)).
Proof.
  unfold getSessionStatus, bind, this, ret. cbn [fst snd].
  rewrite isTokenValid_run. reflexivity.
Qed.

(** X18.  The [validate_connection] tool fetches the graph twice: once inside
    [validateConnection], whose reading is thrown away, and once more for the
    reading it reports. *)
Theorem validate_connection_fetches_twice
        (f : nat) (c : LibreLinkClient) (w : World)
        (pid : string) (data : GraphResponse) :
  good_session c w ->
  patientId c = Some pid -> pid <> "" ->
  (forall h req, onGraph w h req = HttpOk data) ->
  exists w',
    validate_connection_calls (S f) (c, w)
    = Some (Ret (Some (mapGlucoseItem (glucoseMeasurement data)
                                      (targetLow (config c)) (targetHigh (config c)),
                       mkStatus true true
                                (if 0 <? tokenExpires c
                                 then Some (tokenExpires c) else None))),
            (c, w'))
    /\ graph_gets (trace w') = S (S (graph_gets (trace w)))
    /\ logins (trace w') = logins (trace w).
Proof.
  intros G P NE EG. pose proof G as (Hj & Ha & Hc).
  assert (Fetch : forall w0, later w w0 ->
            getGraphData (S f) (c, w0)
            = Some (Ret data, (c, record (EvRequest (graph_request c pid)) w0))).
  { intros w0 L. pose proof (good_session_later _ _ _ G L) as G0.
    rewrite getGraphData_run, (ensureAuthenticated_cached _ _ _ G0).
    rewrite (getPatientId_cached _ _ _ _ P NE).
    rewrite (createAuthenticatedClient_ok _ _ Hj Ha). cbv zeta.
    destruct L as [(_ & _ & OG & _) _]. rewrite OG, EG. reflexivity. }
  unfold validate_connection_calls, bind at 1.
  rewrite validateConnection_run, (Fetch w (later_refl w)).
  unfold bind at 1. rewrite getCurrentGlucose_run.
  rewrite (Fetch _ (later_record _ w)).
  unfold bind at 1. rewrite getSessionStatus_run. unfold ret.
  assert (V : valid_at c (now_of (record (EvRequest (graph_request c pid))
                                        (record (EvRequest (graph_request c pid)) w)))
              = true).
  { apply valid_at_true. conjs; auto. apply Hc. }
  rewrite V, Hj. eexists. split; [reflexivity|]. split; tally.
Qed.

End MoreProperties.

(* ================================================================= *)
(** ** The further properties on the fixtures *)

Section MoreScenarios.

Import Fixture Sample.

#[local] Existing Instance node.
#[local] Existing Instance types.

Lemma watcher_good : good_session watcher graph_world.
Proof. exact (conj eq_refl (conj eq_refl (fun _ => eq_refl))). Qed.

(** The history of the last two hours: the reading of exactly two hours ago,
    the one a day old and the one without a date are left out, the others come
    oldest first, the arrow 0 as 3. *)
Example history_of_two_hours :
  outcome_of (getGlucoseHistory 1 2 (watcher, graph_world))
  = Some (Ret [ Reading.mk 110 "996400000" "FortyFiveUp" 4 false false "green";
                Reading.mk 60 "999000000" "Flat" 3 false false "red" ]).
Proof. vm_compute. reflexivity. Qed.

Lemma getGlucoseHistory_within_hours_witness :
  exists readings,
    getGlucoseHistory 1 2 (watcher, graph_world) = Some (Ret readings, (watcher, graph_world_after))
    /\ Forall (within (now_of graph_world_after - 2 * 3600000)) readings.
Proof.
  apply (getGlucoseHistory_within_hours (rt := node) (ty := types)
           1 2 (watcher, graph_world) graph watcher graph_world_after).
  reflexivity.
Defined.

Lemma getGlucoseHistory_sorted_witness :
  exists readings,
    getGlucoseHistory 1 2 (watcher, graph_world) = Some (Ret readings, (watcher, graph_world_after))
    /\ StronglySorted not_after readings.
Proof.
  apply (getGlucoseHistory_sorted (rt := node) (ty := types)
           1 2 (watcher, graph_world) graph watcher graph_world_after).
  reflexivity.
Defined.

Lemma getGlucoseHistory_complete_witness :
  exists readings,
    getGlucoseHistory 1 24 (watcher, graph_world) = Some (Ret readings, (watcher, graph_world_after))
    /\ Permutation
         (map (fun item => mapGlucoseItem item (targetLow (config watcher))
                                          (targetHigh (config watcher)))
              (filter (newer_than (now_of graph_world_after - 24 * 3600000)) (graphData graph)))
         readings
    /\ (length readings <= length (graphData graph))%nat.
Proof.
  apply (getGlucoseHistory_complete (rt := node) (ty := types)
           1 24 (watcher, graph_world) graph watcher graph_world_after).
  reflexivity.
Defined.

(** A reading without an arrow, and one with an arrow the table does not
    know. *)
Lemma mapGlucoseItem_defaults_witness :
  (Reading.trendArrow (mapGlucoseItem (item 90 "n/a" None) 70 180) <> 0
   /\ Reading.trend (mapGlucoseItem (item 90 "n/a" None) 70 180) <> ""
   /\ mapGlucoseItem (item 90 "n/a" None) 70 180
      = mapGlucoseItem (item 90 "n/a" (Some 3)) 70 180)
  /\ Reading.trend (mapGlucoseItem (item 90 "999000000" (Some 9)) 70 180) = "Flat".
Proof.
  split.
  - destruct (mapGlucoseItem_defaults (ty := types)
                (item 90 "n/a" None) 70 180) as (A & B & C & _).
    conjs; [exact A | exact B | exact (C (or_introl eq_refl))].
  - destruct (mapGlucoseItem_defaults (ty := types)
                (item 90 "999000000" (Some 9)) 70 180) as (_ & _ & _ & D).
    exact (D eq_refl).
Defined.

Lemma saveSession_restore_round_trip_witness :
  exists w1 c3 w2,
    saveSession (saver, plain) = Some (Ret tt, (saver, w1))
    /\ tryRestoreSession (fresh "EU", w1) = Some (Ret true, (c3, w2))
    /\ jwtToken c3 = jwtToken saver
    /\ tokenExpires c3 = tokenExpires saver
    /\ userId c3 = userId saver
    /\ accountId c3 = accountId saver
    /\ baseUrl c3 = server_for (region (config saver))
    /\ config c3 = config (fresh "EU") /\ patientId c3 = patientId (fresh "EU")
    /\ logins (trace w2) = logins (trace plain).
Proof.
  apply (saveSession_restore_round_trip (rt := node)
           saver (fresh "EU") plain TheConfigManager TheConfigManager);
    reflexivity.
Defined.

Lemma login_survives_unwritable_store_witness :
  exists w',
    login 1 (fresh "EU", read_only_world login_always_ok)
    = Some (Ret tt, (logged_in "user-1" fresh_ticket (fresh "EU"), w'))
    /\ tokenFile w' = NoFile
    /\ later (read_only_world login_always_ok) w'
    /\ logins (trace w') = 1%nat.
Proof.
  apply (login_survives_unwritable_store (rt := node)
           0 (fresh "EU") (read_only_world login_always_ok) login_ok fresh_ticket
           "user-1");
    reflexivity.
Defined.

Lemma ensureAuthenticated_restores_without_login_witness :
  let w := world (Sealed stored_hour) login_always_ok connections_ok in
  ensureAuthenticated 0 (fresh "EU", w)
  = Some (Ret tt, (restore_from stored_hour (fresh "EU"), after_restore (fresh "EU") w))
  /\ logins (trace (after_restore (fresh "EU") w)) = logins (trace w)
  /\ tokenFile (after_restore (fresh "EU") w) = Sealed stored_hour.
Proof.
  apply (ensureAuthenticated_restores_without_login (rt := node)
           0 (fresh "EU") (world (Sealed stored_hour) login_always_ok connections_ok)
           TheConfigManager stored_hour);
    try reflexivity; discriminate.
Defined.

Lemma failed_login_keeps_restored_bundle_witness :
  exists e c' w',
    ensureAuthenticated 1 (fresh "EU", world (Sealed stored_short) login_rejected connections_ok)
    = Some (Throw e, (c', w'))
    /\ jwtToken c' = Some "jwt-old"
    /\ tokenExpires c' = t0 + 120 * 1000
    /\ userId c' = Some "user-1"
    /\ accountId c' = Some account_1
    /\ tokenFile w' = Sealed stored_short
    /\ logins (trace w') = 1%nat.
Proof.
  apply (failed_login_keeps_restored_bundle (rt := node)
           0 (fresh "EU") (world (Sealed stored_short) login_rejected connections_ok)
           TheConfigManager stored_short (http_error 401));
    reflexivity.
Defined.

Lemma updateConfig_then_stored_session_returns_witness :
  let w := world (Sealed stored_hour) login_always_ok connections_ok in
  exists c' w',
    (updateConfig other_account ;; ensureAuthenticated 0) (saver, w)
    = Some (Ret tt, (c', w'))
    /\ config c' = spread (config saver) other_account
    /\ jwtToken c' = Some "jwt-old"
    /\ userId c' = Some "user-1"
    /\ accountId c' = Some account_1
    /\ logins (trace w') = logins (trace w)
    /\ tokenFile w' = Sealed stored_hour.
Proof.
  apply (updateConfig_then_stored_session_returns (rt := node)
           0 other_account saver
           (world (Sealed stored_hour) login_always_ok connections_ok)
           TheConfigManager stored_hour);
    try reflexivity; discriminate.
Defined.

Lemma redirected_session_is_not_restored_witness :
  let w := world NoFile (login_after_redirects 1 "us") connections_ok in
  exists c' w' td,
    login 2 (fresh "EU", w) = Some (Ret tt, (c', w'))
    /\ tokenFile w' = Sealed td
    /\ Stored.region td = "US"
    /\ Stored.token td = "jwt-new"
    /\ tryRestoreSession (fresh "EU", w')
       = Some (Ret false, (fresh "EU", delete_token_file (record EvGetToken w')))
    /\ tokenFile (delete_token_file (record EvGetToken w')) = NoFile.
Proof.
  apply (redirected_session_is_not_restored (rt := node)
           0 (cfg "EU") TheConfigManager
           (world NoFile (login_after_redirects 1 "us") connections_ok)
           "us" (redirect_to "us") login_ok fresh_ticket "user-1");
    try reflexivity; try discriminate.
Defined.

Lemma login_throws_plain_errors_witness :
  exists e s',
    login 1 (fresh "EU", world NoFile login_rejected connections_ok) = Some (Throw e, s')
    /\ match e with
       | JsError _ | OtherError _ => True
       | AxiosError _ | CorruptedStoreError | StoreWriteError => False
       end.
Proof.
  eexists. eexists.
  assert (E : login 1 (fresh "EU", world NoFile login_rejected connections_ok)
              = Some (Throw _, _)) by (vm_compute; reflexivity).
  split; [exact E |].
  exact (login_throws_plain_errors (rt := node) 1 _ _ _ E).
Defined.

Lemma data_errors_pass_through_witness :
  getConnections 1 (watcher, forbidden_world)
  = Some (Throw (AxiosError refused), (watcher, record (EvRequest (connections_request watcher)) forbidden_world))
  /\ getGraphData 1 (watcher, forbidden_world)
     = Some (Throw (AxiosError refused),
             (watcher, record (EvRequest (graph_request watcher "patient-7")) forbidden_world)).
Proof.
  assert (G : good_session watcher forbidden_world)
    by exact (conj eq_refl (conj eq_refl (fun _ => eq_refl))).
  assert (N : errStatus refused <> Some 401) by discriminate.
  destruct (data_errors_pass_through (rt := node) 0 watcher forbidden_world refused G N) as [A B].
  split.
  - exact (A eq_refl).
  - apply (B "patient-7"); [reflexivity | discriminate | reflexivity].
Defined.

Lemma getPatientId_no_connections_witness :
  let w := world NoFile login_always_ok no_connections in
  getPatientId 1 (saver, w)
  = Some (Throw (JsError NO_CONNECTIONS),
          (saver, record (EvRequest (connections_request saver)) w)).
Proof.
  apply (getPatientId_no_connections (rt := node)
           0 saver (world NoFile login_always_ok no_connections) (Some []));
    [ exact (conj eq_refl (conj eq_refl (fun _ => eq_refl)))
    | reflexivity | reflexivity | right; reflexivity ].
Defined.

Lemma getPatientId_caches_witness :
  let s1 := (set_patientId (Some "patient-7") saver,
             record (EvRequest (connections_request saver)) plain) in
  getPatientId 1 (saver, plain) = Some (Ret "patient-7", s1)
  /\ forall f', getPatientId f' s1 = Some (Ret "patient-7", s1).
Proof.
  apply (getPatientId_caches (rt := node) 0 saver plain carol []);
    [ exact (conj eq_refl (conj eq_refl (fun _ => eq_refl)))
    | reflexivity | reflexivity | discriminate ].
Defined.

Lemma getGraphData_first_connection_witness :
  let w := world_g NoFile login_always_ok connections_ok graph_server in
  let c1 := set_patientId (Some "patient-7") saver in
  let w1 := record (EvRequest (connections_request saver)) w in
  getGraphData 2 (saver, w)
  = Some (Ret Sample.graph, (c1, record (EvRequest (graph_request c1 "patient-7")) w1))
  /\ reqPath (graph_request c1 "patient-7") = "/llu/connections/patient-7/graph"
  /\ logins (trace w1) = logins (trace w).
Proof.
  apply (getGraphData_first_connection (rt := node)
           0 saver (world_g NoFile login_always_ok connections_ok graph_server)
           carol [] Sample.graph);
    [ exact (conj eq_refl (conj eq_refl (fun _ => eq_refl)))
    | reflexivity | reflexivity | reflexivity ].
Defined.

Lemma validateConnection_rejected_login_witness :
  let w := world NoFile login_rejected connections_ok in
  (exists w',
      validateConnection 2 (fresh "EU", w) = Some (Ret false, (fresh "EU", w'))
      /\ logins (trace w') = S (logins (trace w))
      /\ connection_gets (trace w') = connection_gets (trace w)
      /\ graph_gets (trace w') = graph_gets (trace w))
  /\ forall fuel s e s', validateConnection fuel s <> Some (Throw e, s').
Proof.
  apply (validateConnection_rejected_login (rt := node) (ty := types)
           0 (fresh "EU") (world NoFile login_rejected connections_ok)
           (http_error 401));
    [ reflexivity | intros _; reflexivity | intros h; reflexivity ].
Defined.

(** The current reading of 105 is green in the range 70-180 and red in the
    range 110-160. *)
Example colour_follows_the_range :
  option_map (fun r => Reading.color r)
             (match outcome_of (getCurrentGlucose 1 (watcher, graph_world)) with
              | Some (Ret r) => Some r | _ => None end) = Some "green"
  /\ option_map (fun r => Reading.color r)
                (match outcome_of ((updateConfig narrower ;; getCurrentGlucose 1) (watcher, graph_world)) with
                 | Some (Ret r) => Some r | _ => None end) = Some "red".
Proof. split; vm_compute; reflexivity. Qed.

Lemma new_target_range_applies_without_login_witness :
  exists c' w',
    (updateConfig narrower ;; getCurrentGlucose 1) (watcher, graph_world)
    = Some (Ret (mapGlucoseItem (glucoseMeasurement Sample.graph) 110 160), (c', w'))
    /\ jwtToken c' = jwtToken watcher
    /\ logins (trace w') = logins (trace graph_world)
    /\ graph_gets (trace w') = S (graph_gets (trace graph_world)).
Proof.
  apply (new_target_range_applies_without_login (rt := node) (ty := types)
           0 narrower watcher graph_world "patient-7" Sample.graph);
    [ exact watcher_good | reflexivity | discriminate | reflexivity
    | intros req; reflexivity ].
Defined.

Lemma validate_connection_fetches_twice_witness :
  exists w',
    validate_connection_calls 1 (watcher, graph_world)
    = Some (Ret (Some (mapGlucoseItem (glucoseMeasurement Sample.graph) 70 180,
                       mkStatus true true (Some (t0 + 3600 * 1000)))),
            (watcher, w'))
    /\ graph_gets (trace w') = S (S (graph_gets (trace graph_world)))
    /\ logins (trace w') = logins (trace graph_world).
Proof.
  apply (validate_connection_fetches_twice (rt := node) (ty := types)
           0 watcher graph_world "patient-7" Sample.graph);
    [ exact watcher_good | reflexivity | discriminate | intros h req; reflexivity ].
Defined.

End MoreScenarios.
